(** * lukefinance-dashboard: stage resolution, monthly rollover, goal projection

    A shallow embedding of the dashboard's core (the browser script's
    [validatePlan], [findStageForYearMonth], [applyMonthlyRolloverIfNeeded],
    [projectGoalDate], [projectBufferDate], the start-up restore in
    [loadPlan]) and of the server's [PUT /api/state] handler.

    Numbers are IEEE-754 binary64 values, as in the language: the kernel's
    primitive [float].  Strings are byte strings (UTF-8) compared byte by
    byte; this is the language's code-unit order on the ASCII strings the
    plan format uses.  Plans, stages, goals and request bodies are JSON
    values. *)

From Stdlib Require Import ZArith List String Ascii Bool Lia.
From Stdlib Require Import DecimalString.
From Stdlib Require Import PrimFloat SpecFloat FloatOps.
From Stdlib Require FloatAxioms DecimalZ.
Import ListNotations.

Set Warnings "-register-all,-inexact-float".

Local Open Scope string_scope.
Local Open Scope Z_scope.

(** ** JavaScript values *)

(** A JSON document after [JSON.parse], plus [undefined] for a missing
    property.  An object keeps its properties as an association list; a
    lookup takes the first binding of a key. *)
Inductive value : Type :=
| VUndefined
| VNull
| VBool (b : bool)
| VNum (x : float)
| VStr (s : string)
| VArr (xs : list value)
| VObj (fields : list (string * value)).

Fixpoint assoc (k : string) (fields : list (string * value)) : value :=
  match fields with
  | [] => VUndefined
  | (k', v) :: rest => if String.eqb k k' then v else assoc k rest
  end.

(** [o?.k] for the property names this program reads (none of them lives
    on a prototype): a property of an object, [undefined] on anything else. *)
Definition get (o : value) (k : string) : value :=
  match o with
  | VObj fields => assoc k fields
  | _ => VUndefined
  end.

(** [Object.prototype.hasOwnProperty.call(o, k)], for the goal's key names. *)
Definition hasOwnProperty (o : value) (k : string) : bool :=
  match o with
  | VObj fields => existsb (fun kv => String.eqb k (fst kv)) fields
  | _ => false
  end.

(** ToBoolean. *)
Definition truthy (v : value) : bool :=
  match v with
  | VUndefined | VNull => false
  | VBool b => b
  | VNum x => negb (PrimFloat.eqb x 0%float || is_nan x)
  | VStr s => negb (String.eqb s "")
  | VArr _ | VObj _ => true
  end.

(** What the language's own library does and this repository does not
    define: number parsing and printing, the string form of an array or
    object, locale collation and [Math.pow]. *)
Class Host : Type := {
  StringToNumber : string -> float;
  NumberToString : float -> string;
  ObjectToString : value -> string;
  localeCompare : string -> string -> comparison;
  Math_pow : float -> float -> float
}.

(** Exceptions: the only one this code can raise is a TypeError. *)
Inductive result (A : Type) : Type :=
| Ok (a : A)
| Throw (msg : string).
Arguments Ok {A} a.
Arguments Throw {A} msg.

Definition bind {A B : Type} (r : result A) (k : A -> result B) : result B :=
  match r with
  | Ok a => k a
  | Throw msg => Throw msg
  end.

Notation "x <- r ;; k" := (bind r (fun x => k))
  (at level 61, r at next level, right associativity).

(** Converting a JSON value to a primitive can raise a TypeError.
    [JSON.parse] gives plain objects and arrays.  A plain object converts
    through its [toString] (the inherited [valueOf] returns the object
    itself): with an own property [toString], which JSON cannot make
    callable, no method returns a primitive and the conversion raises.
    An array converts by joining its elements, each converted to a string
    in turn (null as the empty string), so it raises when an element
    does.  This holds for the conversion to a number ([<=], [Number]) and
    for the conversion to a string ([localeCompare], template
    literals). *)
Fixpoint conversion_raises (v : value) : bool :=
  match v with
  | VObj fields => existsb (fun kv => String.eqb "toString" (fst kv)) fields
  | VArr xs => existsb conversion_raises xs
  | _ => false
  end.

(** An expression that converts [inputs] and then has the value [v]. *)
Definition converting {A : Type} (inputs : list value) (v : A) : result A :=
  if existsb conversion_raises inputs then Throw "TypeError" else Ok v.

(** The conversions below give the value of a conversion that returns.
    No conversion raises on the stages of a plan that passed validation
    (their [from] and [to] are strings or falsy primitives); where a claim
    is about values that may not convert, the code is modelled with
    [converting]. *)
Section Coercions.
Context {host : Host}.

Definition ToPrimitive (v : value) : value :=
  match v with
  | VArr _ | VObj _ => VStr (ObjectToString v)
  | _ => v
  end.

Definition ToNumber (v : value) : float :=
  match ToPrimitive v with
  | VUndefined => nan
  | VNull => 0%float
  | VBool b => if b then 1%float else 0%float
  | VNum x => x
  | VStr s => StringToNumber s
  | VArr _ | VObj _ => nan
  end.

Definition ToString (v : value) : string :=
  match v with
  | VUndefined => "undefined"
  | VNull => "null"
  | VBool b => if b then "true" else "false"
  | VNum x => NumberToString x
  | VStr s => s
  | VArr _ | VObj _ => ObjectToString v
  end.

(** [a <= b]: two strings compare by code units, anything else as
    numbers (a comparison with NaN is false). *)
Definition js_le (a b : value) : bool :=
  match ToPrimitive a, ToPrimitive b with
  | VStr x, VStr y => String.leb x y
  | pa, pb => PrimFloat.leb (ToNumber pa) (ToNumber pb)
  end.
End Coercions.

(** [safeNumber]: the number itself, or null. *)
Definition safeNumber (v : value) : option float :=
  match v with
  | VNum x => Some x
  | _ => None
  end.

(** ** Date helpers *)

(** A [Date] in local time, as far as this program looks at it: invalid, or
    a year, a month index 0..11 and the milliseconds since that month began.
    The cursors of the loops below are month starts ([offset = 0]).  The
    finite range of [Date] (about 275,000 years either side of 1970) is not
    modelled. *)
Inductive Date : Type :=
| InvalidDate
| At (year month offset : Z).

Definition getFullYear (d : Date) : option Z :=
  match d with InvalidDate => None | At y _ _ => Some y end.

Definition getMonth (d : Date) : option Z :=
  match d with InvalidDate => None | At _ m _ => Some m end.

(** [new Date(y, m, 1, 0, 0, 0, 0)]: NaN anywhere gives an invalid date, a
    year 0..99 means 1900..1999, and a month outside 0..11 carries into the
    year. *)
Definition new_Date (y m : option Z) : Date :=
  match y, m with
  | Some y, Some m =>
      let yr := if (0 <=? y) && (y <=? 99) then 1900 + y else y in
      At (yr + m / 12) (m mod 12) 0
  | _, _ => InvalidDate
  end.

(** [String(n)] for an integer or NaN. *)
Definition String_of (n : option Z) : string :=
  match n with
  | Some z => NilZero.string_of_int (Z.to_int z)
  | None => "NaN"
  end.

(** [s.padStart(2, "0")]. *)
Definition padStart2 (s : string) : string :=
  match s with
  | "" => "00"
  | String c "" => String "0" (String c "")
  | _ => s
  end.

Definition getCurrentYearMonth (d : Date) : string :=
  let year := String_of (getFullYear d) in
  let month := padStart2 (String_of (option_map (fun m => m + 1) (getMonth d))) in
  year ++ "-" ++ month.

(** [s.split("-")]. *)
Fixpoint split_dash_aux (cur : string) (s : string) : list string :=
  match s with
  | "" => [cur]
  | String c rest =>
      if Ascii.eqb c "-" then cur :: split_dash_aux "" rest
      else split_dash_aux (cur ++ String c "") rest
  end.

Definition split_dash (s : string) : list string := split_dash_aux "" s.

Definition is_digit (c : ascii) : bool :=
  (Ascii.leb "0" c) && (Ascii.leb c "9").

Definition digit_val (c : ascii) : Z := Z.of_N (N_of_ascii c) - 48.

Fixpoint digits_val (acc : Z) (s : string) : option Z :=
  match s with
  | "" => Some acc
  | String c rest =>
      if is_digit c then digits_val (10 * acc + digit_val c) rest else None
  end.

(** [Number(piece)] for a piece of a year-month string.  The watermark only
    ever holds a string accepted by [isValidYearMonth] or produced by
    [getCurrentYearMonth], whose pieces between hyphens are runs of decimal
    digits, the empty string, or "NaN"; [Number] is modelled on those: the
    value of the digits, 0 for the empty string, NaN ([None]) otherwise. *)
Definition Number_piece (s : string) : option Z := digits_val 0 s.

Definition parseYearMonth (ym : string) : Date :=
  match map Number_piece (split_dash ym) with
  | y :: m :: _ => new_Date y (option_map (fun m => m - 1) m)
  | _ => InvalidDate
  end.

(** [addMonths]: a copy of the date, moved by [setMonth].  The script
    passes month starts only (the results of [parseYearMonth] and of
    [new Date(year, month + 1, 1)], and the cursors made from them); on a
    month start the day of the month cannot overflow, so only year and
    month change.  On a later day [setMonth] can overflow into the month
    after (31 January moved by one month is 3 March): the offset kept here
    is not the code's then, and the properties below are stated for month
    starts. *)
Definition addMonths (date : Date) (months : Z) : Date :=
  match date with
  | InvalidDate => InvalidDate
  | At y m off => At (y + (m + months) / 12) ((m + months) mod 12) off
  end.

(** ** Plan validation *)

Definition isValidYearMonth (v : value) : bool :=
  match v with
  | VStr (String y1 (String y2 (String y3 (String y4
      (String dash (String m1 (String m2 ""))))))) =>
      is_digit y1 && is_digit y2 && is_digit y3 && is_digit y4
      && Ascii.eqb dash "-" && is_digit m1 && is_digit m2
      && (let month := 10 * digit_val m1 + digit_val m2 in
          (1 <=? month) && (month <=? 12))
  | _ => false
  end.

(** White space removed by [trim], within ASCII: tab, line feed, vertical
    tab, form feed, carriage return, space. *)
Definition is_space (c : ascii) : bool :=
  let n := N_of_ascii c in
  ((9 <=? n) && (n <=? 13))%N || (n =? 32)%N.

(** The other white space [trim] removes, as UTF-8: the no-break space
    U+00A0 in two bytes; in three bytes U+1680, U+2000 to U+200A, the line
    and paragraph separators U+2028 and U+2029, U+202F, U+205F, the
    ideographic space U+3000 and the byte order mark U+FEFF. *)
Definition is_space2 (c1 c2 : ascii) : bool :=
  ((N_of_ascii c1 =? 194) && (N_of_ascii c2 =? 160))%N.

Definition is_space3 (c1 c2 c3 : ascii) : bool :=
  let n1 := N_of_ascii c1 in
  let n2 := N_of_ascii c2 in
  let n3 := N_of_ascii c3 in
  ((n1 =? 225) && (n2 =? 154) && (n3 =? 128)
   || (n1 =? 226) && (n2 =? 128)
      && ((128 <=? n3) && (n3 <=? 138) || (n3 =? 168) || (n3 =? 169)
          || (n3 =? 175))
   || (n1 =? 226) && (n2 =? 129) && (n3 =? 159)
   || (n1 =? 227) && (n2 =? 128) && (n3 =? 128)
   || (n1 =? 239) && (n2 =? 187) && (n3 =? 191))%N.

(** [s.trim() === ""]: the string holds white space only. *)
Fixpoint trim_is_empty (s : string) : bool :=
  match s with
  | "" => true
  | String c1 rest1 =>
      if is_space c1 then trim_is_empty rest1
      else
        match rest1 with
        | "" => false
        | String c2 rest2 =>
            if is_space2 c1 c2 then trim_is_empty rest2
            else
              match rest2 with
              | "" => false
              | String c3 rest3 =>
                  is_space3 c1 c2 c3 && trim_is_empty rest3
              end
        end
  end.

Definition name_missing (stage : value) : bool :=
  negb (truthy stage)
  || match get stage "name" with
     | VStr name => trim_is_empty name
     | _ => true
     end.

Definition stage_label (i : nat) : string :=
  "Stage " ++ String_of (Some (Z.of_nat i + 1)).

(** The body of [plan.stages.forEach((stage, i) => ...)]. *)
Definition stage_issues (i : nat) (stage : value) : list string :=
  (if name_missing stage
   then [stage_label i ++ " is missing a name."] else [])
  ++ (if negb (isValidYearMonth (get stage "from"))
      then [stage_label i ++ " must include a valid from (YYYY-MM)."] else [])
  ++ (if truthy (get stage "to") && negb (isValidYearMonth (get stage "to"))
      then [stage_label i ++ " has an invalid to (YYYY-MM)."] else []).

Fixpoint forEach_stage (i : nat) (stages : list value) : list string :=
  match stages with
  | [] => []
  | stage :: rest => stage_issues i stage ++ forEach_stage (S i) rest
  end.

Definition required_goal_keys : list string :=
  ["target_longterm"; "target_buffer"; "current_longterm"; "current_buffer";
   "target_year"].

Definition goal_issues (g : value) : list string :=
  flat_map (fun k => if hasOwnProperty g k then []
                     else ["Goal must include " ++ k ++ "."])
           required_goal_keys.

Definition validatePlan (plan : value) : list string :=
  match (if truthy plan then get plan "stages" else VUndefined) with
  | VArr ((_ :: _) as stages) =>
      forEach_stage 0 stages
      ++ (if truthy (get plan "goal") then goal_issues (get plan "goal") else [])
  | _ => ["Plan must include a non-empty stages array."]
  end.

(** ** Stage selection *)

Section StageSelection.
Context {host : Host}.

(** [x.from.localeCompare(y.from)]: a TypeError unless [x.from] is a
    string and [y] is an object to read [from] of. *)
Definition compare_from (x y : value) : result comparison :=
  match get x "from", y with
  | VStr fx, (VNull | VUndefined) => Throw "TypeError"
  | VStr fx, _ => Ok (localeCompare fx (ToString (get y "from")))
  | _, _ => Throw "TypeError"
  end.

(** [Array.prototype.sort] with a comparator: stable, and an exception of
    the comparator ends it.  Which pairs an engine compares, and which
    element of a pair it passes first, is its own business; here each
    element is inserted into the sorted rest and passed first.  Every
    stable sort gives this result when the comparator raises for no pair
    and orders the elements consistently; when it raises for some pairs
    only, an engine may raise where this sort returns and the other way
    round, and no property below is about such a list. *)
Fixpoint insert_by (cmp : value -> value -> result comparison)
         (x : value) (sorted : list value) : result (list value) :=
  match sorted with
  | [] => Ok [x]
  | y :: rest =>
      c <- cmp x y ;;
      match c with
      | Gt => r <- insert_by cmp x rest ;; Ok (y :: r)
      | _ => Ok (x :: sorted)
      end
  end.

Fixpoint sort_by (cmp : value -> value -> result comparison)
         (l : list value) : result (list value) :=
  match l with
  | [] => Ok []
  | x :: rest => s <- sort_by cmp rest ;; insert_by cmp x s
  end.

(** The filter of the exact match: [from <= ym <= to/open]. *)
Definition is_candidate (ym : string) (s : value) : bool :=
  if negb (truthy (get s "from")) then false
  else
    let startsOk := js_le (get s "from") (VStr ym) in
    let endsOk :=
      if truthy (get s "to") then js_le (VStr ym) (get s "to") else true in
    startsOk && endsOk.

Definition is_prior (ym : string) (s : value) : bool :=
  truthy (get s "from") && js_le (get s "from") (VStr ym).

Definition by_from_desc (a b : value) : result comparison := compare_from b a.
Definition by_from_asc (a b : value) : result comparison := compare_from a b.

Definition findStageForYearMonth (stages : value) (ym : string)
  : result value :=
  match stages with
  | VArr ((_ :: _) as stages) =>
      candidates <- sort_by by_from_desc (filter (is_candidate ym) stages) ;;
      match candidates with
      | c :: _ => Ok c
      | [] =>
          prior <- sort_by by_from_desc (filter (is_prior ym) stages) ;;
          match prior with
          | p :: _ => Ok p
          | [] =>
              earliest <- sort_by by_from_asc stages ;;
              match earliest with
              | e :: _ => Ok (if truthy e then e else VNull)
              | [] => Ok VNull
              end
          end
      end
  | _ => Ok VNull
  end.

(** *** The lookup on stages that need not convert *)

(** [Array.prototype.filter] with a callback that may raise. *)
Fixpoint filter_by (keep : value -> result bool) (l : list value)
  : result (list value) :=
  match l with
  | [] => Ok []
  | x :: rest =>
      k <- keep x ;;
      kept <- filter_by keep rest ;;
      Ok (if k then x :: kept else kept)
  end.

(** [a <= b] with its conversions. *)
Definition le_converting (a b : value) : result bool :=
  converting [a; b] (js_le a b).

(** The callback of the first filter: both comparisons are made whenever
    [from] is truthy. *)
Definition candidate_test (ym : string) (s : value) : result bool :=
  if negb (truthy (get s "from")) then Ok false
  else
    startsOk <- le_converting (get s "from") (VStr ym) ;;
    endsOk <- (if truthy (get s "to")
               then le_converting (VStr ym) (get s "to") else Ok true) ;;
    Ok (startsOk && endsOk).

(** The callback of the second filter. *)
Definition prior_test (ym : string) (s : value) : result bool :=
  if negb (truthy (get s "from")) then Ok false
  else le_converting (get s "from") (VStr ym).

(** [findStageForYearMonth] on any JSON value: the lookup above, with the
    TypeError of a comparison whose operand does not convert.  The
    comparators convert [from] only, and a [from] that does not convert
    has made the first filter raise before. *)
Definition findStageForYearMonth_converting (stages : value) (ym : string)
  : result value :=
  match stages with
  | VArr ((_ :: _) as stages) =>
      matching <- filter_by (candidate_test ym) stages ;;
      candidates <- sort_by by_from_desc matching ;;
      match candidates with
      | c :: _ => Ok c
      | [] =>
          started <- filter_by (prior_test ym) stages ;;
          prior <- sort_by by_from_desc started ;;
          match prior with
          | p :: _ => Ok p
          | [] =>
              earliest <- sort_by by_from_asc stages ;;
              match earliest with
              | e :: _ => Ok (if truthy e then e else VNull)
              | [] => Ok VNull
              end
          end
      end
  | _ => Ok VNull
  end.
End StageSelection.

(** ** Goal state *)

(** The module-level [goalState], passed and returned explicitly.  Both
    balances are numbers at every assignment in the script;
    [lastRolloverYm] is null ([None]) or a string. *)
Record GoalState : Type := mkGoalState {
  currentLongterm : float;
  currentBuffer : float;
  lastRolloverYm : option string
}.

Definition initial_goalState : GoalState := mkGoalState 0 0 None.

(** [x += add] when [typeof add === "number"]. *)
Definition deposit (balance : float) (add : option float) : float :=
  match add with
  | Some a => (balance + a)%float
  | None => balance
  end.

(** [now] is the value of [new Date()] at the call. *)
Definition initGoalState (plan : value) (now : Date) : GoalState :=
  let seedLong := safeNumber (get (get plan "goal") "current_longterm") in
  let seedBuf := safeNumber (get (get plan "goal") "current_buffer") in
  mkGoalState (match seedLong with Some x => x | None => 0%float end)
              (match seedBuf with Some x => x | None => 0%float end)
              (Some (getCurrentYearMonth now)).

(** The part of [loadPlan] that sets [goalState] at start-up from what the
    server returned ([storedState], null when there is none). *)
Definition loadPlan_goalState (plan storedState : value) (now : Date) : GoalState :=
  let storedYm := get storedState "last_rollover_ym" in
  match safeNumber (get storedState "current_longterm"),
        safeNumber (get storedState "current_buffer") with
  | Some storedLong, Some storedBuf =>
      mkGoalState storedLong storedBuf
        (Some (if isValidYearMonth storedYm then
                 match storedYm with VStr s => s | _ => "" end
               else getCurrentYearMonth now))
  | _, _ => initGoalState plan now
  end.

(** ** Monthly rollover *)

(** How a run of the rollover ends: normally, with an exception of the
    stage lookup, or (in the model only) with the loop's fuel used up. *)
Inductive outcome (A : Type) : Type :=
| Done (a : A)
| Raised (msg : string)
| OutOfFuel.
Arguments Done {A} a.
Arguments Raised {A} msg.
Arguments OutOfFuel {A}.

Section Rollover.
Context {host : Host}.

(** The [while (getCurrentYearMonth(cursor) <= currentYm)] loop. *)
Fixpoint rollover_loop (fuel : nat) (stages : value) (currentYm : string)
         (cursor : Date) (st : GoalState) (changed : bool)
  : outcome (GoalState * bool) :=
  match fuel with
  | O => OutOfFuel
  | S fuel' =>
      let ym := getCurrentYearMonth cursor in
      if String.leb ym currentYm then
        match findStageForYearMonth stages ym with
        | Throw msg => Raised msg
        | Ok stage =>
            let addLong := safeNumber (get stage "saving_longterm") in
            let addBuf := safeNumber (get stage "saving_buffer") in
            let changed' :=
              match addLong, addBuf with
              | None, None => changed
              | _, _ => true
              end in
            let st' := mkGoalState (deposit (currentLongterm st) addLong)
                                   (deposit (currentBuffer st) addBuf)
                                   (Some ym) in
            rollover_loop fuel' stages currentYm (addMonths cursor 1) st' changed'
        end
      else Done (st, changed)
  end.

Definition applyMonthlyRolloverIfNeeded (fuel : nat) (stages : value)
           (now : Date) (st : GoalState) : outcome (GoalState * bool) :=
  let currentYm := getCurrentYearMonth now in
  match lastRolloverYm st with
  | None | Some "" =>
      Done (mkGoalState (currentLongterm st) (currentBuffer st) (Some currentYm),
            false)
  | Some last =>
      if String.leb currentYm last then Done (st, false)
      else
        rollover_loop fuel stages currentYm
                      (addMonths (parseYearMonth last) 1) st false
  end.
End Rollover.

(** ** Goal projection *)

Inductive Projection : Type :=
| NotReached
| Reached (date : Date).

Section Projection.
Context {host : Host}.

(** One simulated month of the long-term projection: deposits first, then
    growth on the long-term balance only. *)
Definition simulate_month (monthlyRate : float) (stage : value)
           (balances : float * float) : float * float :=
  let '(longTermBalance, bufferBalance) := balances in
  let longTermBalance := deposit longTermBalance
                           (safeNumber (get stage "saving_longterm")) in
  let bufferBalance := deposit bufferBalance
                         (safeNumber (get stage "saving_buffer")) in
  ((longTermBalance * (1 + monthlyRate))%float, bufferBalance).

(** The [for] loop of [projectGoalDate], [n] iterations left. *)
Fixpoint goal_loop (n : nat) (stages : value) (targetLT targetBuf : float)
         (monthlyRate : float) (cursor : Date) (balances : float * float)
  : result Projection :=
  match n with
  | O => Ok NotReached
  | S n' =>
      stage <- findStageForYearMonth stages (getCurrentYearMonth cursor) ;;
      let balances' := simulate_month monthlyRate stage balances in
      if (targetLT <=? fst balances')%float && (targetBuf <=? snd balances')%float
      then Ok (Reached cursor)
      else goal_loop n' stages targetLT targetBuf monthlyRate
                     (addMonths cursor 1) balances'
  end.

Definition annualRate : float := 0.08%float.

Definition monthlyRate : float :=
  (Math_pow (1 + annualRate) (1 / 12) - 1)%float.

Definition first_of_next_month (now : Date) : Date :=
  new_Date (getFullYear now) (option_map (fun m => m + 1) (getMonth now)).

Definition projectGoalDate (stages goal : value) (now : Date) (st : GoalState)
  : result Projection :=
  match safeNumber (get goal "target_longterm"),
        safeNumber (get goal "target_buffer") with
  | Some targetLT, Some targetBuf =>
      if (targetLT <=? 0)%float then Ok NotReached
      else if (targetBuf <? 0)%float then Ok NotReached
      else
        let longTermBalance := currentLongterm st in
        let bufferBalance := currentBuffer st in
        if (targetLT <=? longTermBalance)%float
           && (targetBuf <=? bufferBalance)%float
        then Ok (Reached now)
        else goal_loop 600 stages targetLT targetBuf monthlyRate
                       (first_of_next_month now)
                       (longTermBalance, bufferBalance)
  | _, _ => Ok NotReached
  end.

(** The [for] loop of [projectBufferDate]. *)
Fixpoint buffer_loop (n : nat) (stages : value) (targetBuf : float)
         (cursor : Date) (bufferBalance : float) : result Projection :=
  match n with
  | O => Ok NotReached
  | S n' =>
      stage <- findStageForYearMonth stages (getCurrentYearMonth cursor) ;;
      let bufferBalance := deposit bufferBalance
                             (safeNumber (get stage "saving_buffer")) in
      if (targetBuf <=? bufferBalance)%float then Ok (Reached cursor)
      else buffer_loop n' stages targetBuf (addMonths cursor 1) bufferBalance
  end.

Definition projectBufferDate (stages goal : value) (now : Date) (st : GoalState)
  : result Projection :=
  match safeNumber (get goal "target_buffer") with
  | Some targetBuf =>
      if (targetBuf <=? 0)%float then Ok NotReached
      else
        let bufferBalance := currentBuffer st in
        if (targetBuf <=? bufferBalance)%float then Ok (Reached now)
        else buffer_loop 600 stages targetBuf (first_of_next_month now)
                         bufferBalance
  | None => Ok NotReached
  end.
End Projection.

(** ** The server's state storage: [PUT /api/state] *)

Section Server.
Context {host : Host}.

(** [Number(x) || 0]. *)
Definition number_or_zero (x : value) : float :=
  let n := ToNumber x in
  if truthy (VNum n) then n else 0%float.

(** A number as [JSON.stringify] writes it and [JSON.parse] reads it back:
    an infinity is written as null. *)
Definition json_number (x : float) : value :=
  if is_nan x || is_infinity x then VNull else VNum x.

(** The record [out] of the handler, as it is serialised. *)
Definition state_record (body : value) (timestamp : string) : value :=
  VObj [ ("current_longterm", json_number (number_or_zero (get body "current_longterm")));
         ("current_buffer", json_number (number_or_zero (get body "current_buffer")));
         ("last_rollover_ym",
           match get body "last_rollover_ym" with
           | VStr s => VStr s
           | _ => VNull
           end);
         ("updated_at", VStr timestamp) ].

(** The handler where both [Number(...)] return: [req_body] is
    [req.body], [timestamp] is [new Date().toISOString()]; the result is
    the new content of state.json and the response body. *)
Definition put_state (req_body : value) (timestamp : string) : value * value :=
  let body := if truthy req_body then req_body else VObj [] in
  let out := state_record body timestamp in
  (out, out).

(** The handler on any body, with the state file before it ([None]: no
    file): the state file after it and the answer.  [Number(...)] raises
    where its argument does not convert; the exception leaves the handler
    before [writeState] and [res.json], so the file stays as it was and no
    record is answered. *)
Definition app_put_state (file : option value) (req_body : value)
           (timestamp : string) : option value * result value :=
  let body := if truthy req_body then req_body else VObj [] in
  match converting [get body "current_longterm"; get body "current_buffer"]
                   (put_state req_body timestamp) with
  | Ok (stored, response) => (Some stored, Ok response)
  | Throw msg => (file, Throw msg)
  end.
End Server.

(** * Specification vocabulary *)

(** A host for the examples: digit strings parse to their value, collation
    is the code-unit order, and [Math.pow] answers its one call,
    [Math.pow(1.08, 1/12)], with the twelfth root of 1.08 rounded down to
    a double. *)
Definition twelfth_root : float := 0x1.01a5a91ce768ep+0%float.

Fixpoint float_of_positive (p : positive) : float :=
  match p with
  | xH => 1%float
  | xO q => (2 * float_of_positive q)%float
  | xI q => (2 * float_of_positive q + 1)%float
  end.

Definition float_of_Z (z : Z) : float :=
  match z with
  | Z0 => 0%float
  | Zpos p => float_of_positive p
  | Zneg p => (- float_of_positive p)%float
  end.

Definition reference_host : Host := {|
  StringToNumber := fun s =>
    match s, Number_piece s with
    | String _ _, Some z => float_of_Z z
    | _, _ => nan
    end;
  NumberToString := fun _ => "NaN";
  ObjectToString := fun _ => "[object Object]";
  localeCompare := String.compare;
  Math_pow := fun _ _ => twelfth_root
|}.

(** ** The watermark invariant *)

(** The watermark is not ahead of the month of [now]. *)
Definition watermark_ok (now : Date) (st : GoalState) : Prop :=
  match lastRolloverYm st with
  | None => True
  | Some last => String.leb last (getCurrentYearMonth now) = true
  end.

(** The same for the record the server handed back at start-up. *)
Definition stored_watermark_ok (now : Date) (storedState : value) : Prop :=
  forall s, get storedState "last_rollover_ym" = VStr s ->
            isValidYearMonth (VStr s) = true ->
            String.leb s (getCurrentYearMonth now) = true.

(** ** Malformed stages *)

(** A stage that fails at least one of the validator's three checks. *)
Definition malformed (stage : value) : bool :=
  name_missing stage
  || negb (isValidYearMonth (get stage "from"))
  || (truthy (get stage "to") && negb (isValidYearMonth (get stage "to"))).

(** The plan has no usable [stages]: the plan is falsy, [stages] is not an
    array, or it is the empty array. *)
Definition no_stages (plan : value) : Prop :=
  truthy plan = false
  \/ (forall xs, get plan "stages" <> VArr xs)
  \/ get plan "stages" = VArr [].

(** ** Stages and year-months *)

Definition from_of (s : value) : string :=
  match get s "from" with VStr f => f | _ => "" end.

Definition to_of (s : value) : string :=
  match get s "to" with VStr t => t | _ => "" end.

(** What the validator checks of a stage's [from] and [to]. *)
Definition stage_ok (s : value) : bool :=
  isValidYearMonth (get s "from")
  && (negb (truthy (get s "to")) || isValidYearMonth (get s "to")).

(** [from <= ym], as strings. *)
Definition started (ym : string) (s : value) : bool :=
  String.leb (from_of s) ym.

(** [from <= ym] and ([to] absent or [ym <= to]), as strings. *)
Definition contains (ym : string) (s : value) : bool :=
  started ym s && (negb (truthy (get s "to")) || String.leb ym (to_of s)).

(** The locale's collation orders year-month strings as their code units
    do. *)
Definition collates_year_months (host : Host) : Prop :=
  forall a b, isValidYearMonth (VStr a) = true ->
              isValidYearMonth (VStr b) = true ->
              localeCompare a b = String.compare a b.

Definition has_from_string (s : value) : Prop :=
  exists f, get s "from" = VStr f.

(** ** Simulated months *)

(** The cursor of the [i]-th simulated month (counting from 0). *)
Fixpoint month_cursor (start : Date) (i : nat) : Date :=
  match i with
  | O => start
  | S i' => month_cursor (addMonths start 1) i'
  end.

Section Trajectories.
Context {host : Host}.

(** The balances after [n] simulated months of the long-term projection,
    starting at [cursor]. *)
Fixpoint simulate (n : nat) (stages : value) (rate : float) (cursor : Date)
         (balances : float * float) : result (float * float) :=
  match n with
  | O => Ok balances
  | S n' =>
      stage <- findStageForYearMonth stages (getCurrentYearMonth cursor) ;;
      simulate n' stages rate (addMonths cursor 1)
               (simulate_month rate stage balances)
  end.

(** The buffer after [n] simulated months of the buffer projection:
    deposits only. *)
Fixpoint buffer_after (n : nat) (stages : value) (cursor : Date)
         (bufferBalance : float) : result float :=
  match n with
  | O => Ok bufferBalance
  | S n' =>
      stage <- findStageForYearMonth stages (getCurrentYearMonth cursor) ;;
      buffer_after n' stages (addMonths cursor 1)
                   (deposit bufferBalance (safeNumber (get stage "saving_buffer")))
  end.

(** Both thresholds of the long-term projection. *)
Definition both_met (targetLT targetBuf : float) (balances : float * float)
  : bool :=
  (targetLT <=? fst balances)%float && (targetBuf <=? snd balances)%float.
End Trajectories.

(** ** The long-term projection in the specification's words *)

(** "Add its long-term and buffer deposits (non-numeric treated as
    no-op)". *)
Definition add_deposit (balance : float) (saving : value) : float :=
  match saving with
  | VNum x => (balance + x)%float
  | _ => balance
  end.

Section Compounding.
Context {host : Host}.

(** "A monthly rate derived from an 8%-per-annum nominal rate via
    [(1.08)^(1/12) - 1]". *)
Definition compound_rate : float := (Math_pow 1.08 (1 / 12) - 1)%float.

(** The balances after [n] simulated months, the stage of month [k]
    (counted from 0) being [stage_of k]: in each month the deposits are
    added first, and then the long-term balance, and only it, is
    multiplied by [1 + compound_rate], once. *)
Fixpoint compounded (stage_of : nat -> value) (n : nat)
         (start : float * float) : float * float :=
  match n with
  | O => start
  | S n' =>
      let before := compounded stage_of n' start in
      let stage := stage_of n' in
      ((add_deposit (fst before) (get stage "saving_longterm")
        * (1 + compound_rate))%float,
       add_deposit (snd before) (get stage "saving_buffer"))
  end.
End Compounding.

(** The doubles within two units in the last place of the twelfth root of
    1.08. *)
Definition twelfth_root_neighbours : list float :=
  [ next_down (next_down twelfth_root); next_down twelfth_root; twelfth_root;
    next_up twelfth_root; next_up (next_up twelfth_root) ].

(** [|x - y| < 1e-9]. *)
Definition close_to (x y : float) : bool :=
  (abs (x - y) <? 1e-9)%float.

(** ** Calendar months *)

(** Calendar months counted from January of year 0: month [m] (1..12) of
    year [y] is number [12 * y + (m - 1)]. *)
Definition month_of (y m : Z) : Z := 12 * y + (m - 1).

(** The first day of month number [i], and its [YYYY-MM] string. *)
Definition month_start (i : Z) : Date := At (i / 12) (i mod 12) 0.

Definition year_month (i : Z) : string := getCurrentYearMonth (month_start i).

(** The number of the month that a year-month string names. *)
Definition month_index (ym : string) : Z :=
  match parseYearMonth ym with
  | At y m _ => 12 * y + m
  | InvalidDate => 0
  end.

(** The strings of the [n] months after month number [i], in order. *)
Fixpoint months_after (n : nat) (i : Z) : list string :=
  match n with
  | O => []
  | S n' => year_month (i + 1) :: months_after n' (i + 1)
  end.

(** January 1000 and November 9999: between them a year has four digits,
    and so has the year of the month after. *)
Definition first_month : Z := month_of 1000 1.
Definition last_month : Z := month_of 9999 11.

(** A year-month string of a four-digit year, as the validator accepts
    it. *)
Definition four_digit_year_month (ym : string) : Prop :=
  isValidYearMonth (VStr ym) = true /\ String.leb "1000-01" ym = true.

(** One month's deposits, and the watermark moved to that month. *)
Definition apply_month (ym : string) (stage : value) (acc : GoalState * bool)
  : GoalState * bool :=
  let addLong := safeNumber (get stage "saving_longterm") in
  let addBuf := safeNumber (get stage "saving_buffer") in
  (mkGoalState (deposit (currentLongterm (fst acc)) addLong)
               (deposit (currentBuffer (fst acc)) addBuf)
               (Some ym),
   match addLong, addBuf with
   | None, None => snd acc
   | _, _ => true
   end).

Definition has_deposit (stage : value) : bool :=
  match safeNumber (get stage "saving_longterm"),
        safeNumber (get stage "saving_buffer") with
  | None, None => false
  | _, _ => true
  end.

(** The two halves of a year-month string. *)
Definition year_string (y : Z) : string := String_of (Some y).

Definition month_string (m : Z) : string :=
  padStart2 (String_of (Some (m + 1))).

Fixpoint no_dash (s : string) : bool :=
  match s with
  | "" => true
  | String c rest => negb (Ascii.eqb c "-") && no_dash rest
  end.

(** A piece of a year-month string that reads back as [v]. *)
Definition reads_as (s : string) (v : Z) : bool :=
  no_dash s
  && match Number_piece s with Some z => z =? v | None => false end.

(** A check of [f] on the [n] integers from [i] on. *)
Fixpoint all_from (n : nat) (i : Z) (f : Z -> bool) : bool :=
  match n with
  | O => true
  | S n' => f i && all_from n' (i + 1) f
  end.

(** ** The example plan of the README *)

Definition new_role : value :=
  VObj [ ("name", VStr "New role"); ("from", VStr "2025-01");
         ("to", VStr "2025-12"); ("income", VNum 60000);
         ("net_income", VNum 42000); ("fixed_costs", VNum 18000);
         ("household", VNum 6000); ("saving_longterm", VNum 9000);
         ("saving_buffer", VNum 1500) ].

Definition promotion : value :=
  VObj [ ("name", VStr "Promotion"); ("from", VStr "2026-01");
         ("income", VNum 68000); ("net_income", VNum 47000);
         ("fixed_costs", VNum 19000); ("household", VNum 6500);
         ("saving_longterm", VNum 11000); ("saving_buffer", VNum 2000) ].

Definition example_goal : value :=
  VObj [ ("target_longterm", VNum 1200000); ("target_buffer", VNum 60000);
         ("target_year", VNum 2030); ("current_longterm", VNum 220000);
         ("current_buffer", VNum 20000) ].

Definition example_plan : value :=
  VObj [ ("goal", example_goal); ("stages", VArr [new_role; promotion]) ].

(** One open stage that saves 1000 a month for the long term and 500 for
    the buffer. *)
Definition saver : value :=
  VObj [ ("name", VStr "Saver"); ("from", VStr "2024-01");
         ("saving_longterm", VNum 1000); ("saving_buffer", VNum 500) ].

(** One open stage without deposits. *)
Definition idle : value :=
  VObj [ ("name", VStr "Idle"); ("from", VStr "2024-01") ].

(** * Further code and vocabulary *)

(** ** Year-months as calendar numbers *)

(** The calendar number of a year-month string, read off its two digit
    groups: month [MM] of year [YYYY] is [12 * YYYY + (MM - 1)]. *)
Definition calendar_number (ym : string) : Z :=
  match map Number_piece (split_dash ym) with
  | Some y :: Some m :: _ => 12 * y + (m - 1)
  | _ => 0
  end.

(** ** The next stage *)

Section NextStage.
Context {host : Host}.

(** [a > b]: two strings compare by code units, anything else as numbers. *)
Definition js_gt (a b : value) : bool :=
  match ToPrimitive a, ToPrimitive b with
  | VStr x, VStr y => String.ltb y x
  | pa, pb => PrimFloat.ltb (ToNumber pb) (ToNumber pa)
  end.

Definition is_upcoming (currentYm : string) (s : value) : bool :=
  truthy (get s "from") && js_gt (get s "from") (VStr currentYm).

Definition getNextStage (stages : value) (currentYm : string) : result value :=
  match stages with
  | VArr stages =>
      upcoming <- sort_by by_from_asc (filter (is_upcoming currentYm) stages) ;;
      match upcoming with
      | u :: _ => Ok (if truthy u then u else VNull)
      | [] => Ok VNull
      end
  | _ => Ok VNull
  end.
End NextStage.

(** [from > ym], as strings. *)
Definition upcoming (ym : string) (s : value) : bool :=
  String.ltb ym (from_of s).

(** ** The month view *)

(** The object [computeViewModel] returns; null is [None]. *)
Record ViewModel : Type := mkViewModel {
  stageName : value;
  incomePreTax : option float;
  netIncome : option float;
  tax : option float;
  fixedCosts : option float;
  household : option float;
  totalOut : option float;
  savingsLong : option float;
  savingsBuffer : option float;
  savingsTotal : option float;
  leftover : option float
}.

Definition computeViewModel (stage : value) : ViewModel :=
  let incomePreTax := safeNumber (get stage "income") in
  let netIncome := safeNumber (get stage "net_income") in
  let fixedCosts := safeNumber (get stage "fixed_costs") in
  let household := safeNumber (get stage "household") in
  let savingsLong := safeNumber (get stage "saving_longterm") in
  let savingsBuffer := safeNumber (get stage "saving_buffer") in
  let savingsTotal :=
    match savingsLong, savingsBuffer with
    | Some l, Some b => Some (l + b)%float
    | _, _ => None
    end in
  let totalOut :=
    match fixedCosts, household with
    | Some f, Some h => Some (f + h)%float
    | _, _ => None
    end in
  let leftover :=
    match netIncome, totalOut, savingsTotal with
    | Some n, Some o, Some s => Some (n - o - s)%float
    | _, _, _ => None
    end in
  let tax :=
    match incomePreTax, netIncome with
    | Some i, Some n => Some (i - n)%float
    | _, _ => None
    end in
  mkViewModel
    (if truthy (get stage "name") then get stage "name"
     else VStr "Unknown stage")
    incomePreTax netIncome tax fixedCosts household totalOut
    savingsLong savingsBuffer savingsTotal leftover.

Section Dashboard.
Context {host : Host}.

(** [renderCurrentDashboard], up to the arguments it hands to
    [renderDashboard] and the view model computed there first: nothing
    without a plan, else the month shown in the header and the view model
    of the stage found for it. *)
Definition renderCurrentDashboard (cachedPlan : value) (now : Date)
  : result (option (string * ViewModel)) :=
  if negb (truthy cachedPlan) then Ok None
  else
    let stages :=
      match get cachedPlan "stages" with
      | VArr stages => VArr stages
      | _ => VArr []
      end in
    let yearMonth := getCurrentYearMonth now in
    stage <- findStageForYearMonth stages yearMonth ;;
    Ok (Some (yearMonth, computeViewModel stage)).
End Dashboard.

(** The amounts the month view needs for "Left in pocket". *)
Definition leftover_inputs : list string :=
  ["net_income"; "fixed_costs"; "household"; "saving_longterm";
   "saving_buffer"].

(** ** Progress bars *)

Definition is_neg_zero (x : float) : bool :=
  match classify x with FloatClass.NZero => true | _ => false end.

(** [Math.max] and [Math.min] of two numbers: NaN if either is NaN, and
    +0 counts as larger than -0. *)
Definition Math_max (a b : float) : float :=
  if is_nan a || is_nan b then nan
  else if PrimFloat.ltb a b then b
  else if PrimFloat.ltb b a then a
  else if is_neg_zero a then b else a.

Definition Math_min (a b : float) : float :=
  if is_nan a || is_nan b then nan
  else if PrimFloat.ltb a b then a
  else if PrimFloat.ltb b a then b
  else if is_neg_zero b then b else a.

Definition clamp (n min max : float) : float :=
  Math_max min (Math_min max n).

(** [pctLT] and [pctBuf] of [createGoalHero]: [target] is the goal's
    target after [safeNumber], [current] the balance of [goalState]. *)
Definition progress_percent (target : option float) (current : float) : float :=
  match target with
  | Some t =>
      if PrimFloat.ltb 0 t then clamp (current / t * 100) 0 100 else 0%float
  | None => 0%float
  end.

(** The widths of the two segments of the savings bar in
    [renderDashboard]; [None] when no bar is drawn. *)
Definition savings_bar (vm : ViewModel) : option (float * float) :=
  match savingsTotal vm with
  | Some total =>
      if PrimFloat.ltb 0 total then
        let share part :=
          clamp ((match part with Some p => p | None => 0%float end)
                 / total * 100) 0 100 in
        Some (share (savingsLong vm), share (savingsBuffer vm))
      else None
  | None => None
  end.

(** A number between 0 and 100. *)
Definition is_percentage (p : float) : bool :=
  PrimFloat.leb 0 p && PrimFloat.leb p 100.

(** ** The countdown *)

(** [String(n).padStart(2, "0")]. *)
Definition two_digits (n : Z) : string := padStart2 (String_of (Some n)).

(** [formatCountdown] of the first script: [ms] is the difference of two
    time stamps, a whole number of milliseconds; for such a number (below
    2^53) the divisions and [Math.floor] of the source are the integer
    division here. *)
Definition formatCountdown (ms : Z) : string :=
  if ms <=? 0 then "0mo 00d 00:00:00"
  else
    let totalSeconds := ms / 1000 in
    let totalDays := totalSeconds / 86400 in
    let months := totalDays / 30 in
    let days := totalDays mod 30 in
    let hours := (totalSeconds mod 86400) / 3600 in
    let mins := (totalSeconds mod 3600) / 60 in
    let secs := totalSeconds mod 60 in
    String_of (Some months) ++ "mo " ++ two_digits days ++ "d "
    ++ two_digits hours ++ ":" ++ two_digits mins ++ ":" ++ two_digits secs.

(** [formatCountdown] of the second script: days are not split into
    months. *)
Definition formatCountdown_days (ms : Z) : string :=
  if ms <=? 0 then "0d 00:00:00"
  else
    let totalSeconds := ms / 1000 in
    let days := totalSeconds / 86400 in
    let hours := (totalSeconds mod 86400) / 3600 in
    let mins := (totalSeconds mod 3600) / 60 in
    let secs := totalSeconds mod 60 in
    String_of (Some days) ++ "d "
    ++ two_digits hours ++ ":" ++ two_digits mins ++ ":" ++ two_digits secs.

(** The whole seconds left, none once the date has passed. *)
Definition seconds_left (ms : Z) : Z := Z.max 0 ms / 1000.

(** The text of a countdown of [months] 30-day months, [days] days and a
    time of day. *)
Definition countdown_text (months days hours mins secs : Z) : string :=
  String_of (Some months) ++ "mo " ++ two_digits days ++ "d "
  ++ two_digits hours ++ ":" ++ two_digits mins ++ ":" ++ two_digits secs.

(** The same with the days not split into months. *)
Definition countdown_text_days (days hours mins secs : Z) : string :=
  String_of (Some days) ++ "d "
  ++ two_digits hours ++ ":" ++ two_digits mins ++ ":" ++ two_digits secs.

(** ** Saving and restoring the goal state *)

(** The server's [readState]: the content of state.json after
    [JSON.parse], null when the file is missing or is not JSON ([None]). *)
Definition readState (file : option value) : value :=
  match file with
  | Some s => s
  | None => VNull
  end.

(** The body of the answer to [GET /api/state]. *)
Definition get_state (file : option value) : value :=
  let s := readState file in
  if truthy s then s else VObj [].

(** [Object.keys(data).length === 0] for a truthy [data]. *)
Definition no_keys (data : value) : bool :=
  match data with
  | VObj [] | VArr [] => true
  | VObj _ | VArr _ => false
  | VStr s => String.eqb s ""
  | _ => true
  end.

(** The client's [loadState]: [response] is the JSON body of a
    successful answer, [None] stands for a failed request. *)
Definition loadState (response : option value) : value :=
  match response with
  | Some data => if negb (truthy data) || no_keys data then VNull else data
  | None => VNull
  end.

(** The request body [saveState] sends, as [JSON.stringify] writes it and
    the server's JSON parser reads it. *)
Definition saveState_body (st : GoalState) : value :=
  VObj [ ("current_longterm", json_number (currentLongterm st));
         ("current_buffer", json_number (currentBuffer st));
         ("last_rollover_ym",
           match lastRolloverYm st with
           | Some s => VStr s
           | None => VNull
           end) ].

Section SaveRestore.
Context {host : Host}.

(** A save followed by the next start-up: [saveState], the server's PUT
    handler, and at the next page load the GET handler, [loadState] and
    the restore of [loadPlan]. *)
Definition save_then_restore (st : GoalState) (timestamp : string)
           (plan : value) (now : Date) : GoalState :=
  let file := fst (put_state (saveState_body st) timestamp) in
  loadPlan_goalState plan (loadState (Some (get_state (Some file)))) now.
End SaveRestore.

(** What is left of a balance after a save: zero for NaN, an infinity
    and both zeros, the balance itself otherwise. *)
Definition stored_balance (x : float) : float :=
  if is_nan x || is_infinity x || PrimFloat.eqb x 0 then 0%float else x.

(** ** The stage timeline *)

(** What [createStageTimeline] appends to the rail: a hint that stages are
    hidden on the left or on the right, or the node of a visible stage
    with its name, whether its dot is the active one, and its dates. *)
Inductive rail_child : Type :=
| TimelineHint (left : bool)
| TimelineNode (name : string) (active : bool) (dates : string).

(** [findIndex]: the first position where [p] holds, or -1. *)
Fixpoint findIndex (p : value -> bool) (l : list value) : Z :=
  match l with
  | [] => -1
  | x :: rest =>
      if p x then 0
      else let i := findIndex p rest in if i <? 0 then -1 else i + 1
  end.

(** [ordered.slice(startIndex, endIndex + 1)] for indices within the
    array. *)
Definition slice (l : list value) (startIndex endIndex : Z) : list value :=
  firstn (Z.to_nat (endIndex + 1 - startIndex))
         (skipn (Z.to_nat startIndex) l).

Section Timeline.
Context {host : Host}.

(** [(a?.from || "").localeCompare(b?.from || "")]: a TypeError when the
    truthy [from] of [a] is not a string. *)
Definition compare_timeline (a b : value) : result comparison :=
  let from_or_empty s :=
    if truthy (get s "from") then get s "from" else VStr "" in
  match from_or_empty a with
  | VStr fa => Ok (localeCompare fa (ToString (from_or_empty b)))
  | _ => Throw "TypeError"
  end.

(** One node; the test for the active dot is that of the exact match in
    [findStageForYearMonth]. *)
Definition timeline_node (currentYm : string) (stage : value) : rail_child :=
  let name :=
    if truthy (get stage "name") then get stage "name" else VStr "Stage" in
  let from :=
    if truthy (get stage "from") then get stage "from" else VStr "YYYY-MM" in
  TimelineNode (ToString name) (is_candidate currentYm stage)
    (ToString from
     ++ (if truthy (get stage "to") then "–" ++ ToString (get stage "to")
         else "")).

(** The children of the rail, in order. *)
Definition createStageTimeline (stages : value) (currentYm : string)
  : result (list rail_child) :=
  ordered <- match stages with
             | VArr stages => sort_by compare_timeline stages
             | _ => Ok []
             end ;;
  let currentIndex := findIndex (is_candidate currentYm) ordered in
  match ordered with
  | [] => Ok []
  | _ =>
      let length := Z.of_nat (List.length ordered) in
      let startIndex := if 0 <? currentIndex then currentIndex - 1 else 0 in
      let endIndex := Z.min (startIndex + 2) (length - 1) in
      let startIndex := Z.max 0 (endIndex - 2) in
      let visible := slice ordered startIndex endIndex in
      let showLeftHint := 0 <? startIndex in
      let showRightHint := endIndex <? length - 1 in
      Ok ((if showLeftHint then [TimelineHint true] else [])
          ++ map (timeline_node currentYm) visible
          ++ (if showRightHint then [TimelineHint false] else []))%list
  end.
End Timeline.

(** The hint drawn beside the visible stages when [hidden] is not empty. *)
Definition hint_for (left : bool) (hidden : list value) : list rail_child :=
  match hidden with
  | [] => []
  | _ => [TimelineHint left]
  end.

(** ** Projection and rollover *)

Section ResolvedStages.
Context {host : Host}.

(** The stage the lookup finds for a month; null stands in where the
    lookup raises. *)
Definition resolve_stage (stages : value) (ym : string) : value :=
  match findStageForYearMonth stages ym with
  | Ok stage => stage
  | Throw _ => VNull
  end.
End ResolvedStages.

(** ** Start-up *)

(** What [loadPlan] leaves on the page. *)
Inductive Screen : Type :=
| ValidationErrors (issues : list string)
| DashboardScreen (shown : option (string * ViewModel)).

(** The effects of [loadPlan] once the plan is fetched: the goal state it
    leaves, the bodies of the PUT requests it sent, in order, and the
    page. *)
Record StartUp : Type := mkStartUp {
  goal_state : GoalState;
  saved : list value;
  screen : Screen
}.

Section StartUpModel.
Context {host : Host}.

(** [loadPlan] after [tryFetchPlan], up to the timers it starts:
    [response] is what [loadState] receives, [goalState] the state before,
    and the three dates are the values of [new Date()] at the restore, in
    the rollover and at the rendering (the stage lookup whose result the
    function does not use is made for the month of the rendering).  An
    exception ends in the [catch] branch ([Raised]). *)
Definition loadPlan (fuel : nat) (plan : value) (response : option value)
           (now_restore now_rollover now_render : Date)
           (goalState : GoalState) : outcome StartUp :=
  match validatePlan plan with
  | (_ :: _) as issues =>
      Done (mkStartUp goalState [] (ValidationErrors issues))
  | [] =>
      let stages :=
        match get plan "stages" with
        | VArr stages => VArr stages
        | _ => VArr []
        end in
      let storedState := loadState response in
      let restored := loadPlan_goalState plan storedState now_restore in
      let saved :=
        match safeNumber (get storedState "current_longterm"),
              safeNumber (get storedState "current_buffer") with
        | Some _, Some _ => []
        | _, _ => [saveState_body restored]
        end in
      match applyMonthlyRolloverIfNeeded fuel stages now_rollover restored with
      | Done (st, rolloverChanged) =>
          let saved :=
            if rolloverChanged then (saved ++ [saveState_body st])%list
            else saved in
          match findStageForYearMonth stages (getCurrentYearMonth now_render)
          with
          | Ok _ =>
              match renderCurrentDashboard plan now_render with
              | Ok shown => Done (mkStartUp st saved (DashboardScreen shown))
              | Throw msg => Raised msg
              end
          | Throw msg => Raised msg
          end
      | Raised msg => Raised msg
      | OutOfFuel => OutOfFuel
      end
  end.
End StartUpModel.
(** * Properties *)

(** ** Order on strings *)

Lemma ascii_compare_refl (a : ascii) : Ascii.compare a a = Eq.
Proof. unfold Ascii.compare. apply N.compare_refl. Qed.

Lemma string_compare_refl (s : string) : String.compare s s = Eq.
Proof.
  induction s as [|c s IH]; simpl; [reflexivity|].
  now rewrite ascii_compare_refl.
Qed.

Lemma string_leb_refl (s : string) : String.leb s s = true.
Proof. unfold String.leb. now rewrite string_compare_refl. Qed.

Lemma ascii_compare_lt_trans (a b c : ascii) :
  Ascii.compare a b = Lt -> Ascii.compare b c = Lt -> Ascii.compare a c = Lt.
Proof.
  unfold Ascii.compare. rewrite !N.compare_lt_iff. apply N.lt_trans.
Qed.

Lemma string_compare_lt_trans (s1 : string) :
  forall s2 s3, String.compare s1 s2 = Lt -> String.compare s2 s3 = Lt ->
                String.compare s1 s3 = Lt.
Proof.
  induction s1 as [|a s1 IH]; intros [|b s2] [|c s3]; simpl;
    try discriminate; try reflexivity.
  destruct (Ascii.compare a b) eqn:Hab; try discriminate.
  - apply Ascii.compare_eq_iff in Hab. subst b.
    destruct (Ascii.compare a c) eqn:Hac; try discriminate; auto.
    apply IH.
  - intros _. destruct (Ascii.compare b c) eqn:Hbc; try discriminate.
    + apply Ascii.compare_eq_iff in Hbc. subst c. now rewrite Hab.
    + intros _. now rewrite (ascii_compare_lt_trans _ _ _ Hab Hbc).
Qed.

Lemma string_leb_trans (s1 s2 s3 : string) :
  String.leb s1 s2 = true -> String.leb s2 s3 = true -> String.leb s1 s3 = true.
Proof.
  unfold String.leb.
  destruct (String.compare s1 s2) eqn:H12; try discriminate; intros _.
  - apply String.compare_eq_iff in H12. now subst s2.
  - destruct (String.compare s2 s3) eqn:H23; try discriminate; intros _.
    + apply String.compare_eq_iff in H23. subst s3. now rewrite H12.
    + now rewrite (string_compare_lt_trans _ _ _ H12 H23).
Qed.

Lemma string_leb_false_ltb (s1 s2 : string) :
  String.leb s1 s2 = false -> String.leb s2 s1 = true.
Proof.
  unfold String.leb. rewrite (String.compare_antisym s1 s2).
  destruct (String.compare s2 s1); simpl; congruence.
Qed.

(** ** Rollover: nothing to do, and the watermark *)

Section RolloverFacts.
Context {host : Host}.

Lemma rollover_loop_watermark (fuel : nat) (stages : value) (now : Date) :
  forall cursor st changed st' changed',
    watermark_ok now st ->
    rollover_loop fuel stages (getCurrentYearMonth now) cursor st changed
    = Done (st', changed') ->
    watermark_ok now st'.
Proof.
  induction fuel as [|fuel IH]; intros cursor st changed st' changed' Hst;
    simpl; [discriminate|].
  destruct (String.leb (getCurrentYearMonth cursor) (getCurrentYearMonth now))
    eqn:Hguard.
  - destruct (findStageForYearMonth stages (getCurrentYearMonth cursor));
      [|discriminate].
    apply IH. unfold watermark_ok; simpl. exact Hguard.
  - intros H; inversion H; subst. exact Hst.
Qed.
End RolloverFacts.

Section RolloverNoop.
Context {host : Host}.

(** C6: when the watermark is set and the current year-month is not after
    it, the rollover returns the state as it was and reports no change;
    a second call in the same month does the same. *)
Theorem rollover_noop (fuel fuel' : nat) (stages : value) (now now' : Date)
        (st : GoalState) (last : string) :
  lastRolloverYm st = Some last ->
  last <> "" ->
  String.leb (getCurrentYearMonth now) last = true ->
  getCurrentYearMonth now' = getCurrentYearMonth now ->
  applyMonthlyRolloverIfNeeded fuel stages now st = Done (st, false)
  /\ applyMonthlyRolloverIfNeeded fuel' stages now' st = Done (st, false).
Proof.
  intros Hlast Hne Hle Hsame.
  unfold applyMonthlyRolloverIfNeeded. rewrite Hsame, Hlast, Hle.
  destruct last; [congruence|]. split; reflexivity.
Qed.

(** C7: initialisation from the goal seed, the restore at start-up (from
    a stored record whose watermark is not ahead of the current month)
    and the rollover all leave the watermark at or before the current
    year-month, in the code-unit order of strings. *)
Theorem watermark_never_ahead (plan storedState stages : value) (now : Date) :
  watermark_ok now (initGoalState plan now)
  /\ (stored_watermark_ok now storedState ->
      watermark_ok now (loadPlan_goalState plan storedState now))
  /\ (forall fuel st st' changed,
         watermark_ok now st ->
         applyMonthlyRolloverIfNeeded fuel stages now st = Done (st', changed) ->
         watermark_ok now st').
Proof.
  split; [|split].
  - apply string_leb_refl.
  - intros Hstored. unfold loadPlan_goalState.
    destruct (safeNumber (get storedState "current_longterm"));
      [|apply string_leb_refl].
    destruct (safeNumber (get storedState "current_buffer"));
      [|apply string_leb_refl].
    unfold watermark_ok; simpl.
    destruct (isValidYearMonth (get storedState "last_rollover_ym")) eqn:Hv;
      [|apply string_leb_refl].
    destruct (get storedState "last_rollover_ym") eqn:Hs; try discriminate.
    now apply Hstored.
  - intros fuel st st' changed Hst. unfold applyMonthlyRolloverIfNeeded.
    destruct (lastRolloverYm st) as [last|] eqn:Hlast.
    + destruct last as [|c last'].
      * intros H; inversion H; subst. apply string_leb_refl.
      * destruct (String.leb (getCurrentYearMonth now) (String c last')).
        -- intros H; inversion H; subst. exact Hst.
        -- now apply rollover_loop_watermark.
    + intros H; inversion H; subst. apply string_leb_refl.
Qed.
End RolloverNoop.

(** ** Plan validation *)

Lemma prefix_app (s t : string) : String.prefix s (s ++ t) = true.
Proof.
  induction s as [|c s IH]; simpl; [now destruct t|].
  destruct (ascii_dec c c); [exact IH|congruence].
Qed.

Lemma stage_issues_malformed (i : nat) (stage : value) :
  malformed stage = true ->
  exists issue, In issue (stage_issues i stage)
                /\ String.prefix (stage_label i) issue = true.
Proof.
  unfold malformed, stage_issues. intros H.
  destruct (name_missing stage).
  - eexists; split; [left; reflexivity|apply prefix_app].
  - destruct (isValidYearMonth (get stage "from")); simpl in *.
    + rewrite H. eexists; split; [left; reflexivity|apply prefix_app].
    + eexists; split; [left; reflexivity|apply prefix_app].
Qed.

Lemma forEach_stage_count (stages : list value) :
  forall i, (List.length (filter malformed stages) <= List.length (forEach_stage i stages))%nat.
Proof.
  induction stages as [|s stages IH]; intros i; simpl; [lia|].
  rewrite List.length_app. specialize (IH (S i)).
  destruct (malformed s) eqn:Hm; simpl; [|lia].
  destruct (stage_issues_malformed i s Hm) as (issue & Hin & _).
  destruct (stage_issues i s); [contradiction|simpl; lia].
Qed.

Lemma forEach_stage_reports (stages : list value) :
  forall i0 i s,
    nth_error stages i = Some s -> malformed s = true ->
    exists issue, In issue (forEach_stage i0 stages)
                  /\ String.prefix (stage_label (i0 + i)) issue = true.
Proof.
  induction stages as [|s0 stages IH]; intros i0 [|i] s Hnth Hm; simpl in *;
    try discriminate.
  - inversion Hnth; subst s0. rewrite Nat.add_0_r.
    destruct (stage_issues_malformed i0 s Hm) as (issue & Hin & Hp).
    exists issue. split; [apply in_or_app; now left|exact Hp].
  - destruct (IH (S i0) i s Hnth Hm) as (issue & Hin & Hp).
    exists issue. split; [apply in_or_app; now right|].
    now replace (i0 + S i)%nat with (S i0 + i)%nat by lia.
Qed.

Lemma forEach_stage_keeps (stages : list value) :
  forall i0 i s issue,
    nth_error stages i = Some s -> In issue (stage_issues (i0 + i) s) ->
    In issue (forEach_stage i0 stages).
Proof.
  induction stages as [|s0 stages IH]; intros i0 [|i] s issue Hnth Hin;
    simpl in *; try discriminate.
  - inversion Hnth; subst s0. rewrite Nat.add_0_r in Hin.
    apply in_or_app. now left.
  - apply in_or_app. right. apply (IH (S i0) i s); [exact Hnth|].
    now replace (S i0 + i)%nat with (i0 + S i)%nat by lia.
Qed.

(** C8: a plan without usable stages (falsy plan, [stages] not an array,
    or empty) gets exactly one issue; otherwise every malformed stage is
    reported under its own number, so there are at least as many issues as
    malformed stages, two for two; no issue of any stage is dropped. *)
Theorem validatePlan_accumulates (plan : value) :
  (no_stages plan ->
   validatePlan plan = ["Plan must include a non-empty stages array."])
  /\ (forall stages, get plan "stages" = VArr stages -> stages <> [] ->
        (List.length (filter malformed stages) <= List.length (validatePlan plan))%nat
        /\ (forall i s, nth_error stages i = Some s -> malformed s = true ->
              exists issue, In issue (validatePlan plan)
                            /\ String.prefix (stage_label i) issue = true)
        /\ (forall i j si sj, i <> j ->
              nth_error stages i = Some si -> malformed si = true ->
              nth_error stages j = Some sj -> malformed sj = true ->
              (2 <= List.length (validatePlan plan))%nat)
        /\ (forall i s issue,
              nth_error stages i = Some s -> In issue (stage_issues i s) ->
              In issue (validatePlan plan))).
Proof.
  split.
  - intros Hno. unfold validatePlan.
    destruct (truthy plan) eqn:Ht; [|reflexivity].
    destruct (get plan "stages") as [| | | | |xs|] eqn:Hs; try reflexivity.
    destruct xs as [|x xs]; [reflexivity|].
    destruct Hno as [H|[H|H]]; [congruence|now elim (H _ Hs)|congruence].
  - intros stages Hs Hne.
    assert (Hv : validatePlan plan
                 = (forEach_stage 0 stages
                    ++ (if truthy (get plan "goal")
                        then goal_issues (get plan "goal") else []))%list).
    { unfold validatePlan. destruct plan; try discriminate.
      simpl truthy. cbv iota. rewrite Hs.
      destruct stages; [congruence|reflexivity]. }
    assert (Hcount : (List.length (filter malformed stages)
                      <= List.length (validatePlan plan))%nat).
    { rewrite Hv, List.length_app. pose proof (forEach_stage_count stages 0%nat). lia. }
    split; [exact Hcount|split; [|split]].
    + intros i s Hnth Hm.
      destruct (forEach_stage_reports stages 0%nat i s Hnth Hm) as (issue & Hin & Hp).
      exists issue. split; [rewrite Hv; apply in_or_app; now left|exact Hp].
    + intros i j si sj Hij Hi Hmi Hj Hmj.
      apply Nat.le_trans with (2 := Hcount).
      clear Hv Hcount Hs Hne. revert i j Hij Hi Hj.
      induction stages as [|s stages IH]; intros [|i] [|j] Hij Hi Hj;
        simpl in *; try discriminate; try congruence.
      * inversion Hi; subst s. rewrite Hmi. simpl.
        assert (In sj (filter malformed stages)).
        { apply filter_In. split; [eapply nth_error_In; eauto|exact Hmj]. }
        destruct (filter malformed stages); [contradiction|simpl; lia].
      * inversion Hj; subst s. rewrite Hmj. simpl.
        assert (In si (filter malformed stages)).
        { apply filter_In. split; [eapply nth_error_In; eauto|exact Hmi]. }
        destruct (filter malformed stages); [contradiction|simpl; lia].
      * assert (2 <= List.length (filter malformed stages))%nat
          by (apply (IH i j); congruence).
        destruct (malformed s); simpl; lia.
    + intros i s issue Hnth Hin. rewrite Hv. apply in_or_app. left.
      now apply (forEach_stage_keeps stages 0%nat i s).
Qed.

(** ** The server's write operation *)

Section ServerFacts.
Context {host : Host}.

Lemma number_or_zero_cases (x : value) :
  let n := ToNumber x in
  json_number (number_or_zero x)
  = if is_nan n || PrimFloat.eqb n 0 then VNum 0
    else if is_infinity n then VNull else VNum n.
Proof.
  unfold number_or_zero, truthy; cbv zeta.
  destruct (is_nan (ToNumber x)) eqn:Hnan;
    destruct (PrimFloat.eqb (ToNumber x) 0) eqn:Hz; simpl; try reflexivity.
  unfold json_number. now rewrite Hnan.
Qed.

(** C9, as the handler does it.  When a balance input does not convert
    to a primitive, [Number] raises: nothing is written, and no record is
    answered.  On every other body each balance is stored as
    [Number(input)], or 0 when that conversion is NaN or zero (an
    infinite value is written as null), so a number is kept, a missing,
    null or [false] input becomes 0 and [true] becomes 1;
    [last_rollover_ym] is kept when it is a string and null otherwise;
    [updated_at] is the server's timestamp; the response is the stored
    record. *)
Theorem put_state_stores (file : option value) (req_body : value)
        (timestamp : string) :
  let body := if truthy req_body then req_body else VObj [] in
  let raises :=
    conversion_raises (get body "current_longterm")
    || conversion_raises (get body "current_buffer") in
  (raises = true ->
   app_put_state file req_body timestamp = (file, Throw "TypeError"))
  /\ (raises = false ->
      exists stored,
        app_put_state file req_body timestamp = (Some stored, Ok stored)
        /\ get stored "updated_at" = VStr timestamp
        /\ get stored "last_rollover_ym"
           = match get body "last_rollover_ym" with
             | VStr s => VStr s
             | _ => VNull
             end
        /\ (forall k, k = "current_longterm" \/ k = "current_buffer" ->
              let input := get body k in
              let n := ToNumber input in
              get stored k
              = (if is_nan n || PrimFloat.eqb n 0 then VNum 0
                 else if is_infinity n then VNull else VNum n)
              /\ (input = VUndefined \/ input = VNull \/ input = VBool false ->
                  get stored k = VNum 0)
              /\ (input = VBool true -> get stored k = VNum 1))).
Proof.
  cbv zeta. unfold app_put_state, converting, put_state.
  set (body := if truthy req_body then req_body else VObj []).
  cbn [existsb]. rewrite orb_false_r.
  split; intros Hraise; rewrite Hraise; [reflexivity|].
  exists (state_record body timestamp).
  split; [reflexivity|]. split; [reflexivity|]. split; [reflexivity|].
  intros k Hk.
  assert (Hget : get (state_record body timestamp) k
                 = json_number (number_or_zero (get body k)))
    by (destruct Hk; subst k; reflexivity).
  rewrite Hget. split; [apply number_or_zero_cases|]. split.
  - intros [H|[H|H]]; rewrite H; reflexivity.
  - intros H; rewrite H; reflexivity.
Qed.
End ServerFacts.

(** C9, against "non-numeric balance inputs are coerced to 0": a balance
    input of [true] is not a number, and it is stored as 1, not as 0. *)
Lemma put_state_true_is_one :
  let body := VObj [("current_longterm", VBool true)] in
  safeNumber (get body "current_longterm") = None
  /\ get (fst (put_state (host := reference_host) body "2025-03-01T00:00:00.000Z"))
         "current_longterm" = VNum 1
  /\ VNum 1 <> VNum 0.
Proof.
  cbv zeta. split; [reflexivity|]. split; [reflexivity|].
  intros H.
  pose proof (f_equal (fun v => match v with
                                | VNum x => PrimFloat.eqb x 1
                                | _ => false
                                end) H) as Hb.
  vm_compute in Hb. discriminate Hb.
Qed.

(** ** The buffer projection's guard *)

Section BufferGuard.
Context {host : Host}.

(** C4, as the code has it: the buffer projection answers not-reached at
    once when [target_buffer] is not a number or is not above zero, a
    target of 0 included; with a target above zero that the current
    buffer already meets, it answers reached, now. *)
Theorem projectBufferDate_guard (stages goal : value) (now : Date)
        (st : GoalState) :
  (safeNumber (get goal "target_buffer") = None ->
   projectBufferDate stages goal now st = Ok NotReached)
  /\ (forall t, safeNumber (get goal "target_buffer") = Some t ->
                (t <=? 0)%float = true ->
                projectBufferDate stages goal now st = Ok NotReached)
  /\ (get goal "target_buffer" = VNum 0 ->
      projectBufferDate stages goal now st = Ok NotReached)
  /\ (forall t, safeNumber (get goal "target_buffer") = Some t ->
                (t <=? 0)%float = false ->
                (t <=? currentBuffer st)%float = true ->
                projectBufferDate stages goal now st = Ok (Reached now)).
Proof.
  unfold projectBufferDate. repeat split.
  - intros H; now rewrite H.
  - intros t H Ht; now rewrite H, Ht.
  - intros H; now rewrite H.
  - intros t H Ht Hmet; now rewrite H, Ht, Hmet.
Qed.
End BufferGuard.

(** C4, against "a zero buffer target is reported as already met": with
    [target_buffer = 0] and a buffer of 500 the buffer projection answers
    not-reached, where the long-term projection accepts the same zero
    target. *)
Lemma projectBufferDate_zero_target :
  let goal := VObj [("target_longterm", VNum 1000); ("target_buffer", VNum 0)] in
  let st := mkGoalState 2000 500 (Some "2025-03") in
  let stages := VArr [VObj [("name", VStr "Job"); ("from", VStr "2025-01")]] in
  let now := At 2025 2 0 in
  projectBufferDate (host := reference_host) stages goal now st = Ok NotReached
  /\ projectGoalDate (host := reference_host) stages goal now st = Ok (Reached now).
Proof. cbv zeta. split; reflexivity. Qed.

(** A plan without issues has a non-empty list of stages that each pass
    the [from] and [to] checks. *)
Lemma stage_issues_none (i : nat) (stage : value) :
  stage_issues i stage = [] -> stage_ok stage = true.
Proof.
  unfold stage_issues, stage_ok. intros H.
  apply app_eq_nil in H as [_ H]. apply app_eq_nil in H as [Hfrom Hto].
  destruct (isValidYearMonth (get stage "from")); [|discriminate Hfrom].
  destruct (truthy (get stage "to")); [|reflexivity].
  destruct (isValidYearMonth (get stage "to")); [reflexivity|discriminate Hto].
Qed.

Lemma forEach_stage_none (stages : list value) :
  forall i, forEach_stage i stages = [] ->
            Forall (fun s => stage_ok s = true) stages.
Proof.
  induction stages as [|s stages IH]; intros i H; [constructor|].
  simpl in H. apply app_eq_nil in H as [Hs Hrest].
  constructor; [now apply stage_issues_none with i|now apply IH with (S i)].
Qed.

Lemma validatePlan_ok_stages (plan : value) :
  validatePlan plan = [] ->
  exists stages, get plan "stages" = VArr stages /\ stages <> []
                 /\ Forall (fun s => stage_ok s = true) stages.
Proof.
  unfold validatePlan. destruct (truthy plan); [|discriminate].
  destruct (get plan "stages") as [| | | | |stages|]; try discriminate.
  destruct stages as [|s stages]; [discriminate|].
  intros H. apply app_eq_nil in H as [H _].
  exists (s :: stages). split; [reflexivity|]. split; [discriminate|].
  now apply forEach_stage_none with 0%nat.
Qed.

(** ** Conversions and callbacks that may raise *)

Lemma filter_by_pure (keep : value -> result bool) (value_of : value -> bool)
      (l : list value) :
  (forall x, In x l -> keep x = Ok (value_of x)) ->
  filter_by keep l = Ok (filter value_of l).
Proof.
  induction l as [|x l IH]; intros H; [reflexivity|].
  cbn [filter_by filter]. rewrite (H x) by now left. cbn [bind].
  rewrite IH by (intros y Hy; apply H; now right). cbn [bind].
  now destruct (value_of x).
Qed.

Lemma filter_by_returns (keep : value -> result bool)
      (value_of : value -> bool) (l kept : list value) :
  (forall x k, keep x = Ok k -> value_of x = k) ->
  filter_by keep l = Ok kept -> kept = filter value_of l.
Proof.
  intros Hkeep. revert kept.
  induction l as [|x l IH]; intros kept H; cbn [filter_by filter] in *.
  - now inversion H.
  - destruct (keep x) as [k|msg] eqn:Hx; cbn [bind] in H; [|discriminate H].
    destruct (filter_by keep l) as [rest|msg]; cbn [bind] in H;
      [|discriminate H].
    rewrite (Hkeep x k Hx), <- (IH rest eq_refl).
    now inversion H.
Qed.

Lemma filter_by_raises (keep : value -> result bool) (l : list value)
      (x : value) :
  In x l -> keep x = Throw "TypeError" ->
  (forall y, In y l -> keep y = Throw "TypeError" \/ exists k, keep y = Ok k) ->
  filter_by keep l = Throw "TypeError".
Proof.
  induction l as [|y l IH]; intros Hin Hx Hall; [destruct Hin|].
  cbn [filter_by].
  destruct (Hall y (or_introl eq_refl)) as [Hy|(k & Hy)]; rewrite Hy;
    cbn [bind]; [reflexivity|].
  destruct Hin as [->|Hin]; [congruence|].
  rewrite IH; [reflexivity|exact Hin|exact Hx|].
  intros z Hz. apply Hall. now right.
Qed.

(** ** Sorting with a comparator that may raise *)

Section SortFacts.
Variable cmp : value -> value -> result comparison.
Variable precedes : value -> value -> Prop.
Hypothesis precedes_trans :
  forall x y z, precedes x y -> precedes y z -> precedes x z.

Lemma insert_by_spec (x : value) (sorted : list value) :
  (forall y, In y sorted ->
     exists c, cmp x y = Ok c
               /\ (c <> Gt -> precedes x y) /\ (c = Gt -> precedes y x)) ->
  exists l', insert_by cmp x sorted = Ok l'
             /\ (forall z, In z l' <-> z = x \/ In z sorted)
             /\ match sorted, l' with
                | h :: _, h' :: _ =>
                    (h' = x /\ precedes x h) \/ (h' = h /\ precedes h x)
                | [], h' :: _ => h' = x
                | _, [] => False
                end.
Proof.
  induction sorted as [|h t IH]; intros Hcmp; simpl.
  - exists [x]. split; [reflexivity|]. split; [|reflexivity].
    intros z; simpl; intuition.
  - destruct (Hcmp h (or_introl eq_refl)) as (c & Hc & Hle & Hgt).
    rewrite Hc; simpl.
    destruct IH as (r & Hr & Hin & _);
      [intros y Hy; apply Hcmp; now right|].
    destruct c.
    + exists (x :: h :: t). split; [reflexivity|]. split.
      * intros z; simpl; intuition.
      * left. split; [reflexivity|apply Hle; discriminate].
    + exists (x :: h :: t). split; [reflexivity|]. split.
      * intros z; simpl; intuition.
      * left. split; [reflexivity|apply Hle; discriminate].
    + rewrite Hr; simpl. exists (h :: r). split; [reflexivity|]. split.
      * intros z; simpl. rewrite Hin. intuition.
      * right. split; [reflexivity|now apply Hgt].
Qed.

Lemma sort_by_spec (l : list value) :
  (forall x y, In x l -> In y l ->
     exists c, cmp x y = Ok c
               /\ (c <> Gt -> precedes x y) /\ (c = Gt -> precedes y x)) ->
  (forall x, In x l -> precedes x x) ->
  exists l', sort_by cmp l = Ok l'
             /\ (forall z, In z l' <-> In z l)
             /\ match l' with
                | [] => l = []
                | h :: _ => forall z, In z l -> precedes h z
                end.
Proof.
  induction l as [|x rest IH]; intros Hcmp Hrefl; simpl.
  - exists []. split; [reflexivity|]. split; [tauto|reflexivity].
  - destruct IH as (s & Hs & Hin & Hhead).
    { intros a b Ha Hb; apply Hcmp; now right. }
    { intros a Ha; apply Hrefl; now right. }
    rewrite Hs; simpl.
    destruct (insert_by_spec x s) as (l' & Hl' & Hin' & Hhead').
    { intros y Hy. apply Hcmp; [now left|right; now apply Hin]. }
    exists l'. split; [exact Hl'|]. split.
    + intros z. rewrite Hin', Hin. simpl. intuition.
    + destruct l' as [|h' t']; [now destruct s|].
      intros z [Hz|Hz].
      * subst z. destruct s as [|h t]; [subst h'; apply Hrefl; now left|].
        destruct Hhead' as [[-> _]|[-> Hhx]];
          [apply Hrefl; now left|exact Hhx].
      * destruct s as [|h t]; [subst rest; contradiction|].
        destruct Hhead' as [[-> Hxh]|[-> _]]; [|now apply Hhead].
        apply precedes_trans with h; [exact Hxh|now apply Hhead].
Qed.
End SortFacts.

(** ** Stage selection *)

Lemma valid_year_month_string (v : value) :
  isValidYearMonth v = true -> exists f, v = VStr f /\ truthy v = true.
Proof.
  destruct v as [| | | |f| |]; try discriminate.
  intros H. exists f. split; [reflexivity|]. now destruct f.
Qed.

Lemma has_from_object (s : value) :
  has_from_string s -> exists fields, s = VObj fields.
Proof.
  intros (f & Hf). destruct s; try discriminate. now eexists.
Qed.

Lemma stage_ok_from (s : value) :
  stage_ok s = true ->
  get s "from" = VStr (from_of s)
  /\ isValidYearMonth (VStr (from_of s)) = true
  /\ truthy (get s "from") = true.
Proof.
  unfold stage_ok, from_of. intros H. apply andb_prop in H as [Hf _].
  destruct (valid_year_month_string _ Hf) as (f & Hv & Ht).
  rewrite Hv in *. auto.
Qed.

Section StageFacts.
Context {host : Host}.

Lemma compare_from_strings (x y : value) :
  has_from_string x -> has_from_string y ->
  compare_from x y = Ok (localeCompare (from_of x) (from_of y)).
Proof.
  intros Hx Hy. destruct (has_from_object y Hy) as (fields & ->).
  destruct Hx as (fx & Hx), Hy as (fy & Hy).
  unfold compare_from, from_of. now rewrite Hx, Hy.
Qed.

Lemma candidate_test_returns (ym : string) (s : value) :
  conversion_raises (get s "from") = false ->
  conversion_raises (get s "to") = false ->
  candidate_test ym s = Ok (is_candidate ym s).
Proof.
  intros Hf Ht. unfold candidate_test, is_candidate, le_converting, converting.
  cbn [existsb conversion_raises]. rewrite Hf, Ht. cbn [orb bind].
  destruct (truthy (get s "from")); [|reflexivity]. cbn [negb bind].
  now destruct (truthy (get s "to")).
Qed.

Lemma prior_test_returns (ym : string) (s : value) :
  conversion_raises (get s "from") = false ->
  prior_test ym s = Ok (is_prior ym s).
Proof.
  intros Hf. unfold prior_test, is_prior, le_converting, converting.
  cbn [existsb conversion_raises]. rewrite Hf. cbn [orb].
  now destruct (truthy (get s "from")).
Qed.

Lemma candidate_test_value (ym : string) (s : value) (k : bool) :
  candidate_test ym s = Ok k -> is_candidate ym s = k.
Proof.
  unfold candidate_test, is_candidate, le_converting, converting.
  destruct (negb (truthy (get s "from"))); [now inversion 1|].
  destruct (existsb conversion_raises [get s "from"; VStr ym]);
    cbn [bind]; [discriminate|].
  destruct (truthy (get s "to")); [|now inversion 1].
  destruct (existsb conversion_raises [VStr ym; get s "to"]);
    cbn [bind]; [discriminate|now inversion 1].
Qed.

Lemma prior_test_value (ym : string) (s : value) (k : bool) :
  prior_test ym s = Ok k -> is_prior ym s = k.
Proof.
  unfold prior_test, is_prior, le_converting, converting.
  destruct (truthy (get s "from")); cbn [negb andb]; [|now inversion 1].
  destruct (existsb conversion_raises [get s "from"; VStr ym]);
    [discriminate|now inversion 1].
Qed.

Lemma candidate_test_raises (ym : string) (s : value) :
  truthy (get s "from") = true ->
  conversion_raises (get s "from") = true
  \/ (truthy (get s "to") = true /\ conversion_raises (get s "to") = true) ->
  candidate_test ym s = Throw "TypeError".
Proof.
  intros Hfrom Hraise.
  unfold candidate_test, le_converting, converting.
  cbn [existsb conversion_raises]. rewrite Hfrom. cbn [negb].
  destruct (conversion_raises (get s "from")); [reflexivity|].
  destruct Hraise as [Hr|(Ht & Hr)]; [discriminate Hr|].
  rewrite Ht, Hr. reflexivity.
Qed.

Lemma candidate_test_cases (ym : string) (s : value) :
  candidate_test ym s = Throw "TypeError" \/ exists k, candidate_test ym s = Ok k.
Proof.
  unfold candidate_test, le_converting, converting.
  destruct (negb (truthy (get s "from"))); [right; eexists; reflexivity|].
  destruct (existsb conversion_raises [get s "from"; VStr ym]);
    [left; reflexivity|]. cbn [bind].
  destruct (truthy (get s "to")); [|right; eexists; reflexivity].
  destruct (existsb conversion_raises [VStr ym; get s "to"]);
    [left; reflexivity|right; eexists; reflexivity].
Qed.

Lemma is_candidate_contains (ym : string) (s : value) :
  stage_ok s = true -> is_candidate ym s = contains ym s.
Proof.
  intros Hok. destruct (stage_ok_from s Hok) as (Hf & _ & Ht).
  unfold is_candidate, contains, started. rewrite Ht, Hf. simpl.
  unfold js_le at 1; simpl. f_equal.
  unfold stage_ok in Hok. apply andb_prop in Hok as [_ Hto].
  destruct (truthy (get s "to")) eqn:Htt; [|reflexivity]. simpl in *.
  destruct (valid_year_month_string _ Hto) as (t & Hv & _).
  unfold to_of. now rewrite Hv.
Qed.

Lemma is_prior_started (ym : string) (s : value) :
  stage_ok s = true -> is_prior ym s = started ym s.
Proof.
  intros Hok. destruct (stage_ok_from s Hok) as (Hf & _ & Ht).
  unfold is_prior, started. now rewrite Ht, Hf.
Qed.

(** Sorting validated stages by [from], newest first, puts a stage with
    the greatest [from] in front. *)
Lemma pick_latest (keep : value -> bool) (stages : list value) :
  collates_year_months host ->
  Forall (fun s => stage_ok s = true) stages ->
  exists l', sort_by by_from_desc (filter keep stages) = Ok l'
    /\ match l' with
       | [] => forall c, In c stages -> keep c = false
       | h :: _ =>
           In h stages /\ keep h = true
           /\ forall c, In c stages -> keep c = true ->
                        String.leb (from_of c) (from_of h) = true
       end.
Proof.
  intros Hcol Hok. rewrite Forall_forall in Hok.
  destruct (sort_by_spec by_from_desc
              (fun a b => String.leb (from_of b) (from_of a) = true))
    with (l := filter keep stages) as (l' & Hl' & Hin & Hhead).
  - intros x y z Hxy Hyz. eapply string_leb_trans; eauto.
  - intros a b Ha Hb. apply filter_In in Ha as [Ha _], Hb as [Hb _].
    destruct (stage_ok_from a (Hok a Ha)) as (Hfa & Hva & _).
    destruct (stage_ok_from b (Hok b Hb)) as (Hfb & Hvb & _).
    exists (String.compare (from_of b) (from_of a)). split.
    + unfold by_from_desc.
      rewrite compare_from_strings by (eexists; eauto).
      now rewrite Hcol.
    + unfold String.leb. rewrite (String.compare_antisym (from_of a) (from_of b)).
      destruct (String.compare (from_of b) (from_of a)); simpl;
        split; congruence.
  - intros a _. apply string_leb_refl.
  - exists l'. split; [exact Hl'|].
    destruct l' as [|h t].
    + intros c Hc. destruct (keep c) eqn:Hk; [|reflexivity].
      assert (In c (filter keep stages)) by (apply filter_In; auto).
      rewrite Hhead in H. contradiction.
    + assert (Hh : In h (filter keep stages)) by (apply Hin; now left).
      apply filter_In in Hh as [Hh Hk]. split; [exact Hh|]. split; [exact Hk|].
      intros c Hc Hkc. apply Hhead. apply filter_In; auto.
Qed.

Lemma pick_earliest (stages : list value) :
  collates_year_months host ->
  Forall (fun s => stage_ok s = true) stages ->
  exists l', sort_by by_from_asc stages = Ok l'
    /\ match l' with
       | [] => stages = []
       | h :: _ =>
           In h stages
           /\ forall c, In c stages -> String.leb (from_of h) (from_of c) = true
       end.
Proof.
  intros Hcol Hok. rewrite Forall_forall in Hok.
  destruct (sort_by_spec by_from_asc
              (fun a b => String.leb (from_of a) (from_of b) = true))
    with (l := stages) as (l' & Hl' & Hin & Hhead).
  - intros x y z Hxy Hyz. eapply string_leb_trans; eauto.
  - intros a b Ha Hb.
    destruct (stage_ok_from a (Hok a Ha)) as (Hfa & Hva & _).
    destruct (stage_ok_from b (Hok b Hb)) as (Hfb & Hvb & _).
    exists (String.compare (from_of a) (from_of b)). split.
    + unfold by_from_asc.
      rewrite compare_from_strings by (eexists; eauto).
      now rewrite Hcol.
    + unfold String.leb. rewrite (String.compare_antisym (from_of b) (from_of a)).
      destruct (String.compare (from_of a) (from_of b)); simpl;
        split; congruence.
  - intros a _. apply string_leb_refl.
  - exists l'. split; [exact Hl'|].
    destruct l' as [|h t]; [exact Hhead|].
    split; [apply Hin; now left|exact Hhead].
Qed.
End StageFacts.

Lemma sort_by_missing_from {host : Host} (l : list value) :
  (2 <= List.length l)%nat ->
  Forall (fun s => get s "from" = VUndefined) l ->
  sort_by by_from_asc l = Throw "TypeError".
Proof.
  induction l as [|a l IH]; simpl; [lia|].
  intros Hlen Hall. inversion Hall as [|? ? Ha Hl]; subst.
  destruct l as [|b l]; [simpl in Hlen; lia|].
  destruct l as [|c l].
  - simpl. unfold by_from_asc, compare_from. now rewrite Ha.
  - rewrite IH; [reflexivity|simpl; lia|exact Hl].
Qed.

Section StageTheorems.
Context {host : Host}.

(** C2: on a non-empty list of validated stages the lookup returns, in
    this order of preference: among the stages containing [ym] one with
    the greatest [from]; else among the stages with [from <= ym] one with
    the greatest [from]; else a stage with the smallest [from].  All
    comparisons are those of strings.  Null is the answer for the empty
    list only. *)
Theorem findStage_three_tiers (stages : list value) (ym : string) :
  findStageForYearMonth (VArr []) ym = Ok VNull
  /\ (collates_year_months host ->
      stages <> [] ->
      Forall (fun s => stage_ok s = true) stages ->
      exists s,
        findStageForYearMonth (VArr stages) ym = Ok s
        /\ In s stages /\ s <> VNull
        /\ ((exists c, In c stages /\ contains ym c = true) ->
            contains ym s = true
            /\ forall c, In c stages -> contains ym c = true ->
                         String.leb (from_of c) (from_of s) = true)
        /\ ((forall c, In c stages -> contains ym c = false) ->
            (exists p, In p stages /\ started ym p = true) ->
            started ym s = true
            /\ forall p, In p stages -> started ym p = true ->
                         String.leb (from_of p) (from_of s) = true)
        /\ ((forall c, In c stages -> started ym c = false) ->
            forall c, In c stages ->
                      String.leb (from_of s) (from_of c) = true)).
Proof.
  split; [reflexivity|]. intros Hcol Hne Hok.
  pose proof Hok as Hall. rewrite Forall_forall in Hall.
  assert (Hnn : forall s, In s stages -> s <> VNull /\ truthy s = true).
  { intros s Hs. destruct (stage_ok_from s (Hall s Hs)) as (Hf & _).
    destruct s; try discriminate. split; [discriminate|reflexivity]. }
  assert (Hstarted : forall c, In c stages -> contains ym c = true ->
                               started ym c = true).
  { intros c _ Hc. unfold contains in Hc. now apply andb_prop in Hc. }
  destruct stages as [|x xs]; [congruence|].
  unfold findStageForYearMonth.
  destruct (pick_latest (is_candidate ym) (x :: xs) Hcol Hok)
    as (l1 & Hl1 & H1).
  rewrite Hl1; cbn [bind].
  destruct l1 as [|c1 t1].
  - (* nobody contains [ym] *)
    assert (Hnone : forall c, In c (x :: xs) -> contains ym c = false).
    { intros c Hc. rewrite <- is_candidate_contains by auto. auto. }
    destruct (pick_latest (is_prior ym) (x :: xs) Hcol Hok)
      as (l2 & Hl2 & H2).
    rewrite Hl2; cbn [bind].
    destruct l2 as [|p1 t2].
    + (* [ym] is before every stage *)
      assert (Hnop : forall c, In c (x :: xs) -> started ym c = false).
      { intros c Hc. rewrite <- is_prior_started by auto. auto. }
      destruct (pick_earliest (x :: xs) Hcol Hok) as (l3 & Hl3 & H3).
      rewrite Hl3; cbn [bind].
      destruct l3 as [|e t3]; [discriminate|].
      destruct H3 as (He & Hmin). destruct (Hnn e He) as (Hnull & Ht).
      rewrite Ht. exists e. split; [reflexivity|].
      split; [exact He|]. split; [exact Hnull|]. split; [|split].
      * intros (c & Hc & Hcc). rewrite Hnone in Hcc by auto. discriminate.
      * intros _ (p & Hp & Hpp). rewrite Hnop in Hpp by auto. discriminate.
      * intros _. exact Hmin.
    + destruct H2 as (Hp1 & Hk & Hmax).
      exists p1. split; [reflexivity|]. split; [exact Hp1|].
      split; [now apply Hnn|]. split; [|split].
      * intros (c & Hc & Hcc). rewrite Hnone in Hcc by auto. discriminate.
      * intros _ _. split; [now rewrite <- is_prior_started by auto|].
        intros p Hp Hpp. apply Hmax; [exact Hp|].
        now rewrite is_prior_started by auto.
      * intros Hnop. rewrite is_prior_started in Hk by auto.
        rewrite Hnop in Hk by auto. discriminate.
  - destruct H1 as (Hc1 & Hk & Hmax).
    rewrite is_candidate_contains in Hk by auto.
    exists c1. split; [reflexivity|]. split; [exact Hc1|].
    split; [now apply Hnn|]. split; [|split].
    + intros _. split; [exact Hk|].
      intros c Hc Hcc. apply Hmax; [exact Hc|].
      now rewrite is_candidate_contains by auto.
    + intros Hnone. rewrite Hnone in Hk by auto. discriminate.
    + intros Hnop. specialize (Hnop c1 Hc1).
      rewrite (Hstarted c1 Hc1 Hk) in Hnop. discriminate.
Qed.

Lemma findStage_converting_agrees (stages : list value) (ym : string) :
  Forall (fun s => conversion_raises (get s "from") = false
                   /\ conversion_raises (get s "to") = false) stages ->
  findStageForYearMonth_converting (VArr stages) ym
  = findStageForYearMonth (VArr stages) ym.
Proof.
  intros Hall. rewrite Forall_forall in Hall.
  assert (Hfc : filter_by (candidate_test ym) stages
                = Ok (filter (is_candidate ym) stages)).
  { apply filter_by_pure. intros s Hs.
    now apply candidate_test_returns; apply Hall. }
  assert (Hfp : filter_by (prior_test ym) stages
                = Ok (filter (is_prior ym) stages)).
  { apply filter_by_pure. intros s Hs.
    now apply prior_test_returns; apply Hall. }
  destruct stages as [|x xs]; [reflexivity|].
  unfold findStageForYearMonth_converting, findStageForYearMonth.
  rewrite Hfc; cbn [bind].
  destruct (sort_by by_from_desc (filter (is_candidate ym) (x :: xs)))
    as [[|c t]|msg]; cbn [bind]; try reflexivity.
  rewrite Hfp; cbn [bind]. reflexivity.
Qed.

(** Where the lookup with conversions returns, the lookup the other
    properties are stated for returns the same. *)
Lemma findStage_converting_returns (stages : value) (ym : string)
      (s : value) :
  findStageForYearMonth_converting stages ym = Ok s ->
  findStageForYearMonth stages ym = Ok s.
Proof.
  destruct stages as [| | | | |[|x xs]|]; try (intros H; exact H).
  unfold findStageForYearMonth_converting, findStageForYearMonth.
  destruct (filter_by (candidate_test ym) (x :: xs)) as [matching|msg] eqn:Hc;
    cbn [bind]; [|discriminate].
  rewrite <- (filter_by_returns _ (is_candidate ym) _ _
                (candidate_test_value ym) Hc).
  destruct (sort_by by_from_desc matching) as [[|c t]|msg]; cbn [bind];
    try (intros H; exact H).
  destruct (filter_by (prior_test ym) (x :: xs)) as [started|msg] eqn:Hp;
    cbn [bind]; [|discriminate].
  rewrite <- (filter_by_returns _ (is_prior ym) _ _ (prior_test_value ym) Hp).
  intros H; exact H.
Qed.

Lemma falsy_converts (v : value) :
  truthy v = false -> conversion_raises v = false.
Proof. destruct v; try reflexivity; discriminate. Qed.

(** On validated stages no conversion raises: the lookup with conversions
    is the lookup the other properties are stated for. *)
Lemma findStage_converting_validated (stages : list value) (ym : string) :
  Forall (fun s => stage_ok s = true) stages ->
  findStageForYearMonth_converting (VArr stages) ym
  = findStageForYearMonth (VArr stages) ym.
Proof.
  intros Hok. apply findStage_converting_agrees.
  rewrite Forall_forall in *. intros s Hs. specialize (Hok s Hs).
  destruct (stage_ok_from s Hok) as (Hf & _). rewrite Hf.
  split; [reflexivity|].
  unfold stage_ok in Hok. apply andb_prop in Hok as [_ Hto].
  destruct (truthy (get s "to")) eqn:Htt; [|now apply falsy_converts].
  simpl in Hto. destruct (valid_year_month_string _ Hto) as (t & -> & _).
  reflexivity.
Qed.

Lemma findStage_has_from (stages : list value) (ym : string) :
  stages <> [] ->
  Forall has_from_string stages ->
  exists s, findStageForYearMonth (VArr stages) ym = Ok s
            /\ In s stages /\ s <> VNull.
Proof.
  intros Hne Hall. rewrite Forall_forall in Hall.
  assert (Hsort : forall cmp l,
             (cmp = by_from_desc \/ cmp = by_from_asc) ->
             (forall s, In s l -> In s stages) ->
             exists l', sort_by cmp l = Ok l'
                        /\ (forall z, In z l' <-> In z l)
                        /\ (l' = [] -> l = [])).
  { intros cmp l Hcmp Hsub.
    destruct (sort_by_spec cmp (fun _ _ => True)) with (l := l)
      as (l' & Hl' & Hin & Hhead); auto.
    - intros a b Ha Hb.
      destruct Hcmp as [-> | ->]; unfold by_from_desc, by_from_asc;
        rewrite compare_from_strings by auto; eexists; auto.
    - exists l'. split; [exact Hl'|]. split; [exact Hin|].
      intros ->. exact Hhead. }
  assert (Hnn : forall s, In s stages -> s <> VNull /\ truthy s = true).
  { intros s Hs. destruct (has_from_object s (Hall s Hs)) as (fields & ->).
    split; [discriminate|reflexivity]. }
  destruct stages as [|x xs]; [congruence|].
  unfold findStageForYearMonth.
  destruct (Hsort by_from_desc (filter (is_candidate ym) (x :: xs)))
    as (l1 & Hl1 & Hin1 & _);
    [now left|intros s Hs; now apply filter_In in Hs|].
  rewrite Hl1; cbn [bind].
  destruct l1 as [|c1 t1].
  + destruct (Hsort by_from_desc (filter (is_prior ym) (x :: xs)))
      as (l2 & Hl2 & Hin2 & _);
      [now left|intros s Hs; now apply filter_In in Hs|].
    rewrite Hl2; cbn [bind].
    destruct l2 as [|p1 t2].
    * destruct (Hsort by_from_asc (x :: xs)) as (l3 & Hl3 & Hin3 & Hnil);
        [now right|auto|].
      rewrite Hl3; cbn [bind].
      destruct l3 as [|e t3]; [now specialize (Hnil eq_refl)|].
      assert (He : In e (x :: xs)) by (apply Hin3; now left).
      destruct (Hnn e He) as (Hnull & Ht). rewrite Ht.
      exists e. auto.
    * assert (Hp : In p1 (filter (is_prior ym) (x :: xs)))
        by (apply Hin2; now left).
      apply filter_In in Hp as [Hp _].
      exists p1. split; [reflexivity|]. split; [exact Hp|now apply Hnn].
  + assert (Hc : In c1 (filter (is_candidate ym) (x :: xs)))
      by (apply Hin1; now left).
    apply filter_In in Hc as [Hc _].
    exists c1. split; [reflexivity|]. split; [exact Hc|now apply Hnn].
Qed.

(** C10, as the code has it: on a non-empty list whose elements all are
    objects with a string [from] and a [to] that converts to a primitive,
    the lookup raises nothing and returns one of the stages, not null.
    Without that it can raise.  A stage with a truthy [from] whose [from]
    or truthy [to] does not convert makes the first filter raise,
    wherever it stands in the list.  On two or more stages that all lack
    [from], the comparator of the last tier reads [localeCompare] of a
    missing value.  When one stage of a pair lacks [from] and the other
    has a string, the comparator raises for the pair taken one way round
    and returns for it taken the other way round. *)
Theorem findStage_total (stages : list value) (ym : string) :
  (stages <> [] ->
   Forall has_from_string stages ->
   Forall (fun s => conversion_raises (get s "to") = false) stages ->
   exists s, findStageForYearMonth_converting (VArr stages) ym = Ok s
             /\ In s stages /\ s <> VNull)
  /\ (forall s,
        In s stages ->
        truthy (get s "from") = true ->
        conversion_raises (get s "from") = true
        \/ (truthy (get s "to") = true
            /\ conversion_raises (get s "to") = true) ->
        findStageForYearMonth_converting (VArr stages) ym = Throw "TypeError")
  /\ (forall x y rest,
        stages = x :: y :: rest ->
        Forall (fun s => get s "from" = VUndefined) stages ->
        findStageForYearMonth_converting (VArr stages) ym = Throw "TypeError")
  /\ (forall x y fields,
        has_from_string x -> y = VObj fields -> get y "from" = VUndefined ->
        by_from_asc y x = Throw "TypeError"
        /\ exists c, by_from_asc x y = Ok c).
Proof.
  split; [|split; [|split]].
  - intros Hne Hall Hto.
    rewrite findStage_converting_agrees.
    + now apply findStage_has_from.
    + rewrite Forall_forall in *. intros s Hs. split; [|now apply Hto].
      destruct (Hall s Hs) as (f & ->). reflexivity.
  - intros s Hin Hfrom Hraise.
    assert (Hf : filter_by (candidate_test ym) stages = Throw "TypeError").
    { apply filter_by_raises with s; [exact Hin| |].
      - now apply candidate_test_raises.
      - intros y _. apply candidate_test_cases. }
    destruct stages as [|x xs]; [destruct Hin|].
    unfold findStageForYearMonth_converting. now rewrite Hf.
  - intros x y rest -> Hall. rewrite Forall_forall in Hall.
    assert (Hcand : forall l, (forall s, In s l -> In s (x :: y :: rest)) ->
                              filter_by (candidate_test ym) l = Ok []
                              /\ filter_by (prior_test ym) l = Ok []).
    { induction l as [|s l IH]; intros Hsub; [split; reflexivity|].
      cbn [filter_by]. unfold candidate_test at 1, prior_test at 1.
      rewrite (Hall s) by (apply Hsub; now left). cbn [truthy negb bind].
      destruct IH as (-> & ->); [intros s' Hs'; apply Hsub; now right|].
      split; reflexivity. }
    destruct (Hcand (x :: y :: rest)) as (Hc & Hp); [auto|].
    unfold findStageForYearMonth_converting.
    rewrite Hc; cbn [bind]; simpl (sort_by by_from_desc []); cbn [bind].
    rewrite Hp; cbn [bind]; simpl (sort_by by_from_desc []); cbn [bind].
    rewrite sort_by_missing_from; [reflexivity|simpl; lia|].
    now apply Forall_forall.
  - intros x y fields (fx & Hx) -> Hy. unfold by_from_asc, compare_from.
    rewrite Hx, Hy. split; [reflexivity|]. eexists. reflexivity.
Qed.
End StageTheorems.

(** ** The twelfth root of 1.08 *)

(** [twelfth_root] is the largest double whose twelfth power does not
    exceed 1.08: its significand is [m / 2^52], and in exact integer
    arithmetic [(m / 2^52)^12 <= 108/100 < ((m + 1) / 2^52)^12]. *)
Lemma twelfth_root_brackets :
  exists m, Prim2SF twelfth_root = S754_finite false m (-52)
            /\ 100 * Z.pos m ^ 12 <= 108 * 2 ^ (52 * 12)
               < 100 * (Z.pos m + 1) ^ 12.
Proof.
  eexists. split; [vm_compute; reflexivity|].
  split; [apply Z.leb_le|apply Z.ltb_lt]; vm_compute; reflexivity.
Qed.

(** ** Projections *)

Section ProjectionFacts.
Context {host : Host}.

Lemma findStage_single (s : value) (ym : string) :
  truthy s = true -> findStageForYearMonth (VArr [s]) ym = Ok s.
Proof.
  intros Ht. unfold findStageForYearMonth. simpl filter.
  destruct (is_candidate ym s); cbn [sort_by insert_by bind]; [reflexivity|].
  destruct (is_prior ym s); cbn [sort_by insert_by bind]; [reflexivity|].
  now rewrite Ht.
Qed.

Lemma goal_loop_spec (stages : value) (targetLT targetBuf rate : float) :
  forall n cursor balances r,
    goal_loop n stages targetLT targetBuf rate cursor balances = Ok r ->
    match r with
    | Reached d =>
        exists i, (i < n)%nat /\ d = month_cursor cursor i
          /\ (exists after, simulate (S i) stages rate cursor balances = Ok after
                            /\ both_met targetLT targetBuf after = true)
          /\ (forall j, (j < i)%nat ->
                exists after, simulate (S j) stages rate cursor balances = Ok after
                              /\ both_met targetLT targetBuf after = false)
    | NotReached =>
        forall j, (j < n)%nat ->
          exists after, simulate (S j) stages rate cursor balances = Ok after
                        /\ both_met targetLT targetBuf after = false
    end.
Proof.
  induction n as [|n IH]; intros cursor balances r; cbn [goal_loop].
  - intros H; inversion H; subst. intros j Hj; lia.
  - cbn [simulate].
    destruct (findStageForYearMonth stages (getCurrentYearMonth cursor))
      as [stage|msg]; cbn [bind]; [|discriminate].
    set (after1 := simulate_month rate stage balances).
    fold (both_met targetLT targetBuf after1).
    destruct (both_met targetLT targetBuf after1) eqn:Hmet.
    + intros H; inversion H; subst. exists 0%nat.
      split; [lia|]. split; [reflexivity|]. split.
      * exists after1. cbn [simulate bind]. fold after1. auto.
      * intros j Hj; lia.
    + intros H. specialize (IH _ _ _ H). destruct r as [|d].
      * intros [|j] Hj.
        -- exists after1. cbn [simulate bind]. fold after1. auto.
        -- cbn [simulate bind]. fold after1. apply IH. lia.
      * destruct IH as (i & Hi & Hd & Hafter & Hbefore).
        exists (S i). split; [lia|]. split; [exact Hd|]. split.
        -- cbn [simulate bind]. fold after1. exact Hafter.
        -- intros [|j] Hj.
           ++ exists after1. cbn [simulate bind]. fold after1. auto.
           ++ cbn [simulate bind]. fold after1. apply Hbefore. lia.
Qed.

Lemma buffer_loop_spec (stages : value) (targetBuf : float) :
  forall n cursor bufferBalance r,
    buffer_loop n stages targetBuf cursor bufferBalance = Ok r ->
    match r with
    | Reached d =>
        exists i, (i < n)%nat /\ d = month_cursor cursor i
          /\ (exists b, buffer_after (S i) stages cursor bufferBalance = Ok b
                        /\ (targetBuf <=? b)%float = true)
          /\ (forall j, (j < i)%nat ->
                exists b, buffer_after (S j) stages cursor bufferBalance = Ok b
                          /\ (targetBuf <=? b)%float = false)
    | NotReached =>
        forall j, (j < n)%nat ->
          exists b, buffer_after (S j) stages cursor bufferBalance = Ok b
                    /\ (targetBuf <=? b)%float = false
    end.
Proof.
  induction n as [|n IH]; intros cursor bufferBalance r; cbn [buffer_loop].
  - intros H; inversion H; subst. intros j Hj; lia.
  - cbn [buffer_after].
    destruct (findStageForYearMonth stages (getCurrentYearMonth cursor))
      as [stage|msg]; cbn [bind]; [|discriminate].
    set (b1 := deposit bufferBalance (safeNumber (get stage "saving_buffer"))).
    destruct (targetBuf <=? b1)%float eqn:Hmet.
    + intros H; inversion H; subst. exists 0%nat.
      split; [lia|]. split; [reflexivity|]. split.
      * exists b1. cbn [buffer_after bind]. auto.
      * intros j Hj; lia.
    + intros H. specialize (IH _ _ _ H). destruct r as [|d].
      * intros [|j] Hj.
        -- exists b1. cbn [buffer_after bind]. auto.
        -- cbn [buffer_after bind]. apply IH. lia.
      * destruct IH as (i & Hi & Hd & Hafter & Hbefore).
        exists (S i). split; [lia|]. split; [exact Hd|]. split.
        -- cbn [buffer_after bind]. exact Hafter.
        -- intros [|j] Hj.
           ++ exists b1. cbn [buffer_after bind]. auto.
           ++ cbn [buffer_after bind]. apply Hbefore. lia.
Qed.
End ProjectionFacts.

Section ProjectionTheorems.
Context {host : Host}.



End ProjectionTheorems.

(** ** Monthly compounding *)

Section GrowthFacts.
Context {host : Host}.

Lemma add_deposit_deposit (x : float) (v : value) :
  add_deposit x v = deposit x (safeNumber v).
Proof. now destruct v. Qed.

Lemma monthlyRate_compound_rate : monthlyRate = compound_rate.
Proof. reflexivity. Qed.

Lemma simulate_month_compounded (stage_of : nat -> value)
      (balances : float * float) :
  simulate_month monthlyRate (stage_of 0%nat) balances
  = compounded stage_of 1 balances.
Proof.
  destruct balances as [l b]. cbn [compounded simulate_month fst snd].
  now rewrite !add_deposit_deposit.
Qed.

Lemma compounded_shift (stage_of : nat -> value) (start : float * float) :
  forall n,
    compounded stage_of (S n) start
    = compounded (fun k => stage_of (S k)) n (compounded stage_of 1 start).
Proof.
  induction n as [|n IH]; [reflexivity|].
  change (compounded stage_of (S (S n)) start)
    with (let before := compounded stage_of (S n) start in
          ((add_deposit (fst before) (get (stage_of (S n)) "saving_longterm")
            * (1 + compound_rate))%float,
           add_deposit (snd before) (get (stage_of (S n)) "saving_buffer"))).
  rewrite IH. reflexivity.
Qed.

Lemma goal_loop_compounded (stages : value) (targetLT targetBuf : float) :
  forall i n cursor balances stage_of,
    (i < n)%nat ->
    (forall k, (k <= i)%nat ->
       findStageForYearMonth stages (getCurrentYearMonth (month_cursor cursor k))
       = Ok (stage_of k)) ->
    (forall j, (j < i)%nat ->
       both_met targetLT targetBuf (compounded stage_of (S j) balances) = false) ->
    both_met targetLT targetBuf (compounded stage_of (S i) balances) = true ->
    goal_loop n stages targetLT targetBuf monthlyRate cursor balances
    = Ok (Reached (month_cursor cursor i)).
Proof.
  induction i as [|i IH]; intros n cursor balances stage_of Hn Hres Hnot Hmet;
    (destruct n as [|n]; [lia|]); cbn [goal_loop].
  - pose proof (Hres 0%nat ltac:(lia)) as H0. cbn [month_cursor] in H0.
    rewrite H0. cbn [bind]. rewrite simulate_month_compounded.
    unfold both_met in Hmet. now rewrite Hmet.
  - pose proof (Hres 0%nat ltac:(lia)) as H0. cbn [month_cursor] in H0.
    rewrite H0. cbn [bind]. rewrite simulate_month_compounded.
    pose proof (Hnot 0%nat ltac:(lia)) as Hn0. unfold both_met in Hn0.
    rewrite Hn0.
    rewrite (IH n (addMonths cursor 1) (compounded stage_of 1 balances)
               (fun k => stage_of (S k))).
    + reflexivity.
    + lia.
    + intros k Hk. apply (Hres (S k)). lia.
    + intros j Hj. rewrite <- compounded_shift. apply Hnot. lia.
    + now rewrite <- compounded_shift.
Qed.

Lemma goal_loop_not_reached (stages : value) (targetLT targetBuf : float) :
  forall n cursor balances stage_of,
    (forall k, (k < n)%nat ->
       findStageForYearMonth stages (getCurrentYearMonth (month_cursor cursor k))
       = Ok (stage_of k)) ->
    (forall j, (j < n)%nat ->
       both_met targetLT targetBuf (compounded stage_of (S j) balances) = false) ->
    goal_loop n stages targetLT targetBuf monthlyRate cursor balances
    = Ok NotReached.
Proof.
  induction n as [|n IH]; intros cursor balances stage_of Hres Hnot;
    cbn [goal_loop]; [reflexivity|].
  pose proof (Hres 0%nat ltac:(lia)) as H0. cbn [month_cursor] in H0.
  rewrite H0. cbn [bind]. rewrite simulate_month_compounded.
  pose proof (Hnot 0%nat ltac:(lia)) as Hn0. unfold both_met in Hn0.
  rewrite Hn0.
  apply (IH (addMonths cursor 1) (compounded stage_of 1 balances)
            (fun k => stage_of (S k))).
  - intros k Hk. apply (Hres (S k)). lia.
  - intros j Hj. rewrite <- compounded_shift. apply Hnot. lia.
Qed.

Lemma add_deposit_none (x : float) (v : value) :
  safeNumber v = None -> add_deposit x v = x.
Proof. now destruct v. Qed.

(** C3: the projection answers as the specification's month-by-month
    account does.  With the balances of that account (each month the
    stage's deposits first, a non-numeric deposit adding nothing, then
    the long-term balance, and only it, multiplied once by
    [1 + (Math.pow(1.08, 1/12) - 1)]), the projection answers reached at
    the current date when both targets are met already; where the stage
    lookups of the months return, it answers reached at the first
    simulated month after which the targets are met, and not reached
    when they are met after none of the 600 simulated months; a reached
    date is the current one or one of those 600 months.  With no
    deposits and a long-term balance of 100000, the account gives
    [100000 * 1.08] after twelve months to within 1e-9, for any
    [Math.pow] that answers within two units in the last place of the
    twelfth root. *)
Theorem projection_compounds_monthly (stages goal : value) (now : Date)
        (st : GoalState) (targetLT targetBuf : float)
        (stage_of : nat -> value) :
  safeNumber (get goal "target_longterm") = Some targetLT ->
  safeNumber (get goal "target_buffer") = Some targetBuf ->
  (targetLT <=? 0)%float = false ->
  (targetBuf <? 0)%float = false ->
  let start := first_of_next_month now in
  let seed := (currentLongterm st, currentBuffer st) in
  let met n := both_met targetLT targetBuf (compounded stage_of n seed) in
  let resolves k :=
    findStageForYearMonth_converting stages
      (getCurrentYearMonth (month_cursor start k))
    = Ok (stage_of k) in
  monthlyRate = compound_rate
  /\ (met 0%nat = true ->
      projectGoalDate stages goal now st = Ok (Reached now))
  /\ (forall i,
        (i < 600)%nat ->
        (forall k, (k <= i)%nat -> resolves k) ->
        (forall j, (j <= i)%nat -> met j = false) ->
        met (S i) = true ->
        projectGoalDate stages goal now st
        = Ok (Reached (month_cursor start i)))
  /\ ((forall k, (k < 600)%nat -> resolves k) ->
      (forall j, (j <= 600)%nat -> met j = false) ->
      projectGoalDate stages goal now st = Ok NotReached)
  /\ (In (Math_pow 1.08 (1 / 12)) twelfth_root_neighbours ->
      currentLongterm st = 100000%float ->
      (forall k, (k < 12)%nat ->
         safeNumber (get (stage_of k) "saving_longterm") = None)
      \/ (forall k, (k < 12)%nat ->
            get (stage_of k) "saving_longterm" = VNum 0) ->
      close_to (fst (compounded stage_of 12 seed)) (100000 * 1.08) = true)
  /\ (forall d,
        projectGoalDate stages goal now st = Ok (Reached d) ->
        d = now
        \/ exists i, (i < 600)%nat /\ d = month_cursor start i).
Proof.
  intros HLT HBuf HposLT HposBuf start seed met resolves.
  split; [reflexivity|].
  assert (Hproj : projectGoalDate stages goal now st
                  = if met 0%nat then Ok (Reached now)
                    else goal_loop 600 stages targetLT targetBuf monthlyRate
                                   start seed).
  { unfold projectGoalDate. rewrite HLT, HBuf, HposLT, HposBuf. reflexivity. }
  split; [|split; [|split; [|split]]].
  - intros H0. rewrite Hproj, H0. reflexivity.
  - intros i Hi Hres Hnot Hmet. rewrite Hproj.
    rewrite (Hnot 0%nat) by lia.
    apply (goal_loop_compounded stages targetLT targetBuf i 600%nat start seed
             stage_of Hi
             (fun k Hk => findStage_converting_returns _ _ _ (Hres k Hk))).
    + intros j Hj. apply (Hnot (S j)). lia.
    + exact Hmet.
  - intros Hres Hnot. rewrite Hproj.
    rewrite (Hnot 0%nat) by lia.
    apply (goal_loop_not_reached stages targetLT targetBuf 600%nat start seed
             stage_of
             (fun k Hk => findStage_converting_returns _ _ _ (Hres k Hk))).
    intros j Hj. apply (Hnot (S j)). lia.
  - intros Hpow Hseed Hdep. subst seed. rewrite Hseed.
    cbn [compounded fst snd]. unfold compound_rate.
    destruct Hdep as [Hdep|Hdep].
    + rewrite !add_deposit_none by (apply Hdep; lia).
      destruct Hpow as [H|[H|[H|[H|[H|[]]]]]]; rewrite <- H;
        vm_compute; reflexivity.
    + rewrite !Hdep by lia. cbn [add_deposit].
      destruct Hpow as [H|[H|[H|[H|[H|[]]]]]]; rewrite <- H;
        vm_compute; reflexivity.
  - intros d. rewrite Hproj. destruct (met 0%nat).
    + intros H. left.
      apply (f_equal (fun r => match r with
                               | Ok (Reached x) => x
                               | _ => d
                               end)) in H.
      symmetry. exact H.
    + intros H. right.
      destruct (goal_loop_spec _ _ _ _ _ _ _ _ H) as (i & Hi & Hd & _).
      exists i. split; [exact Hi|exact Hd].
Qed.
End GrowthFacts.

(** ** Year-month strings of four-digit years *)

Lemma all_from_spec (f : Z -> bool) (n : nat) :
  forall i, all_from n i f = true ->
            forall k, i <= k < i + Z.of_nat n -> f k = true.
Proof.
  induction n as [|n IH]; intros i H k Hk; [lia|].
  simpl in H. apply andb_prop in H as [Hi Hrest].
  destruct (Z.eq_dec k i) as [->|Hne]; [exact Hi|].
  apply (IH (i + 1) Hrest). lia.
Qed.

(** The year strings 1000..9999: four characters, reading back as the
    year (by evaluation, year by year). *)
Lemma year_string_ok (y : Z) :
  1000 <= y <= 9999 ->
  String.length (year_string y) = 4%nat /\ reads_as (year_string y) y = true.
Proof.
  intros Hy.
  assert (H : (Nat.eqb (String.length (year_string y)) 4
               && reads_as (year_string y) y) = true).
  { apply (all_from_spec
             (fun y => Nat.eqb (String.length (year_string y)) 4
                       && reads_as (year_string y) y)
             (Z.to_nat 9000) 1000); [vm_compute; reflexivity|lia]. }
  apply andb_prop in H as [Hl Hr]. now apply Nat.eqb_eq in Hl.
Qed.

Lemma year_string_next (y : Z) :
  1000 <= y <= 9998 ->
  String.compare (year_string y) (year_string (y + 1)) = Lt.
Proof.
  intros Hy.
  assert (H : String.ltb (year_string y) (year_string (y + 1)) = true).
  { apply (all_from_spec
             (fun y => String.ltb (year_string y) (year_string (y + 1)))
             (Z.to_nat 8999) 1000); [vm_compute; reflexivity|lia]. }
  unfold String.ltb in H.
  destruct (String.compare (year_string y) (year_string (y + 1)));
    [discriminate|reflexivity|discriminate].
Qed.

Lemma month_string_ok (m : Z) :
  0 <= m <= 11 ->
  String.length (month_string m) = 2%nat
  /\ reads_as (month_string m) (m + 1) = true.
Proof.
  intros Hm.
  assert (H : (Nat.eqb (String.length (month_string m)) 2
               && reads_as (month_string m) (m + 1)) = true).
  { apply (all_from_spec
             (fun m => Nat.eqb (String.length (month_string m)) 2
                       && reads_as (month_string m) (m + 1))
             12%nat 0); [vm_compute; reflexivity|lia]. }
  apply andb_prop in H as [Hl Hr]. now apply Nat.eqb_eq in Hl.
Qed.

Lemma month_string_next (m : Z) :
  0 <= m <= 10 ->
  String.compare (month_string m) (month_string (m + 1)) = Lt.
Proof.
  intros Hm.
  assert (H : String.ltb (month_string m) (month_string (m + 1)) = true).
  { apply (all_from_spec
             (fun m => String.ltb (month_string m) (month_string (m + 1)))
             11%nat 0); [vm_compute; reflexivity|lia]. }
  unfold String.ltb in H.
  destruct (String.compare (month_string m) (month_string (m + 1)));
    [discriminate|reflexivity|discriminate].
Qed.

Lemma year_month_parts (i : Z) :
  year_month i = year_string (i / 12) ++ "-" ++ month_string (i mod 12).
Proof. reflexivity. Qed.

(** Comparison and splitting of concatenated strings. *)

Lemma compare_app_same (a s t : string) :
  String.compare (a ++ s) (a ++ t) = String.compare s t.
Proof.
  induction a as [|c a IH]; simpl; [reflexivity|].
  now rewrite ascii_compare_refl.
Qed.

Lemma compare_app_lt (a : string) :
  forall b s t, String.length a = String.length b ->
                String.compare a b = Lt ->
                String.compare (a ++ s) (b ++ t) = Lt.
Proof.
  induction a as [|c a IH]; intros [|d b] s t Hlen; simpl in *;
    try discriminate.
  destruct (Ascii.compare c d); try discriminate; [|reflexivity].
  apply IH. now injection Hlen.
Qed.

Lemma append_empty_r (s : string) : s ++ "" = s.
Proof. induction s as [|c s IH]; simpl; [reflexivity|now rewrite IH]. Qed.

Lemma append_cons_assoc (cur : string) (c : ascii) (s : string) :
  (cur ++ String c "") ++ s = cur ++ String c s.
Proof. induction cur as [|d cur IH]; simpl; [reflexivity|now rewrite IH]. Qed.

Lemma split_dash_aux_piece (s : string) :
  no_dash s = true ->
  forall cur rest,
    split_dash_aux cur (s ++ String "-" rest)
    = (cur ++ s) :: split_dash_aux "" rest.
Proof.
  induction s as [|c s IH]; intros Hs cur rest; simpl in *.
  - now rewrite append_empty_r.
  - apply andb_prop in Hs as [Hc Hs]. apply negb_true_iff in Hc.
    rewrite Hc, IH by exact Hs. now rewrite append_cons_assoc.
Qed.

Lemma split_dash_aux_last (s : string) :
  no_dash s = true ->
  forall cur, split_dash_aux cur s = [cur ++ s].
Proof.
  induction s as [|c s IH]; intros Hs cur; simpl in *.
  - now rewrite append_empty_r.
  - apply andb_prop in Hs as [Hc Hs]. apply negb_true_iff in Hc.
    rewrite Hc, IH by exact Hs. now rewrite append_cons_assoc.
Qed.

Ltac div_mod_12 i :=
  pose proof (Z.div_mod i 12); pose proof (Z.mod_pos_bound i 12).

(** Reading back the string of a month gives the month. *)
Lemma parse_year_month (i : Z) :
  first_month <= i <= last_month + 1 ->
  parseYearMonth (year_month i) = month_start i.
Proof.
  intros Hi. unfold first_month, last_month, month_of in Hi.
  div_mod_12 i.
  destruct (year_string_ok (i / 12)) as (_ & Hy); [lia|].
  destruct (month_string_ok (i mod 12)) as (_ & Hm); [lia|].
  unfold reads_as in Hy, Hm.
  apply andb_prop in Hy as [Hyd Hyv]. apply andb_prop in Hm as [Hmd Hmv].
  unfold parseYearMonth, split_dash. rewrite year_month_parts.
  change ("-" ++ month_string (i mod 12))
    with (String "-" (month_string (i mod 12))).
  rewrite split_dash_aux_piece by exact Hyd.
  rewrite split_dash_aux_last by exact Hmd. simpl map.
  destruct (Number_piece (year_string (i / 12))) as [y|]; [|discriminate].
  destruct (Number_piece (month_string (i mod 12))) as [m|]; [|discriminate].
  apply Z.eqb_eq in Hyv, Hmv. subst y m.
  unfold new_Date, month_start, option_map.
  replace ((0 <=? i / 12) && (i / 12 <=? 99)) with false
    by (symmetry; apply andb_false_iff; right; apply Z.leb_gt; lia).
  replace (i mod 12 + 1 - 1) with (i mod 12) by lia.
  rewrite Z.mod_mod by lia. rewrite (Z.div_small (i mod 12)) by lia.
  now rewrite Z.add_0_r.
Qed.

(** The string of a month is below the string of the next month. *)
Lemma year_month_next (i : Z) :
  first_month <= i <= last_month ->
  String.compare (year_month i) (year_month (i + 1)) = Lt.
Proof.
  intros Hi. unfold first_month, last_month, month_of in Hi.
  div_mod_12 i. div_mod_12 (i + 1).
  rewrite !year_month_parts.
  destruct (Z.eq_dec (i mod 12) 11) as [Hdec|Hdec].
  - assert (Hq : (i + 1) / 12 = i / 12 + 1) by lia.
    rewrite Hq. apply compare_app_lt.
    + destruct (year_string_ok (i / 12)) as (-> & _); [lia|].
      destruct (year_string_ok (i / 12 + 1)) as (-> & _); [lia|reflexivity].
    + apply year_string_next. lia.
  - assert (Hq : (i + 1) / 12 = i / 12) by lia.
    assert (Hr : (i + 1) mod 12 = i mod 12 + 1) by lia.
    rewrite Hq, Hr, compare_app_same.
    change ("-" ++ month_string (i mod 12))
      with (String "-" (month_string (i mod 12))).
    change ("-" ++ month_string (i mod 12 + 1))
      with (String "-" (month_string (i mod 12 + 1))).
    cbn [String.compare]. rewrite ascii_compare_refl.
    apply month_string_next. lia.
Qed.

Lemma year_month_increasing (i j : Z) :
  first_month <= i -> i < j -> j <= last_month + 1 ->
  String.compare (year_month i) (year_month j) = Lt.
Proof.
  intros Hi Hij Hj.
  replace j with (i + 1 + Z.of_nat (Z.to_nat (j - i - 1))) in * by lia.
  induction (Z.to_nat (j - i - 1)) as [|n IH].
  - rewrite Z.add_0_r. apply year_month_next. lia.
  - apply string_compare_lt_trans with (year_month (i + 1 + Z.of_nat n)).
    + apply IH; lia.
    + replace (i + 1 + Z.of_nat (S n)) with (i + 1 + Z.of_nat n + 1) by lia.
      apply year_month_next. lia.
Qed.

Lemma addMonths_month_start (i : Z) :
  addMonths (month_start i) 1 = month_start (i + 1).
Proof.
  unfold addMonths, month_start.
  div_mod_12 i. div_mod_12 (i + 1). div_mod_12 (i mod 12 + 1).
  f_equal; lia.
Qed.

(** A run of digits is determined by its length and its value. *)

Lemma is_digit_val (c : ascii) :
  is_digit c = true -> 0 <= digit_val c <= 9.
Proof.
  unfold is_digit, digit_val, Ascii.leb, Ascii.compare. intros H.
  apply andb_prop in H as [H0 H9].
  change (N_of_ascii "0") with 48%N in H0.
  change (N_of_ascii "9") with 57%N in H9.
  assert (48 <= N_of_ascii c)%N
    by (apply N.compare_le_iff; intros E; rewrite E in H0; discriminate).
  assert (N_of_ascii c <= 57)%N
    by (apply N.compare_le_iff; intros E; rewrite E in H9; discriminate).
  lia.
Qed.

Lemma digit_val_inj (c d : ascii) : digit_val c = digit_val d -> c = d.
Proof.
  unfold digit_val. intros H.
  rewrite <- (ascii_N_embedding c), <- (ascii_N_embedding d).
  f_equal. lia.
Qed.

Lemma digits_val_bounds (s : string) :
  forall acc v, 0 <= acc -> digits_val acc s = Some v ->
    acc * 10 ^ Z.of_nat (String.length s) <= v
    < (acc + 1) * 10 ^ Z.of_nat (String.length s).
Proof.
  induction s as [|c s IH]; intros acc v Hacc H; cbn [digits_val] in H.
  - inversion H; subst. simpl. lia.
  - destruct (is_digit c) eqn:Hc; [|discriminate].
    pose proof (is_digit_val c Hc) as Hd.
    apply IH in H; [|lia].
    cbn [String.length]. rewrite Nat2Z.inj_succ, Z.pow_succ_r by lia.
    assert (0 < 10 ^ Z.of_nat (String.length s)) by (apply Z.pow_pos_nonneg; lia).
    nia.
Qed.

Lemma digits_val_inj (s : string) :
  forall t acc v, 0 <= acc -> String.length s = String.length t ->
    digits_val acc s = Some v -> digits_val acc t = Some v -> s = t.
Proof.
  induction s as [|c s IH]; intros [|d t] acc v Hacc Hlen Hs Ht;
    try discriminate; [reflexivity|].
  cbn [digits_val] in Hs, Ht.
  destruct (is_digit c) eqn:Hc; [|discriminate].
  destruct (is_digit d) eqn:Hd; [|discriminate].
  pose proof (is_digit_val c Hc). pose proof (is_digit_val d Hd).
  injection Hlen as Hlen.
  assert (Bs := digits_val_bounds s (10 * acc + digit_val c) v).
  assert (Bt := digits_val_bounds t (10 * acc + digit_val d) v).
  specialize (Bs ltac:(lia) Hs). specialize (Bt ltac:(lia) Ht).
  rewrite <- Hlen in Bt.
  assert (0 < 10 ^ Z.of_nat (String.length s)) by (apply Z.pow_pos_nonneg; lia).
  assert (Heq : digit_val c = digit_val d) by nia.
  apply digit_val_inj in Heq. subst d.
  f_equal.
  apply (IH t (10 * acc + digit_val c) v); [lia|exact Hlen|exact Hs|exact Ht].
Qed.

Lemma digits_val_no_dash (s : string) :
  forall acc v, digits_val acc s = Some v -> no_dash s = true.
Proof.
  induction s as [|c s IH]; intros acc v H; [reflexivity|].
  cbn [digits_val] in H. destruct (is_digit c) eqn:Hc; [|discriminate].
  cbn [no_dash]. rewrite (IH _ _ H), andb_true_r.
  destruct (Ascii.eqb c "-") eqn:E; [|reflexivity].
  apply Ascii.eqb_eq in E. subst c. discriminate Hc.
Qed.

(** A string the validator accepts, from "1000-01" on, is the string of a
    calendar month. *)
Lemma valid_year_month_is_month (s : string) :
  isValidYearMonth (VStr s) = true ->
  String.leb "1000-01" s = true ->
  exists i, first_month <= i <= last_month + 1 /\ s = year_month i.
Proof.
  intros Hv Hle.
  destruct s as [|y1 [|y2 [|y3 [|y4 [|dash [|m1 [|m2 [|]]]]]]]]; try discriminate.
  cbn [isValidYearMonth] in Hv.
  apply andb_prop in Hv as [Hv Hmo]. cbv zeta in Hmo.
  apply andb_prop in Hmo as [Hmo1 Hmo12].
  apply Z.leb_le in Hmo1, Hmo12.
  apply andb_prop in Hv as [Hv F2]. apply andb_prop in Hv as [Hv F1].
  apply andb_prop in Hv as [Hv Hdash]. apply andb_prop in Hv as [Hv G4].
  apply andb_prop in Hv as [Hv G3]. apply andb_prop in Hv as [G1 G2].
  apply Ascii.eqb_eq in Hdash. subst dash.
  pose proof (is_digit_val y1 G1) as D1. pose proof (is_digit_val y2 G2) as D2.
  pose proof (is_digit_val y3 G3) as D3. pose proof (is_digit_val y4 G4) as D4.
  pose proof (is_digit_val m1 F1) as E1. pose proof (is_digit_val m2 F2) as E2.
  assert (Hy1 : 1 <= digit_val y1).
  { unfold String.leb in Hle. cbn [String.compare] in Hle.
    unfold digit_val. unfold Ascii.compare in Hle.
    change (N_of_ascii "1") with 49%N in Hle.
    assert (49 <= N_of_ascii y1)%N; [|lia].
    apply N.compare_le_iff. intros E. rewrite E in Hle. discriminate. }
  set (y := 1000 * digit_val y1 + 100 * digit_val y2
            + 10 * digit_val y3 + digit_val y4).
  set (mo := 10 * digit_val m1 + digit_val m2) in *.
  assert (Hyear : digits_val 0 (String y1 (String y2 (String y3 (String y4 ""))))
                  = Some y).
  { cbn [digits_val]. rewrite G1, G2, G3, G4. f_equal. unfold y. lia. }
  assert (Hmonth : digits_val 0 (String m1 (String m2 "")) = Some mo).
  { cbn [digits_val]. rewrite F1, F2. f_equal. }
  exists (12 * y + (mo - 1)).
  assert (Hq : (12 * y + (mo - 1)) / 12 = y)
    by (symmetry; apply (Z.div_unique _ 12 y (mo - 1)); lia).
  assert (Hr : (12 * y + (mo - 1)) mod 12 = mo - 1)
    by (symmetry; apply (Z.mod_unique _ 12 y (mo - 1)); lia).
  split; [unfold first_month, last_month, month_of, y; lia|].
  rewrite year_month_parts, Hq, Hr.
  destruct (year_string_ok y) as (Hlen & Hread); [unfold y; lia|].
  destruct (month_string_ok (mo - 1)) as (Hmlen & Hmread); [lia|].
  unfold reads_as in Hread, Hmread.
  apply andb_prop in Hread as [_ Hread]. apply andb_prop in Hmread as [_ Hmread].
  unfold Number_piece in Hread, Hmread.
  destruct (digits_val 0 (year_string y)) as [v|] eqn:Hv1; [|discriminate].
  destruct (digits_val 0 (month_string (mo - 1))) as [w|] eqn:Hv2; [|discriminate].
  apply Z.eqb_eq in Hread, Hmread. subst v w.
  replace (mo - 1 + 1) with mo in Hv2 by lia.
  rewrite (digits_val_inj (year_string y)
             (String y1 (String y2 (String y3 (String y4 ""))))
             0 y) by (auto; lia).
  rewrite (digits_val_inj (month_string (mo - 1)) (String m1 (String m2 ""))
             0 mo) by (auto; lia).
  reflexivity.
Qed.

(** ** Rollover catch-up *)


Lemma months_after_length (n : nat) (i : Z) :
  List.length (months_after n i) = n.
Proof. revert i. induction n as [|n IH]; intros i; simpl; [|rewrite IH]; reflexivity. Qed.

Lemma fold_apply_month (resolve : string -> value) (months : list string) :
  forall st changed,
    fold_left (fun acc ym => apply_month ym (resolve ym) acc) months (st, changed)
    = (mkGoalState
         (fold_left (fun balance ym =>
                       deposit balance
                               (safeNumber (get (resolve ym) "saving_longterm")))
                    months (currentLongterm st))
         (fold_left (fun balance ym =>
                       deposit balance
                               (safeNumber (get (resolve ym) "saving_buffer")))
                    months (currentBuffer st))
         (match months with
          | [] => lastRolloverYm st
          | _ => Some (last months "")
          end),
       changed || existsb (fun ym => has_deposit (resolve ym)) months).
Proof.
  induction months as [|ym months IH]; intros st changed.
  - simpl. rewrite orb_false_r. now destruct st.
  - cbn [fold_left]. unfold apply_month at 2. cbn [fst snd].
    rewrite IH. cbn [currentLongterm currentBuffer lastRolloverYm existsb].
    f_equal.
    + f_equal. destruct months; reflexivity.
    + unfold has_deposit at 2.
      destruct (safeNumber (get (resolve ym) "saving_longterm")),
               (safeNumber (get (resolve ym) "saving_buffer"));
        simpl; try reflexivity; now rewrite orb_true_r.
Qed.

Lemma months_after_last (n : nat) :
  forall i, last (months_after (S n) i) "" = year_month (i + 1 + Z.of_nat n).
Proof.
  induction n as [|n IH]; intros i.
  - simpl. now rewrite Z.add_0_r.
  - change (months_after (S (S n)) i)
      with (year_month (i + 1) :: months_after (S n) (i + 1)).
    change (last (year_month (i + 1) :: months_after (S n) (i + 1)) "")
      with (last (months_after (S n) (i + 1)) "").
    rewrite IH. f_equal. lia.
Qed.

Section CatchUp.
Context {host : Host}.
Variable stages : value.
Variable resolve : string -> value.

Lemma rollover_loop_catches_up (i1 : Z) :
  first_month <= i1 <= last_month ->
  forall n j fuel acc,
    first_month <= j + 1 -> j + Z.of_nat n = i1 -> (n < fuel)%nat ->
    (forall ym, In ym (months_after n j) ->
                findStageForYearMonth stages ym = Ok (resolve ym)) ->
    rollover_loop fuel stages (year_month i1) (month_start (j + 1))
                  (fst acc) (snd acc)
    = Done (fold_left (fun acc ym => apply_month ym (resolve ym) acc)
                      (months_after n j) acc).
Proof.
  intros Hi1. induction n as [|n IH]; intros j fuel acc Hj Hn Hfuel Hres;
    (destruct fuel as [|fuel]; [lia|]); cbn [rollover_loop].
  - replace j with i1 by lia.
    assert (Hg : String.leb (year_month (i1 + 1)) (year_month i1) = false).
    { unfold String.leb. rewrite String.compare_antisym.
      now rewrite year_month_next by lia. }
    unfold year_month at 1 in Hg. rewrite Hg. now destruct acc.
  - assert (Hg : String.leb (year_month (j + 1)) (year_month i1) = true).
    { destruct (Z.eq_dec (j + 1) i1) as [->|Hne]; [apply string_leb_refl|].
      unfold String.leb. now rewrite year_month_increasing by lia. }
    unfold year_month at 1 in Hg. rewrite Hg.
    cbn [months_after] in *.
    fold (year_month (j + 1)).
    rewrite (Hres (year_month (j + 1))) by now left.
    rewrite addMonths_month_start.
    cbn [fold_left].
    rewrite <- (IH (j + 1) fuel
                   (apply_month (year_month (j + 1))
                                (resolve (year_month (j + 1))) acc));
      try lia; [reflexivity|].
    intros ym Hym. apply Hres. now right.
Qed.
End CatchUp.

Lemma month_index_year_month (i : Z) :
  first_month <= i <= last_month + 1 -> month_index (year_month i) = i.
Proof.
  intros Hi. unfold month_index. rewrite parse_year_month by exact Hi.
  unfold month_start. pose proof (Z.div_mod i 12). lia.
Qed.

Section RolloverTheorem.
Context {host : Host}.

(** The loop between two months given by their numbers. *)
Lemma rollover_between_months (fuel : nat) (stages : value) (now : Date)
      (st : GoalState) (i0 i1 : Z) (resolve : string -> value) :
  first_month <= i0 -> i0 < i1 -> i1 <= last_month ->
  lastRolloverYm st = Some (year_month i0) ->
  getCurrentYearMonth now = year_month i1 ->
  (Z.to_nat (i1 - i0) < fuel)%nat ->
  let months := months_after (Z.to_nat (i1 - i0)) i0 in
  (forall ym, In ym months ->
              findStageForYearMonth stages ym = Ok (resolve ym)) ->
  applyMonthlyRolloverIfNeeded fuel stages now st
  = Done (mkGoalState
            (fold_left
               (fun balance ym =>
                  deposit balance
                    (safeNumber (get (resolve ym) "saving_longterm")))
               months (currentLongterm st))
            (fold_left
               (fun balance ym =>
                  deposit balance
                    (safeNumber (get (resolve ym) "saving_buffer")))
               months (currentBuffer st))
            (Some (getCurrentYearMonth now)),
          existsb (fun ym => has_deposit (resolve ym)) months).
Proof.
  intros Hi0 Hlt Hi1 Hlast Hnow Hfuel months Hres.
  assert (Hrun : applyMonthlyRolloverIfNeeded fuel stages now st
                 = Done (fold_left (fun acc ym => apply_month ym (resolve ym) acc)
                                   months (st, false))).
  { unfold applyMonthlyRolloverIfNeeded. rewrite Hlast, Hnow.
    assert (Hparse : parseYearMonth (year_month i0) = month_start i0)
      by (apply parse_year_month; lia).
    destruct (year_month i0) as [|c rest] eqn:Hym.
    - unfold month_start in Hparse. discriminate Hparse.
    - rewrite <- Hym in *.
      assert (Hg : String.leb (year_month i1) (year_month i0) = false).
      { unfold String.leb. rewrite String.compare_antisym.
        now rewrite year_month_increasing by lia. }
      rewrite Hg, Hparse. rewrite addMonths_month_start.
      apply (rollover_loop_catches_up stages resolve i1) with (acc := (st, false));
        try lia; assumption. }
  rewrite Hrun, fold_apply_month. cbn [orb].
  assert (Hl : match months with
               | [] => lastRolloverYm st
               | _ => Some (last months "")
               end = Some (getCurrentYearMonth now)).
  { subst months.
    destruct (Z.to_nat (i1 - i0)) as [|n] eqn:Hn; [lia|].
    change (Some (last (months_after (S n) i0) "")
            = Some (getCurrentYearMonth now)).
    rewrite months_after_last, Hnow.
    replace (i0 + 1 + Z.of_nat n) with i1 by lia. reflexivity. }
  now rewrite Hl.
Qed.

End RolloverTheorem.

(** * The theorems at concrete inputs *)

Lemma reference_host_collates : collates_year_months reference_host.
Proof. intros a b _ _. reflexivity. Qed.


(** The lookup on the README's two stages: June 2025 lies in the first
    stage, and every lookup returns one of the two. *)
Lemma findStage_three_tiers_witness :
  collates_year_months reference_host
  /\ Forall (fun s => stage_ok s = true) [new_role; promotion]
  /\ exists s,
       findStageForYearMonth (host := reference_host)
         (VArr [new_role; promotion]) "2025-06" = Ok s
       /\ In s [new_role; promotion]
       /\ contains "2025-06" s = true.
Proof.
  assert (Hok : Forall (fun s => stage_ok s = true) [new_role; promotion])
    by (repeat constructor).
  split; [exact reference_host_collates|]. split; [exact Hok|].
  destruct (proj2 (findStage_three_tiers (host := reference_host)
                     [new_role; promotion] "2025-06")
                  reference_host_collates ltac:(discriminate) Hok)
    as (s & Hs & Hin & _ & Htier1 & _).
  exists s. split; [exact Hs|]. split; [exact Hin|].
  apply Htier1. exists new_role. split; [now left|reflexivity].
Defined.

(** 100000 without deposits and a target of 107999.999: reached in the
    twelfth simulated month after January 2025. *)
Lemma projection_compounds_monthly_witness :
  let goal := VObj [("target_longterm", VNum 107999.999);
                    ("target_buffer", VNum 0)] in
  let st := mkGoalState 100000 0 (Some "2025-01") in
  In (Math_pow (Host := reference_host) 1.08 (1 / 12)) twelfth_root_neighbours
  /\ projectGoalDate (host := reference_host) (VArr [idle]) goal
       (At 2025 0 0) st
     = Ok (Reached (At 2026 0 0))
  /\ close_to (fst (compounded (host := reference_host) (fun _ => idle) 12
                               (100000%float, 0%float)))
              (100000 * 1.08) = true.
Proof.
  cbv zeta.
  assert (Hpow : In (Math_pow (Host := reference_host) 1.08 (1 / 12))
                    twelfth_root_neighbours)
    by (right; right; left; reflexivity).
  pose proof (projection_compounds_monthly (host := reference_host)
                (VArr [idle])
                (VObj [("target_longterm", VNum 107999.999);
                       ("target_buffer", VNum 0)])
                (At 2025 0 0) (mkGoalState 100000 0 (Some "2025-01"))
                107999.999%float 0%float (fun _ => idle)
                eq_refl eq_refl eq_refl eq_refl) as H.
  cbv zeta in H. destruct H as (_ & _ & Hreach & _ & Hclose & _).
  split; [exact Hpow|]. split.
  - apply (Hreach 11%nat).
    + lia.
    + intros k _.
      rewrite findStage_converting_agrees by (repeat constructor).
      apply findStage_single. reflexivity.
    + intros j Hj.
      do 12 (destruct j as [|j]; [vm_compute; reflexivity|]). lia.
    + vm_compute. reflexivity.
  - apply Hclose; [exact Hpow|reflexivity|].
    left. intros k _. reflexivity.
Defined.

(** The buffer projection's guard on a zero, a missing and a met target. *)
Lemma projectBufferDate_guard_witness :
  projectBufferDate (host := reference_host) (VArr [saver])
    (VObj [("target_buffer", VNum 0)]) (At 2025 2 0)
    (mkGoalState 0 500 (Some "2025-03")) = Ok NotReached
  /\ projectBufferDate (host := reference_host) (VArr [saver])
       (VObj [("target_buffer", VStr "3000")]) (At 2025 2 0)
       (mkGoalState 0 500 (Some "2025-03")) = Ok NotReached
  /\ projectBufferDate (host := reference_host) (VArr [saver])
       (VObj [("target_buffer", VNum 300)]) (At 2025 2 0)
       (mkGoalState 0 500 (Some "2025-03")) = Ok (Reached (At 2025 2 0)).
Proof.
  split; [|split].
  - exact (proj1 (proj2 (projectBufferDate_guard (host := reference_host)
             (VArr [saver]) (VObj [("target_buffer", VNum 0)]) (At 2025 2 0)
             (mkGoalState 0 500 (Some "2025-03"))))
             0%float eq_refl eq_refl).
  - exact (proj1 (projectBufferDate_guard (host := reference_host)
             (VArr [saver]) (VObj [("target_buffer", VStr "3000")]) (At 2025 2 0)
             (mkGoalState 0 500 (Some "2025-03")))
             eq_refl).
  - exact (proj2 (proj2 (proj2 (projectBufferDate_guard (host := reference_host)
             (VArr [saver]) (VObj [("target_buffer", VNum 300)]) (At 2025 2 0)
             (mkGoalState 0 500 (Some "2025-03")))))
             300%float eq_refl eq_refl eq_refl).
Defined.


(** The rollover twice in March 2025 with the watermark at 2025-03. *)
Lemma rollover_noop_witness :
  let st := mkGoalState 220000 20000 (Some "2025-03") in
  applyMonthlyRolloverIfNeeded (host := reference_host) 5 (VArr [saver])
    (At 2025 2 0) st = Done (st, false)
  /\ applyMonthlyRolloverIfNeeded (host := reference_host) 5 (VArr [saver])
       (At 2025 2 86400000) st = Done (st, false).
Proof.
  exact (rollover_noop (host := reference_host) 5 5 (VArr [saver])
           (At 2025 2 0) (At 2025 2 86400000)
           (mkGoalState 220000 20000 (Some "2025-03")) "2025-03"
           eq_refl ltac:(discriminate) eq_refl eq_refl).
Defined.

(** The watermark after a restore and a rollover in April 2025. *)
Lemma watermark_never_ahead_witness :
  let now := At 2025 3 0 in
  let stored :=
    VObj [ ("current_longterm", VNum 220000); ("current_buffer", VNum 20000);
           ("last_rollover_ym", VStr "2025-01") ] in
  watermark_ok now (loadPlan_goalState example_plan stored now)
  /\ watermark_ok now (mkGoalState 223000 21500 (Some "2025-04")).
Proof.
  cbv zeta.
  pose proof (watermark_never_ahead (host := reference_host) example_plan
                (VObj [ ("current_longterm", VNum 220000);
                        ("current_buffer", VNum 20000);
                        ("last_rollover_ym", VStr "2025-01") ])
                (VArr [saver]) (At 2025 3 0)) as (_ & Hrestore & Hroll).
  split.
  - apply Hrestore. intros s Hs _. vm_compute in Hs.
    injection Hs as <-. reflexivity.
  - apply (Hroll 10%nat (mkGoalState 220000 20000 (Some "2025-01"))
                 (mkGoalState 223000 21500 (Some "2025-04")) true);
      reflexivity.
Defined.

(** The validator on an empty stage list and on two malformed stages. *)
Lemma validatePlan_accumulates_witness :
  let broken := VObj [("stages", VArr [VNull; VObj [("name", VStr " ")]])] in
  validatePlan (VObj [("stages", VArr [])])
  = ["Plan must include a non-empty stages array."]
  /\ (2 <= List.length (validatePlan broken))%nat
  /\ exists issue, In issue (validatePlan broken)
                   /\ String.prefix "Stage 2" issue = true.
Proof.
  cbv zeta. split; [|split].
  - apply (proj1 (validatePlan_accumulates (VObj [("stages", VArr [])]))).
    right; right; reflexivity.
  - destruct (proj2 (validatePlan_accumulates
                       (VObj [("stages", VArr [VNull; VObj [("name", VStr " ")]])]))
                    [VNull; VObj [("name", VStr " ")]] eq_refl ltac:(discriminate))
      as (_ & _ & Htwo & _).
    apply (Htwo 0%nat 1%nat VNull (VObj [("name", VStr " ")]));
      [discriminate|reflexivity|reflexivity|reflexivity|reflexivity].
  - destruct (proj2 (validatePlan_accumulates
                       (VObj [("stages", VArr [VNull; VObj [("name", VStr " ")]])]))
                    [VNull; VObj [("name", VStr " ")]] eq_refl ltac:(discriminate))
      as (_ & Hreport & _).
    apply (Hreport 1%nat (VObj [("name", VStr " ")])); reflexivity.
Defined.

(** The handler on a body with a number, a boolean and no watermark, and
    on a body whose balance is an object with an own [toString]. *)
Lemma put_state_stores_witness :
  let body := VObj [("current_longterm", VNum 223000);
                    ("current_buffer", VBool true)] in
  let bad := VObj [("current_longterm", VObj [("toString", VNum 1)])] in
  (exists stored,
      app_put_state (host := reference_host) None body
                    "2025-04-01T08:00:00.000Z"
      = (Some stored, Ok stored)
      /\ get stored "current_longterm" = VNum 223000
      /\ get stored "current_buffer" = VNum 1
      /\ get stored "last_rollover_ym" = VNull)
  /\ app_put_state (host := reference_host) (Some body) bad
                   "2025-04-01T08:00:00.000Z"
     = (Some body, Throw "TypeError").
Proof.
  cbv zeta. split.
  - destruct (proj2 (put_state_stores (host := reference_host) None
                       (VObj [("current_longterm", VNum 223000);
                              ("current_buffer", VBool true)])
                       "2025-04-01T08:00:00.000Z") eq_refl)
      as (stored & Hrun & _ & Hym & Hbalance).
    exists stored. split; [exact Hrun|]. split; [|split].
    + exact (proj1 (Hbalance "current_longterm" (or_introl eq_refl))).
    + exact (proj2 (proj2 (Hbalance "current_buffer" (or_intror eq_refl)))
               eq_refl).
    + exact Hym.
  - exact (proj1 (put_state_stores (host := reference_host)
                    (Some (VObj [("current_longterm", VNum 223000);
                                 ("current_buffer", VBool true)]))
                    (VObj [("current_longterm", VObj [("toString", VNum 1)])])
                    "2025-04-01T08:00:00.000Z") eq_refl).
Defined.

(** C10, against "a string [from] on every element is enough": one open
    stage with a string [from] and a [to] that is an object with an own
    [toString]; the test [ym <= s.to] of the first filter raises. *)
Lemma findStage_raises_on_to :
  let stage := VObj [("name", VStr "Open"); ("from", VStr "2024-01");
                     ("to", VObj [("toString", VNum 1)])] in
  [stage] <> []
  /\ Forall has_from_string [stage]
  /\ findStageForYearMonth_converting (host := reference_host)
       (VArr [stage]) "2024-06"
     = Throw "TypeError".
Proof.
  cbv zeta. split; [discriminate|]. split; [|reflexivity].
  repeat constructor. eexists. reflexivity.
Qed.

(** The lookup on the README's stages raises nothing; on two stages
    without [from] it raises. *)
Lemma findStage_total_witness :
  Forall has_from_string [new_role; promotion]
  /\ Forall (fun s => conversion_raises (get s "to") = false)
            [new_role; promotion]
  /\ (exists s, findStageForYearMonth_converting (host := reference_host)
                  (VArr [new_role; promotion]) "2024-03" = Ok s
                /\ In s [new_role; promotion])
  /\ findStageForYearMonth_converting (host := reference_host)
       (VArr [VObj [("name", VStr "A")]; VObj [("name", VStr "B")]]) "2024-03"
     = Throw "TypeError".
Proof.
  assert (Hfrom : Forall has_from_string [new_role; promotion])
    by (repeat constructor; eexists; reflexivity).
  assert (Hto : Forall (fun s => conversion_raises (get s "to") = false)
                       [new_role; promotion])
    by (repeat constructor).
  split; [exact Hfrom|]. split; [exact Hto|]. split.
  - destruct (proj1 (findStage_total (host := reference_host)
                       [new_role; promotion] "2024-03")
                    ltac:(discriminate) Hfrom Hto)
      as (s & Hs & Hin & _).
    exists s. split; assumption.
  - apply (proj1 (proj2 (proj2 (findStage_total (host := reference_host)
                    [VObj [("name", VStr "A")]; VObj [("name", VStr "B")]]
                    "2024-03")))
                 (VObj [("name", VStr "A")]) (VObj [("name", VStr "B")]) []
                 eq_refl).
    repeat constructor.
Defined.

(** * Further examples *)

(** 100000 without deposits passes 107999.999 in the twelfth simulated
    month after January 2025 (January 2026) and 108000.001 only in the
    thirteenth. *)
Example projection_reaches_108000_after_twelve_months :
  let st := mkGoalState 100000 0 (Some "2025-01") in
  let goal t := VObj [("target_longterm", VNum t); ("target_buffer", VNum 0)] in
  projectGoalDate (host := reference_host) (VArr [idle]) (goal 107999.999%float)
                  (At 2025 0 0) st = Ok (Reached (At 2026 0 0))
  /\ projectGoalDate (host := reference_host) (VArr [idle]) (goal 108000.001%float)
                     (At 2025 0 0) st = Ok (Reached (At 2026 1 0)).
Proof. cbv zeta. split; vm_compute; reflexivity. Qed.

(** A target out of reach: after 600 simulated months the projection gives
    up. *)
Example projection_gives_up_after_600_months :
  projectGoalDate (host := reference_host) (VArr [idle])
    (VObj [("target_longterm", VNum 1e300); ("target_buffer", VNum 0)])
    (At 2025 0 0) (mkGoalState 100000 0 (Some "2025-01")) = Ok NotReached.
Proof. vm_compute. reflexivity. Qed.

(** A stage whose name is a no-break space (U+00A0, in UTF-8 the bytes 194
    and 160) has no name left after [trim]. *)
Example validatePlan_no_break_space_name :
  validatePlan
    (VObj [("stages",
            VArr [VObj [("name",
                         VStr (String (ascii_of_N 194)
                                 (String (ascii_of_N 160) "")));
                        ("from", VStr "2025-01")]])])
  = ["Stage 1 is missing a name."].
Proof. vm_compute. reflexivity. Qed.

(** The README's plan has no issues, June 2025 resolves to the first stage,
    a month before both stages to the earlier one, and a rollover from
    November 2025 to February 2026 crosses from one stage to the next. *)
Example readme_plan :
  validatePlan example_plan = []
  /\ findStageForYearMonth (host := reference_host) (get example_plan "stages")
       "2025-06" = Ok new_role
  /\ findStageForYearMonth (host := reference_host) (get example_plan "stages")
       "2024-06" = Ok new_role
  /\ findStageForYearMonth (host := reference_host) (get example_plan "stages")
       "2027-06" = Ok promotion
  /\ applyMonthlyRolloverIfNeeded (host := reference_host) 10
       (get example_plan "stages") (At 2026 1 0)
       (mkGoalState 220000 20000 (Some "2025-11"))
     = Done (mkGoalState 251000 25500 (Some "2026-02"), true).
Proof. repeat split; vm_compute; reflexivity. Qed.

(** A watermark with a year below 1000 is outside the four-digit years:
    the unpadded year of the cursor, "500-02", is above "2025-04" as a
    string, and the loop does not run. *)
Example rollover_three_digit_year :
  let st := mkGoalState 220000 20000 (Some "0500-01") in
  isValidYearMonth (VStr "0500-01") = true
  /\ getCurrentYearMonth (addMonths (parseYearMonth "0500-01") 1) = "500-02"
  /\ applyMonthlyRolloverIfNeeded (host := reference_host) 10 (VArr [saver])
       (At 2025 3 0) st = Done (st, false).
Proof. cbv zeta. repeat split; vm_compute; reflexivity. Qed.

(** * Further properties *)

(** ** Year-month strings: order and round trips *)

Lemma digits_val_compare (s : string) :
  forall t acc vs vt, 0 <= acc -> String.length s = String.length t ->
    digits_val acc s = Some vs -> digits_val acc t = Some vt ->
    String.compare s t = Z.compare vs vt.
Proof.
  induction s as [|c s IH]; intros [|d t] acc vs vt Hacc Hlen Hs Ht;
    try discriminate.
  - cbn in Hs, Ht. inversion Hs; inversion Ht; subst.
    now rewrite Z.compare_refl.
  - cbn [digits_val] in Hs, Ht.
    destruct (is_digit c) eqn:Hc; [|discriminate].
    destruct (is_digit d) eqn:Hd; [|discriminate].
    pose proof (is_digit_val c Hc). pose proof (is_digit_val d Hd).
    injection Hlen as Hlen.
    assert (Bs := digits_val_bounds s (10 * acc + digit_val c) vs).
    assert (Bt := digits_val_bounds t (10 * acc + digit_val d) vt).
    specialize (Bs ltac:(lia) Hs). specialize (Bt ltac:(lia) Ht).
    rewrite <- Hlen in Bt.
    assert (0 < 10 ^ Z.of_nat (String.length s)) by (apply Z.pow_pos_nonneg; lia).
    cbn [String.compare]. unfold Ascii.compare.
    destruct (N.compare_spec (N_of_ascii c) (N_of_ascii d)) as [E|E|E].
    + assert (c = d)
        by (rewrite <- (ascii_N_embedding c), <- (ascii_N_embedding d); now f_equal).
      subst d. apply (IH t (10 * acc + digit_val c)); auto; lia.
    + symmetry. apply Z.compare_lt_iff. unfold digit_val in *. nia.
    + symmetry. apply Z.compare_gt_iff. unfold digit_val in *. nia.
Qed.

Lemma compare_app_prefix (a : string) :
  forall b s t, String.length a = String.length b ->
    String.compare (a ++ s) (b ++ t)
    = match String.compare a b with
      | Eq => String.compare s t
      | c => c
      end.
Proof.
  induction a as [|c a IH]; intros [|d b] s t Hlen; try discriminate;
    [reflexivity|].
  simpl. destruct (Ascii.compare c d); try reflexivity.
  apply IH. now injection Hlen.
Qed.

(** The shape of a string that the validator accepts. *)
Lemma valid_year_month_parts (s : string) :
  isValidYearMonth (VStr s) = true ->
  exists Y M y m,
    s = Y ++ String "-" M
    /\ String.length Y = 4%nat /\ String.length M = 2%nat
    /\ digits_val 0 Y = Some y /\ digits_val 0 M = Some m
    /\ 0 <= y <= 9999 /\ 1 <= m <= 12
    /\ calendar_number s = 12 * y + (m - 1).
Proof.
  intros Hv.
  destruct s as [|y1 [|y2 [|y3 [|y4 [|dash [|m1 [|m2 [|]]]]]]]]; try discriminate.
  cbn [isValidYearMonth] in Hv.
  apply andb_prop in Hv as [Hv Hmo]. cbv zeta in Hmo.
  apply andb_prop in Hmo as [Hmo1 Hmo12].
  apply Z.leb_le in Hmo1, Hmo12.
  apply andb_prop in Hv as [Hv F2]. apply andb_prop in Hv as [Hv F1].
  apply andb_prop in Hv as [Hv Hdash]. apply andb_prop in Hv as [Hv G4].
  apply andb_prop in Hv as [Hv G3]. apply andb_prop in Hv as [G1 G2].
  apply Ascii.eqb_eq in Hdash. subst dash.
  pose proof (is_digit_val y1 G1). pose proof (is_digit_val y2 G2).
  pose proof (is_digit_val y3 G3). pose proof (is_digit_val y4 G4).
  pose proof (is_digit_val m1 F1). pose proof (is_digit_val m2 F2).
  set (Y := String y1 (String y2 (String y3 (String y4 "")))).
  set (M := String m1 (String m2 "")).
  set (y := 1000 * digit_val y1 + 100 * digit_val y2
            + 10 * digit_val y3 + digit_val y4).
  set (m := 10 * digit_val m1 + digit_val m2) in *.
  assert (HY : digits_val 0 Y = Some y).
  { unfold Y. cbn [digits_val]. rewrite G1, G2, G3, G4. f_equal. unfold y. lia. }
  assert (HM : digits_val 0 M = Some m).
  { unfold M. cbn [digits_val]. rewrite F1, F2. f_equal. }
  exists Y, M, y, m.
  split; [reflexivity|]. split; [reflexivity|]. split; [reflexivity|].
  split; [exact HY|]. split; [exact HM|].
  split; [unfold y; lia|]. split; [lia|].
  unfold calendar_number, split_dash.
  replace (String y1 (String y2 (String y3 (String y4 (String "-" M)))))
    with (Y ++ String "-" M) by reflexivity.
  rewrite split_dash_aux_piece by (eapply digits_val_no_dash; exact HY).
  rewrite split_dash_aux_last by (eapply digits_val_no_dash; exact HM).
  cbn [map append]. unfold Number_piece. now rewrite HY, HM.
Qed.

(** X1: on strings that the validator accepts, the order of strings is the
    order of the calendar: [a <= b] as strings exactly when the month of
    [a] is not after the month of [b], and equal strings only for the same
    month. *)
Theorem valid_year_months_order (a b : string) :
  isValidYearMonth (VStr a) = true ->
  isValidYearMonth (VStr b) = true ->
  String.compare a b = Z.compare (calendar_number a) (calendar_number b)
  /\ (String.leb a b = true <-> calendar_number a <= calendar_number b)
  /\ (calendar_number a = calendar_number b -> a = b).
Proof.
  intros Ha Hb.
  destruct (valid_year_month_parts a Ha)
    as (Ya & Ma & ya & ma & Ea & LYa & LMa & DYa & DMa & Bya & Bma & Na).
  destruct (valid_year_month_parts b Hb)
    as (Yb & Mb & yb & mb & Eb & LYb & LMb & DYb & DMb & Byb & Bmb & Nb).
  assert (Hcmp : String.compare a b
                 = Z.compare (calendar_number a) (calendar_number b)).
  { rewrite Na, Nb, Ea, Eb.
    rewrite compare_app_prefix by congruence.
    rewrite (digits_val_compare Ya Yb 0 ya yb) by (auto; try lia; congruence).
    destruct (Z.compare_spec ya yb) as [E|E|E].
    - cbn [String.compare]. rewrite ascii_compare_refl.
      rewrite (digits_val_compare Ma Mb 0 ma mb) by (auto; try lia; congruence).
      subst yb.
      destruct (Z.compare_spec ma mb) as [F|F|F]; symmetry;
        [apply Z.compare_eq_iff|apply Z.compare_lt_iff|apply Z.compare_gt_iff];
        lia.
    - symmetry. apply Z.compare_lt_iff. lia.
    - symmetry. apply Z.compare_gt_iff. lia. }
  split; [exact Hcmp|]. split.
  - unfold String.leb. rewrite Hcmp.
    destruct (Z.compare_spec (calendar_number a) (calendar_number b));
      split; intros; try lia; try reflexivity; discriminate.
  - intros E. apply String.compare_eq_iff. rewrite Hcmp, E.
    apply Z.compare_refl.
Qed.

Lemma digits_val_all_digits (s : string) :
  forall acc v, digits_val acc s = Some v ->
    match s with
    | String c _ => is_digit c = true
    | "" => True
    end.
Proof.
  destruct s as [|c s]; intros acc v H; [exact I|].
  cbn [digits_val] in H. now destruct (is_digit c).
Qed.

Lemma getCurrentYearMonth_parts (y m off : Z) :
  getCurrentYearMonth (At y m off) = year_string y ++ "-" ++ month_string m.
Proof. reflexivity. Qed.

(** X2: the year-month string of a date in a four-digit year is one the
    validator accepts, and reading it back gives the first of that month:
    a watermark written by the script survives the check at the next
    start-up. *)
Theorem current_year_month_valid (y m off : Z) :
  1000 <= y <= 9999 -> 0 <= m <= 11 ->
  isValidYearMonth (VStr (getCurrentYearMonth (At y m off))) = true
  /\ parseYearMonth (getCurrentYearMonth (At y m off)) = At y m 0
  /\ calendar_number (getCurrentYearMonth (At y m off)) = 12 * y + m.
Proof.
  intros Hy Hm.
  assert (Hq : (12 * y + m) / 12 = y)
    by (symmetry; apply (Z.div_unique _ 12 y m); lia).
  assert (Hr : (12 * y + m) mod 12 = m)
    by (symmetry; apply (Z.mod_unique _ 12 y m); lia).
  assert (Hym : getCurrentYearMonth (At y m off) = year_month (12 * y + m)).
  { rewrite year_month_parts, Hq, Hr. apply getCurrentYearMonth_parts. }
  assert (Hvalid : isValidYearMonth (VStr (getCurrentYearMonth (At y m off)))
                   = true).
  { rewrite getCurrentYearMonth_parts.
    destruct (year_string_ok y Hy) as (LY & RY).
    destruct (month_string_ok m Hm) as (LM & RM).
    unfold reads_as, Number_piece in RY, RM.
    apply andb_prop in RY as [_ RY]. apply andb_prop in RM as [_ RM].
    destruct (digits_val 0 (year_string y)) as [vy|] eqn:DY; [|discriminate].
    destruct (digits_val 0 (month_string m)) as [vm|] eqn:DM; [|discriminate].
    apply Z.eqb_eq in RY, RM. subst vy vm.
    destruct (year_string y) as [|y1 [|y2 [|y3 [|y4 [|]]]]]; try discriminate.
    destruct (month_string m) as [|m1 [|m2 [|]]]; try discriminate.
    cbn [digits_val] in DY, DM.
    destruct (is_digit y1) eqn:G1; [|discriminate].
    destruct (is_digit y2) eqn:G2; [|discriminate].
    destruct (is_digit y3) eqn:G3; [|discriminate].
    destruct (is_digit y4) eqn:G4; [|discriminate].
    destruct (is_digit m1) eqn:F1; [|discriminate].
    destruct (is_digit m2) eqn:F2; [|discriminate].
    apply (f_equal (fun o => match o with Some v => v | None => 0 end)) in DM.
    cbv beta iota in DM.
    cbn [append isValidYearMonth]. rewrite G1, G2, G3, G4, F1, F2.
    change (Ascii.eqb "-" "-") with true. cbn [andb]. cbv zeta.
    apply andb_true_intro. split; apply Z.leb_le; lia. }
  split; [exact Hvalid|]. split.
  - rewrite Hym, parse_year_month
      by (unfold first_month, last_month, month_of; lia).
    unfold month_start. now rewrite Hq, Hr.
  - destruct (valid_year_month_parts _ Hvalid)
      as (Y & M & vy & vm & E & LY & LM & DY & DM & By & Bm & N).
    rewrite N. rewrite getCurrentYearMonth_parts in E.
    destruct (year_string_ok y Hy) as (LY' & RY).
    destruct (month_string_ok m Hm) as (LM' & RM).
    unfold reads_as, Number_piece in RY, RM.
    apply andb_prop in RY as [NY RY]. apply andb_prop in RM as [NM RM].
    assert (Hsplit : split_dash (year_string y ++ "-" ++ month_string m)
                     = split_dash (Y ++ String "-" M)) by now rewrite E.
    unfold split_dash in Hsplit.
    change ("-" ++ month_string m) with (String "-" (month_string m)) in Hsplit.
    rewrite !split_dash_aux_piece, !split_dash_aux_last in Hsplit;
      try assumption;
      try (eapply digits_val_no_dash; eassumption).
    cbn [append] in Hsplit. injection Hsplit as HY HM. rewrite <- HY in DY.
    rewrite <- HM in DM.
    destruct (digits_val 0 (year_string y)); [|discriminate].
    destruct (digits_val 0 (month_string m)); [|discriminate].
    apply Z.eqb_eq in RY, RM. inversion DY; inversion DM; subst. lia.
Qed.

(** X3: a string that the validator accepts, from "1000-01" on, is given
    back unchanged when it is read as a date and written again. *)
Theorem parse_then_format (s : string) :
  isValidYearMonth (VStr s) = true ->
  String.leb "1000-01" s = true ->
  getCurrentYearMonth (parseYearMonth s) = s.
Proof.
  intros Hv Hle.
  destruct (valid_year_month_is_month s Hv Hle) as (i & Hi & ->).
  now rewrite parse_year_month.
Qed.

(** X4: moving a month start by [a] months and then by [b] is moving it by
    [a + b]; the cursor of the [n]-th simulated month is the start moved by
    [n] months, months past December carrying into the year.  Stated for
    month starts, the dates the script moves. *)
Theorem addMonths_adds (y m a b : Z) (n : nat) :
  addMonths (addMonths (At y m 0) a) b = addMonths (At y m 0) (a + b)
  /\ (0 <= m <= 11 ->
      month_cursor (At y m 0) n
      = At (y + (m + Z.of_nat n) / 12) ((m + Z.of_nat n) mod 12) 0).
Proof.
  assert (Hadd : forall y m a b,
             addMonths (addMonths (At y m 0) a) b
             = addMonths (At y m 0) (a + b)).
  { clear. intros y m a b. unfold addMonths.
    pose proof (Z.div_mod (m + a) 12). pose proof (Z.mod_pos_bound (m + a) 12).
    pose proof (Z.div_mod ((m + a) mod 12 + b) 12).
    pose proof (Z.mod_pos_bound ((m + a) mod 12 + b) 12).
    pose proof (Z.div_mod (m + (a + b)) 12).
    pose proof (Z.mod_pos_bound (m + (a + b)) 12).
    f_equal; lia. }
  split; [apply Hadd|].
  intros Hm.
  assert (Hcur : forall n y m,
             month_cursor (At y m 0) n = addMonths (At y m 0) (Z.of_nat n)
             \/ n = 0%nat).
  { clear - Hadd. induction n as [|n IH]; intros y m; [now right|left].
    cbn [month_cursor].
    change (addMonths (At y m 0) 1)
      with (At (y + (m + 1) / 12) ((m + 1) mod 12) 0).
    destruct (IH (y + (m + 1) / 12) ((m + 1) mod 12)) as [->| ->].
    - change (At (y + (m + 1) / 12) ((m + 1) mod 12) 0)
        with (addMonths (At y m 0) 1).
      rewrite Hadd. f_equal. lia.
    - reflexivity. }
  destruct (Hcur n y m) as [->| ->]; [reflexivity|].
  cbn [month_cursor]. rewrite Z.add_0_r, Z.div_small, Z.mod_small by lia.
  now rewrite Z.add_0_r.
Qed.

(** ** Rollover: first run, repetition, steps *)

Lemma four_digit_month (s : string) :
  four_digit_year_month s ->
  exists i, first_month <= i <= last_month + 1
            /\ s = year_month i /\ month_index s = i.
Proof.
  intros (Hv & Hge).
  destruct (valid_year_month_is_month s Hv Hge) as (i & Hi & ->).
  exists i. split; [exact Hi|]. split; [reflexivity|].
  now apply month_index_year_month.
Qed.

Lemma year_month_ltb_lt (i j : Z) :
  first_month <= i <= last_month + 1 ->
  first_month <= j <= last_month + 1 ->
  String.ltb (year_month i) (year_month j) = true -> i < j.
Proof.
  intros Hi Hj Hlt. unfold String.ltb in Hlt.
  destruct (Z.lt_trichotomy i j) as [H|[H|H]]; [exact H| |].
  - subst j. rewrite string_compare_refl in Hlt. discriminate Hlt.
  - rewrite String.compare_antisym in Hlt.
    rewrite year_month_increasing in Hlt by lia. discriminate Hlt.
Qed.

Lemma before_december_9999 (i : Z) :
  first_month <= i <= last_month + 1 ->
  String.ltb (year_month i) "9999-12" = true -> i <= last_month.
Proof.
  intros Hi Hlt.
  assert (i < last_month + 1); [|lia].
  apply year_month_ltb_lt; [exact Hi|lia|exact Hlt].
Qed.

Lemma months_after_app (n1 n2 : nat) :
  forall i, months_after (n1 + n2) i
            = (months_after n1 i ++ months_after n2 (i + Z.of_nat n1))%list.
Proof.
  induction n1 as [|n1 IH]; intros i.
  - simpl. now rewrite Z.add_0_r.
  - cbn [months_after Nat.add List.app]. rewrite IH. do 3 f_equal. lia.
Qed.

Section RolloverMore.
Context {host : Host}.

Lemma rollover_at_watermark (fuel : nat) (stages : value) (now : Date)
      (st : GoalState) :
  lastRolloverYm st = Some (getCurrentYearMonth now) ->
  applyMonthlyRolloverIfNeeded fuel stages now st = Done (st, false).
Proof.
  intros Hlast. unfold applyMonthlyRolloverIfNeeded. rewrite Hlast.
  destruct (getCurrentYearMonth now) as [|c rest] eqn:Hym.
  - destruct st as [cl cb lr]; cbn in *. now rewrite Hlast.
  - rewrite <- Hym. now rewrite string_leb_refl.
Qed.

(** X5: the first rollover after the goal state is seeded, or after a
    start-up that found no valid stored watermark, deposits nothing: the
    state stays as it was and no change is reported, whatever the plan, the
    stages and the date. *)
Theorem first_run_no_deposit (fuel : nat) (plan stages storedState : value)
        (now : Date) :
  applyMonthlyRolloverIfNeeded fuel stages now (initGoalState plan now)
  = Done (initGoalState plan now, false)
  /\ (isValidYearMonth (get storedState "last_rollover_ym") = false ->
      applyMonthlyRolloverIfNeeded fuel stages now
        (loadPlan_goalState plan storedState now)
      = Done (loadPlan_goalState plan storedState now, false)).
Proof.
  split; [now apply rollover_at_watermark|].
  intros Hinvalid. apply rollover_at_watermark.
  unfold loadPlan_goalState. rewrite Hinvalid.
  destruct (safeNumber (get storedState "current_longterm"));
    [|reflexivity].
  destruct (safeNumber (get storedState "current_buffer")); reflexivity.
Qed.

(** X6: after a catch-up, a further rollover in the same month changes
    nothing and reports no change: no month is deposited twice. *)
Theorem rollover_again_is_noop (fuel fuel' : nat) (stages : value)
        (now now' : Date) (st : GoalState) (last : string)
        (resolve : string -> value) :
  let currentYm := getCurrentYearMonth now in
  let skipped := Z.to_nat (month_index currentYm - month_index last) in
  lastRolloverYm st = Some last ->
  four_digit_year_month last ->
  four_digit_year_month currentYm ->
  String.ltb currentYm "9999-12" = true ->
  String.ltb last currentYm = true ->
  (skipped < fuel)%nat ->
  (forall ym, In ym (months_after skipped (month_index last)) ->
              findStageForYearMonth stages ym = Ok (resolve ym)) ->
  getCurrentYearMonth now' = currentYm ->
  exists st' changed,
    applyMonthlyRolloverIfNeeded fuel stages now st = Done (st', changed)
    /\ applyMonthlyRolloverIfNeeded fuel' stages now' st' = Done (st', false).
Proof.
  intros currentYm skipped Hlast H0 H1 Hend Hlt Hfuel Hres Hsame.
  destruct (four_digit_month last H0) as (i0 & Hi0 & E0 & M0).
  destruct (four_digit_month currentYm H1) as (i1 & Hi1 & E1 & M1).
  assert (i1 <= last_month) by (apply before_december_9999; congruence).
  assert (i0 < i1) by (apply year_month_ltb_lt; congruence).
  subst skipped. rewrite M0, M1 in *.
  do 2 eexists. split.
  - apply (rollover_between_months fuel stages now st i0 i1 resolve);
      try assumption; try lia; congruence.
  - apply rollover_at_watermark. cbn [lastRolloverYm]. now rewrite Hsame.
Qed.

(** X7: catching up in two steps, first to an earlier month and later to
    the current one, leaves the same state as catching up once; a change
    is reported by the single run exactly when one of the two steps
    reports one. *)
Theorem rollover_in_two_steps (fuel : nat) (stages : value)
        (now1 now2 : Date) (st : GoalState) (last : string)
        (resolve : string -> value) :
  let mid := getCurrentYearMonth now1 in
  let cur := getCurrentYearMonth now2 in
  let skipped := Z.to_nat (month_index cur - month_index last) in
  lastRolloverYm st = Some last ->
  four_digit_year_month last ->
  four_digit_year_month mid ->
  four_digit_year_month cur ->
  String.ltb cur "9999-12" = true ->
  String.ltb last mid = true ->
  String.ltb mid cur = true ->
  (skipped < fuel)%nat ->
  (forall ym, In ym (months_after skipped (month_index last)) ->
              findStageForYearMonth stages ym = Ok (resolve ym)) ->
  exists st1 c1 st2 c2,
    applyMonthlyRolloverIfNeeded fuel stages now1 st = Done (st1, c1)
    /\ applyMonthlyRolloverIfNeeded fuel stages now2 st1 = Done (st2, c2)
    /\ applyMonthlyRolloverIfNeeded fuel stages now2 st = Done (st2, c1 || c2).
Proof.
  intros mid cur skipped Hlast H0 H1 H2 Hend Hlt1 Hlt2 Hfuel Hres.
  destruct (four_digit_month last H0) as (i0 & Hi0 & E0 & M0).
  destruct (four_digit_month mid H1) as (i1 & Hi1 & E1 & M1).
  destruct (four_digit_month cur H2) as (i2 & Hi2 & E2 & M2).
  assert (i2 <= last_month) by (apply before_december_9999; congruence).
  assert (i0 < i1) by (apply year_month_ltb_lt; congruence).
  assert (i1 < i2) by (apply year_month_ltb_lt; congruence).
  subst skipped. rewrite M0, M2 in *.
  assert (Hn : Z.to_nat (i2 - i0)
               = (Z.to_nat (i1 - i0) + Z.to_nat (i2 - i1))%nat) by lia.
  rewrite Hn, months_after_app in Hres.
  replace (i0 + Z.of_nat (Z.to_nat (i1 - i0))) with i1 in Hres by lia.
  do 4 eexists. split; [|split].
  - apply (rollover_between_months fuel stages now1 st i0 i1 resolve);
      try assumption; try lia; try congruence.
    intros ym Hym. apply Hres. apply in_or_app. now left.
  - apply (rollover_between_months fuel stages now2 _ i1 i2 resolve);
      try assumption; try lia; try congruence.
    + cbn [lastRolloverYm]. now rewrite <- E1.
    + intros ym Hym. apply Hres. apply in_or_app. now right.
  - rewrite (rollover_between_months fuel stages now2 st i0 i2 resolve);
      try assumption; try lia; try congruence.
    + cbn [currentLongterm currentBuffer].
      rewrite Hn, months_after_app.
      replace (i0 + Z.of_nat (Z.to_nat (i1 - i0))) with i1 by lia.
      now rewrite !fold_left_app, existsb_app.
    + rewrite Hn, months_after_app.
      now replace (i0 + Z.of_nat (Z.to_nat (i1 - i0))) with i1 by lia.
Qed.

Lemma fold_no_deposit (resolve : string -> value) (key : string)
      (months : list string) (balance : float) :
  (forall ym, In ym months -> safeNumber (get (resolve ym) key) = None) ->
  fold_left (fun b ym => deposit b (safeNumber (get (resolve ym) key)))
            months balance = balance.
Proof.
  revert balance. induction months as [|ym months IH]; intros balance H;
    [reflexivity|].
  cbn [fold_left]. rewrite (H ym) by now left. cbn [deposit].
  apply IH. intros ym' Hin. apply H. now right.
Qed.

(** X8: when no skipped month resolves to a stage with a numeric deposit
    (in particular with an empty stage list), the catch-up leaves both
    balances as they are and reports no change, although it moves the
    watermark to the current month. *)
Theorem rollover_without_deposits (fuel : nat) (stages : value) (now : Date)
        (st : GoalState) (last : string) (resolve : string -> value) :
  let currentYm := getCurrentYearMonth now in
  let skipped := Z.to_nat (month_index currentYm - month_index last) in
  lastRolloverYm st = Some last ->
  four_digit_year_month last ->
  four_digit_year_month currentYm ->
  String.ltb currentYm "9999-12" = true ->
  String.ltb last currentYm = true ->
  (skipped < fuel)%nat ->
  ((forall ym, In ym (months_after skipped (month_index last)) ->
               findStageForYearMonth stages ym = Ok (resolve ym)
               /\ has_deposit (resolve ym) = false) ->
   applyMonthlyRolloverIfNeeded fuel stages now st
   = Done (mkGoalState (currentLongterm st) (currentBuffer st) (Some currentYm),
           false))
  /\ applyMonthlyRolloverIfNeeded fuel (VArr []) now st
     = Done (mkGoalState (currentLongterm st) (currentBuffer st) (Some currentYm),
             false).
Proof.
  intros currentYm skipped Hlast H0 H1 Hend Hlt Hfuel.
  destruct (four_digit_month last H0) as (i0 & Hi0 & E0 & M0).
  destruct (four_digit_month currentYm H1) as (i1 & Hi1 & E1 & M1).
  assert (i1 <= last_month) by (apply before_december_9999; congruence).
  assert (i0 < i1) by (apply year_month_ltb_lt; congruence).
  subst skipped. rewrite M0, M1 in *.
  assert (Hgen : forall stages' resolve',
             (forall ym, In ym (months_after (Z.to_nat (i1 - i0)) i0) ->
                         findStageForYearMonth stages' ym = Ok (resolve' ym)
                         /\ has_deposit (resolve' ym) = false) ->
             applyMonthlyRolloverIfNeeded fuel stages' now st
             = Done (mkGoalState (currentLongterm st) (currentBuffer st)
                                 (Some currentYm), false)).
  { intros stages' resolve' Hres.
    assert (Hnone : forall ym key,
               In ym (months_after (Z.to_nat (i1 - i0)) i0) ->
               key = "saving_longterm" \/ key = "saving_buffer" ->
               safeNumber (get (resolve' ym) key) = None).
    { intros ym key Hin Hkey. destruct (Hres ym Hin) as (_ & Hd).
      unfold has_deposit in Hd.
      destruct (safeNumber (get (resolve' ym) "saving_longterm")) eqn:EL;
        [discriminate|].
      destruct (safeNumber (get (resolve' ym) "saving_buffer")) eqn:EB;
        [discriminate|].
      destruct Hkey; subst key; assumption. }
    rewrite (rollover_between_months fuel stages' now st i0 i1 resolve');
      try assumption; try lia; try congruence;
      try (intros ym Hym; now apply Hres).
    rewrite !fold_no_deposit by (intros; apply Hnone; auto).
    do 2 f_equal.
    apply not_true_is_false. intros Hex. apply existsb_exists in Hex.
    destruct Hex as (ym & Hin & Hd). destruct (Hres ym Hin) as (_ & Hd').
    congruence. }
  split; [apply Hgen|].
  apply (Hgen (VArr []) (fun _ => VNull)). intros ym _. split; reflexivity.
Qed.
End RolloverMore.

(** ** Stage selection on any input *)

Section StageMore.
Context {host : Host}.

Lemma insert_by_members (cmp : value -> value -> result comparison)
      (x : value) (sorted : list value) :
  forall l', insert_by cmp x sorted = Ok l' ->
             forall z, In z l' <-> z = x \/ In z sorted.
Proof.
  induction sorted as [|y rest IH]; intros l' H z; cbn [insert_by] in H.
  - inversion H; subst. simpl. intuition.
  - destruct (cmp x y) as [c|msg]; cbn [bind] in H; [|discriminate].
    destruct c; try (inversion H; subst; simpl; intuition; fail).
    destruct (insert_by cmp x rest) as [r|msg]; cbn [bind] in H;
      [|discriminate].
    inversion H; subst. simpl. rewrite (IH r eq_refl z). intuition.
Qed.

Lemma sort_by_members (cmp : value -> value -> result comparison)
      (l : list value) :
  forall l', sort_by cmp l = Ok l' -> forall z, In z l' <-> In z l.
Proof.
  induction l as [|x rest IH]; intros l' H z; cbn [sort_by] in H.
  - inversion H; subst. tauto.
  - destruct (sort_by cmp rest) as [s|msg]; cbn [bind] in H; [|discriminate].
    rewrite (insert_by_members cmp x s l' H z), (IH s eq_refl z).
    simpl. intuition.
Qed.

(** X9: whatever the input, an answer of the stage lookup is null or one
    of the listed stages; it is null when [stages] is not an array or is
    empty; it passes the containment test whenever some stage does, and
    otherwise the started-before test whenever some stage does. *)
Theorem findStage_answers_from_the_list (stages : value) (ym : string)
        (s : value) :
  findStageForYearMonth stages ym = Ok s ->
  (s = VNull \/ exists l, stages = VArr l /\ In s l)
  /\ ((forall l, stages <> VArr l) \/ stages = VArr [] -> s = VNull)
  /\ (forall l c, stages = VArr l -> In c l -> is_candidate ym c = true ->
                  In s l /\ is_candidate ym s = true)
  /\ (forall l p, stages = VArr l ->
                  (forall c, In c l -> is_candidate ym c = false) ->
                  In p l -> is_prior ym p = true ->
                  In s l /\ is_prior ym s = true).
Proof.
  intros H. unfold findStageForYearMonth in H.
  destruct stages as [| | | | |l|];
    try (inversion H; subst s;
         split; [now left|];
         split; [intros _; reflexivity|];
         split; intros l0 c E; discriminate E).
  destruct l as [|x xs].
  { inversion H; subst s.
    split; [now left|]. split; [intros _; reflexivity|].
    split; intros l0 c E Hc; inversion E; subst l0; contradiction. }
  set (l := x :: xs) in *.
  destruct (sort_by by_from_desc (filter (is_candidate ym) l)) as [l1|msg]
    eqn:H1; cbn [bind] in H; [|discriminate].
  pose proof (sort_by_members _ _ _ H1) as M1.
  destruct l1 as [|c1 t1].
  - assert (Hnone : forall c, In c l -> is_candidate ym c = false).
    { intros c Hc. destruct (is_candidate ym c) eqn:E; [|reflexivity].
      exfalso. apply (proj2 (M1 c)). apply filter_In. auto. }
    destruct (sort_by by_from_desc (filter (is_prior ym) l)) as [l2|msg]
      eqn:H2; cbn [bind] in H; [|discriminate].
    pose proof (sort_by_members _ _ _ H2) as M2.
    destruct l2 as [|p1 t2].
    + assert (Hnop : forall c, In c l -> is_prior ym c = false).
      { intros c Hc. destruct (is_prior ym c) eqn:E; [|reflexivity].
        exfalso. apply (proj2 (M2 c)). apply filter_In. auto. }
      destruct (sort_by by_from_asc l) as [l3|msg] eqn:H3; cbn [bind] in H;
        [|discriminate].
      pose proof (sort_by_members _ _ _ H3) as M3.
      destruct l3 as [|e t3].
      * exfalso. apply (proj2 (M3 x)). now left.
      * assert (He : In e l) by (apply M3; now left).
        inversion H; subst s. split; [|split; [|split]].
        -- destruct (truthy e); [right; exists l; auto|now left].
        -- intros [E|E]; [now elim (E l)|discriminate E].
        -- intros l' c E Hc Hcc. inversion E; subst l'.
           rewrite Hnone in Hcc by exact Hc. discriminate.
        -- intros l' p E _ Hp Hpp. inversion E; subst l'.
           rewrite Hnop in Hpp by exact Hp. discriminate.
    + assert (Hp1 : In p1 (filter (is_prior ym) l)) by (apply M2; now left).
      apply filter_In in Hp1 as [Hp1 Hpp1].
      inversion H; subst s. split; [|split; [|split]].
      * right. exists l. auto.
      * intros [E|E]; [now elim (E l)|discriminate E].
      * intros l' c E Hc Hcc. inversion E; subst l'.
        rewrite Hnone in Hcc by exact Hc. discriminate.
      * intros l' p E _ _ _. inversion E; subst l'. auto.
  - assert (Hc1 : In c1 (filter (is_candidate ym) l)) by (apply M1; now left).
    apply filter_In in Hc1 as [Hc1 Hcc1].
    inversion H; subst s. split; [|split; [|split]].
    + right. exists l. auto.
    + intros [E|E]; [now elim (E l)|discriminate E].
    + intros l' c E _ _. inversion E; subst l'. auto.
    + intros l' p E Hnone Hp _. inversion E; subst l'.
      rewrite Hnone in Hcc1 by exact Hc1. discriminate.
Qed.

Lemma is_upcoming_upcoming (ym : string) (s : value) :
  stage_ok s = true -> is_upcoming ym s = upcoming ym s.
Proof.
  intros Hok. destruct (stage_ok_from s Hok) as (Hf & _ & Ht).
  unfold is_upcoming, upcoming. now rewrite Ht, Hf.
Qed.

Lemma pick_earliest_of (keep : value -> bool) (stages : list value) :
  collates_year_months host ->
  Forall (fun s => stage_ok s = true) stages ->
  exists l', sort_by by_from_asc (filter keep stages) = Ok l'
    /\ match l' with
       | [] => forall c, In c stages -> keep c = false
       | h :: _ =>
           In h stages /\ keep h = true
           /\ forall c, In c stages -> keep c = true ->
                        String.leb (from_of h) (from_of c) = true
       end.
Proof.
  intros Hcol Hok.
  assert (Hsub : Forall (fun s => stage_ok s = true) (filter keep stages)).
  { rewrite Forall_forall in *. intros s Hs. apply filter_In in Hs. now apply Hok. }
  destruct (pick_earliest (filter keep stages) Hcol Hsub) as (l' & Hl' & Hhead).
  exists l'. split; [exact Hl'|].
  destruct l' as [|h t].
  - intros c Hc. destruct (keep c) eqn:E; [|reflexivity].
    assert (In c (filter keep stages)) by (apply filter_In; auto).
    rewrite Hhead in H. contradiction.
  - destruct Hhead as (Hh & Hmin). apply filter_In in Hh as [Hh Hk].
    split; [exact Hh|]. split; [exact Hk|].
    intros c Hc Hkc. apply Hmin. apply filter_In. auto.
Qed.

(** The three tiers of the lookup, from the two sorts. *)
Lemma findStage_tiers (stages : list value) (ym : string) :
  collates_year_months host ->
  stages <> [] ->
  Forall (fun s => stage_ok s = true) stages ->
  exists current,
    findStageForYearMonth (VArr stages) ym = Ok current
    /\ In current stages
    /\ ((exists c, In c stages /\ contains ym c = true) ->
        contains ym current = true
        /\ forall c, In c stages -> contains ym c = true ->
                     String.leb (from_of c) (from_of current) = true)
    /\ ((forall c, In c stages -> contains ym c = false) ->
        (exists p, In p stages /\ started ym p = true) ->
        started ym current = true
        /\ forall p, In p stages -> started ym p = true ->
                     String.leb (from_of p) (from_of current) = true)
    /\ ((forall c, In c stages -> started ym c = false) ->
        forall c, In c stages ->
                  String.leb (from_of current) (from_of c) = true).
Proof.
  intros Hcol Hne Hok.
  pose proof Hok as Hall. rewrite Forall_forall in Hall.
  assert (Htruthy : forall s, In s stages -> truthy s = true).
  { intros s Hs. destruct (stage_ok_from s (Hall s Hs)) as (Hf & _).
    destruct s; try discriminate. reflexivity. }
  destruct stages as [|x xs]; [congruence|].
  unfold findStageForYearMonth.
  destruct (pick_latest (is_candidate ym) (x :: xs) Hcol Hok)
    as (l1 & Hl1 & H1).
  rewrite Hl1; cbn [bind].
  destruct l1 as [|c1 t1].
  - assert (Hnone : forall c, In c (x :: xs) -> contains ym c = false).
    { intros c Hc. rewrite <- is_candidate_contains by auto. auto. }
    destruct (pick_latest (is_prior ym) (x :: xs) Hcol Hok)
      as (l2 & Hl2 & H2).
    rewrite Hl2; cbn [bind].
    destruct l2 as [|p1 t2].
    + assert (Hnop : forall c, In c (x :: xs) -> started ym c = false).
      { intros c Hc. rewrite <- is_prior_started by auto. auto. }
      destruct (pick_earliest (x :: xs) Hcol Hok) as (l3 & Hl3 & H3).
      rewrite Hl3; cbn [bind].
      destruct l3 as [|e t3]; [discriminate|].
      destruct H3 as (He & Hmin). rewrite (Htruthy e He).
      exists e. split; [reflexivity|]. split; [exact He|]. split; [|split].
      * intros (c & Hc & Hcc). rewrite Hnone in Hcc by auto. discriminate.
      * intros _ (p & Hp & Hpp). rewrite Hnop in Hpp by auto. discriminate.
      * intros _. exact Hmin.
    + destruct H2 as (Hp1 & Hk & Hmax).
      exists p1. split; [reflexivity|]. split; [exact Hp1|]. split; [|split].
      * intros (c & Hc & Hcc). rewrite Hnone in Hcc by auto. discriminate.
      * intros _ _. split; [now rewrite <- is_prior_started by auto|].
        intros p Hp Hpp. apply Hmax; [exact Hp|].
        now rewrite is_prior_started by auto.
      * intros Hnop. rewrite is_prior_started in Hk by auto.
        rewrite Hnop in Hk by auto. discriminate.
  - destruct H1 as (Hc1 & Hk & Hmax).
    rewrite is_candidate_contains in Hk by auto.
    exists c1. split; [reflexivity|]. split; [exact Hc1|]. split; [|split].
    + intros _. split; [exact Hk|].
      intros c Hc Hcc. apply Hmax; [exact Hc|].
      now rewrite is_candidate_contains by auto.
    + intros Hnone. rewrite Hnone in Hk by auto. discriminate.
    + intros Hnop. specialize (Hnop c1 Hc1).
      unfold contains in Hk. apply andb_prop in Hk as [Hk _]. congruence.
Qed.

(** X10: on validated stages the next stage is a stage with the smallest
    [from] among those that start after the month, and null when none
    does; its [from] is after the [from] of the stage resolved for the
    month, unless the month is before every stage, where both have the
    same [from]. *)
Theorem getNextStage_after_current (stages : list value) (ym : string) :
  collates_year_months host ->
  stages <> [] ->
  Forall (fun s => stage_ok s = true) stages ->
  exists next current,
    getNextStage (VArr stages) ym = Ok next
    /\ findStageForYearMonth (VArr stages) ym = Ok current
    /\ ((forall s, In s stages -> upcoming ym s = false) -> next = VNull)
    /\ ((exists s, In s stages /\ upcoming ym s = true) ->
        In next stages /\ upcoming ym next = true
        /\ (forall s, In s stages -> upcoming ym s = true ->
                      String.leb (from_of next) (from_of s) = true)
        /\ ((exists s, In s stages /\ started ym s = true) ->
            String.ltb (from_of current) (from_of next) = true)
        /\ ((forall s, In s stages -> started ym s = false) ->
            from_of current = from_of next)).
Proof.
  intros Hcol Hne Hok.
  pose proof Hok as Hall. rewrite Forall_forall in Hall.
  destruct (findStage_tiers stages ym Hcol Hne Hok)
    as (current & Hcur & Hin & T1 & T2 & T3).
  destruct (pick_earliest_of (is_upcoming ym) stages Hcol Hok)
    as (l' & Hl' & Hhead).
  unfold getNextStage. rewrite Hl'. cbn [bind].
  destruct l' as [|u t].
  - exists VNull, current. split; [reflexivity|]. split; [exact Hcur|]. split.
    + reflexivity.
    + intros (s & Hs & Hup). rewrite <- is_upcoming_upcoming in Hup by auto.
      rewrite Hhead in Hup by exact Hs. discriminate.
  - destruct Hhead as (Hu & Hk & Hmin).
    assert (Htu : truthy u = true).
    { destruct (stage_ok_from u (Hall u Hu)) as (Hf & _).
      destruct u; try discriminate. reflexivity. }
    rewrite Htu. exists u, current.
    split; [reflexivity|]. split; [exact Hcur|].
    rewrite is_upcoming_upcoming in Hk by auto. split.
    + intros Hnone. rewrite Hnone in Hk by exact Hu. discriminate.
    + intros _. split; [exact Hu|]. split; [exact Hk|]. split; [|split].
      * intros s Hs Hup. apply Hmin; [exact Hs|].
        now rewrite is_upcoming_upcoming by auto.
      * intros Hsome.
        assert (Hst : started ym current = true).
        { destruct (existsb (contains ym) stages) eqn:Hex.
          - apply existsb_exists in Hex. destruct (T1 Hex) as (Hc & _).
            unfold contains in Hc. now apply andb_prop in Hc.
          - apply T2; [|exact Hsome].
            intros c Hc. destruct (contains ym c) eqn:E; [|reflexivity].
            assert (existsb (contains ym) stages = true)
              by (apply existsb_exists; eauto).
            congruence. }
        unfold started in Hst. unfold upcoming in Hk.
        unfold String.ltb in *. unfold String.leb in Hst.
        destruct (String.compare (from_of current) ym) eqn:E1;
          try discriminate;
          destruct (String.compare ym (from_of u)) eqn:E2; try discriminate.
        -- apply String.compare_eq_iff in E1. rewrite E1. now rewrite E2.
        -- now rewrite (string_compare_lt_trans _ _ _ E1 E2).
      * intros Hnone.
        apply String.compare_eq_iff.
        pose proof (T3 Hnone u Hu) as Hle1.
        assert (Hle2 : String.leb (from_of u) (from_of current) = true).
        { apply Hmin; [exact Hin|]. rewrite is_upcoming_upcoming by auto.
          specialize (Hnone current Hin). unfold started in Hnone.
          unfold upcoming. unfold String.leb in Hnone. unfold String.ltb.
          rewrite String.compare_antisym.
          destruct (String.compare (from_of current) ym); simpl;
            congruence. }
        unfold String.leb in Hle1, Hle2.
        rewrite String.compare_antisym in Hle2.
        destruct (String.compare (from_of current) (from_of u));
          simpl in *; congruence.
Qed.
End StageMore.

(** ** Plans without issues *)

Lemma stage_issues_nil_iff (i : nat) (stage : value) :
  stage_issues i stage = [] <-> malformed stage = false.
Proof.
  unfold stage_issues, malformed.
  destruct (name_missing stage), (isValidYearMonth (get stage "from")),
    (truthy (get stage "to")), (isValidYearMonth (get stage "to"));
    simpl; split; intros H; try reflexivity; discriminate H.
Qed.

Lemma forEach_stage_nil_iff (stages : list value) :
  forall i, forEach_stage i stages = []
            <-> Forall (fun s => malformed s = false) stages.
Proof.
  induction stages as [|s stages IH]; intros i; simpl.
  - split; [constructor|reflexivity].
  - split.
    + intros H. apply app_eq_nil in H as [Hs Hrest].
      constructor; [now apply (stage_issues_nil_iff i)|now apply (IH (S i))].
    + intros H. inversion H as [|? ? Hs Hrest]; subst.
      rewrite (proj2 (stage_issues_nil_iff i s) Hs).
      now apply (IH (S i)).
Qed.

Lemma goal_issues_nil_iff (g : value) :
  goal_issues g = []
  <-> forall k, In k required_goal_keys -> hasOwnProperty g k = true.
Proof.
  unfold goal_issues, required_goal_keys. cbn [flat_map].
  split.
  - intros H k Hk.
    destruct (hasOwnProperty g "target_longterm") eqn:E1; [|discriminate H].
    destruct (hasOwnProperty g "target_buffer") eqn:E2; [|discriminate H].
    destruct (hasOwnProperty g "current_longterm") eqn:E3; [|discriminate H].
    destruct (hasOwnProperty g "current_buffer") eqn:E4; [|discriminate H].
    destruct (hasOwnProperty g "target_year") eqn:E5; [|discriminate H].
    destruct Hk as [<-|[<-|[<-|[<-|[<-|[]]]]]]; assumption.
  - intros H.
    rewrite !H by (simpl; tauto). reflexivity.
Qed.

(** X11: the validator returns no issue exactly when [stages] is a
    non-empty array of stages that each have a non-blank name, a valid
    [from] and no invalid [to], and the goal is absent (falsy) or has all
    five required keys; the goal's values are not looked at. *)
Theorem validatePlan_accepts (plan : value) :
  validatePlan plan = []
  <-> exists stages,
        get plan "stages" = VArr stages /\ stages <> []
        /\ Forall (fun s => malformed s = false) stages
        /\ (truthy (get plan "goal") = false
            \/ forall k, In k required_goal_keys ->
                         hasOwnProperty (get plan "goal") k = true).
Proof.
  split.
  - unfold validatePlan. destruct (truthy plan); [|discriminate].
    destruct (get plan "stages") as [| | | | |stages|]; try discriminate.
    destruct stages as [|s stages]; [discriminate|].
    intros H. apply app_eq_nil in H as [Hstages Hgoal].
    exists (s :: stages). split; [reflexivity|]. split; [discriminate|].
    split; [now apply (forEach_stage_nil_iff (s :: stages) 0%nat)|].
    destruct (truthy (get plan "goal")); [right|now left].
    now apply goal_issues_nil_iff.
  - intros (stages & Hs & Hne & Hall & Hgoal).
    unfold validatePlan. destruct plan; try discriminate Hs.
    cbn [truthy]. rewrite Hs. destruct stages as [|s stages]; [congruence|].
    rewrite (proj2 (forEach_stage_nil_iff (s :: stages) 0%nat) Hall).
    destruct Hgoal as [Hg|Hg]; [now rewrite Hg|].
    rewrite (proj2 (goal_issues_nil_iff _) Hg). now destruct (truthy _).
Qed.

(** ** The month view *)

(** X12: "Left in pocket" is available exactly when the stage has all
    five of its amounts as numbers, and is then net income minus costs
    minus savings; one missing or non-numeric amount makes it null instead
    of counting as zero.  The same for tax and its two amounts.  A null
    stage gives the name "Unknown stage" and no leftover. *)
Theorem leftover_needs_every_amount (stage : value) :
  (leftover (computeViewModel stage) = None
   <-> exists k, In k leftover_inputs /\ safeNumber (get stage k) = None)
  /\ (forall n f h l b,
        safeNumber (get stage "net_income") = Some n ->
        safeNumber (get stage "fixed_costs") = Some f ->
        safeNumber (get stage "household") = Some h ->
        safeNumber (get stage "saving_longterm") = Some l ->
        safeNumber (get stage "saving_buffer") = Some b ->
        leftover (computeViewModel stage) = Some (n - (f + h) - (l + b))%float)
  /\ (tax (computeViewModel stage) = None
      <-> safeNumber (get stage "income") = None
          \/ safeNumber (get stage "net_income") = None)
  /\ stageName (computeViewModel VNull) = VStr "Unknown stage"
  /\ leftover (computeViewModel VNull) = None.
Proof.
  unfold computeViewModel, leftover_inputs; cbn [leftover tax stageName].
  split; [|split; [|split; [|split; reflexivity]]].
  - split.
    + intros H.
      destruct (safeNumber (get stage "net_income")) eqn:En;
        [|exists "net_income"; split; [simpl; auto 10|assumption]].
      destruct (safeNumber (get stage "fixed_costs")) eqn:Ef;
        [|exists "fixed_costs"; split; [simpl; auto 10|assumption]].
      destruct (safeNumber (get stage "household")) eqn:Eh;
        [|exists "household"; split; [simpl; auto 10|assumption]].
      destruct (safeNumber (get stage "saving_longterm")) eqn:El;
        [|exists "saving_longterm"; split; [simpl; auto 10|assumption]].
      destruct (safeNumber (get stage "saving_buffer")) eqn:Eb;
        [|exists "saving_buffer"; split; [simpl; auto 10|assumption]].
      discriminate H.
    + intros (k & Hk & E).
      destruct Hk as [<-|[<-|[<-|[<-|[<-|[]]]]]]; rewrite E;
        destruct (safeNumber (get stage "net_income")),
          (safeNumber (get stage "fixed_costs")),
          (safeNumber (get stage "household")),
          (safeNumber (get stage "saving_longterm")),
          (safeNumber (get stage "saving_buffer")); reflexivity.
  - intros n f h l b -> -> -> -> ->. reflexivity.
  - destruct (safeNumber (get stage "income")),
      (safeNumber (get stage "net_income")); split; intros H;
      try discriminate H; auto; destruct H as [H|H]; discriminate H.
Qed.

Section DashboardStage.
Context {host : Host}.

(** X13: for a plan the validator accepts, the dashboard of any month
    shows one of the plan's own stages under that stage's own name, never
    "Unknown stage", whatever the month: inside a stage, in a gap, or
    before the first stage. *)
Theorem dashboard_names_a_stage (plan : value) (now : Date) :
  collates_year_months host ->
  validatePlan plan = [] ->
  exists stages stage name,
    get plan "stages" = VArr stages
    /\ In stage stages
    /\ get stage "name" = VStr name
    /\ trim_is_empty name = false
    /\ renderCurrentDashboard plan now
       = Ok (Some (getCurrentYearMonth now, computeViewModel stage))
    /\ stageName (computeViewModel stage) = VStr name.
Proof.
  intros Hcol Hv.
  destruct (validatePlan_ok_stages plan Hv) as (stages & Hs & Hne & Hok).
  assert (Hall : Forall (fun s => malformed s = false) stages).
  { revert Hv. unfold validatePlan. destruct (truthy plan); [|discriminate].
    rewrite Hs. destruct stages as [|s stages]; [discriminate|].
    intros H. apply app_eq_nil in H as [H _].
    now apply (forEach_stage_nil_iff (s :: stages) 0%nat). }
  destruct (findStage_tiers stages (getCurrentYearMonth now) Hcol Hne Hok)
    as (stage & Hfind & Hin & _).
  rewrite Forall_forall in Hall. specialize (Hall stage Hin).
  unfold malformed in Hall.
  apply orb_false_elim in Hall as [Hall _].
  apply orb_false_elim in Hall as [Hname _].
  unfold name_missing in Hname.
  apply orb_false_elim in Hname as [_ Hname].
  destruct (get stage "name") as [| | | |name| |] eqn:En; try discriminate Hname.
  exists stages, stage, name.
  assert (Hplan : truthy plan = true).
  { destruct plan; try discriminate Hs. reflexivity. }
  assert (Htr : truthy (VStr name) = true).
  { destruct name; [discriminate Hname|reflexivity]. }
  repeat split; try assumption.
  - unfold renderCurrentDashboard. rewrite Hplan, Hs. cbn [negb].
    rewrite Hfind. reflexivity.
  - unfold computeViewModel; cbn [stageName]. rewrite En, Htr. reflexivity.
Qed.
End DashboardStage.

(** ** Progress bars *)

Lemma SFcompare_antisym (a b : spec_float) :
  SFcompare b a = option_map CompOpp (SFcompare a b).
Proof.
  destruct a as [sa|sa| |sa ma ea], b as [sb|sb| |sb mb eb]; simpl;
    try reflexivity;
    try (destruct sa; reflexivity); try (destruct sb; reflexivity);
    try (destruct sa, sb; reflexivity).
  destruct sa, sb; try reflexivity;
    rewrite (Z.compare_antisym ea eb); destruct (ea ?= eb)%Z; simpl;
      try reflexivity;
      change (Pos.compare_cont Eq mb ma) with (Pos.compare mb ma);
      change (Pos.compare_cont Eq ma mb) with (Pos.compare ma mb);
      rewrite (Pos.compare_antisym ma mb); destruct (ma ?= mb)%positive;
        reflexivity.
Qed.

Lemma SFcompare_some (a b : spec_float) :
  a <> S754_nan -> b <> S754_nan -> exists c, SFcompare a b = Some c.
Proof.
  destruct a, b; try congruence; intros _ _; simpl; eexists; reflexivity.
Qed.

Lemma is_nan_compare (x : float) :
  is_nan x = false -> Prim2SF x <> S754_nan.
Proof.
  unfold is_nan. rewrite FloatAxioms.eqb_spec. unfold SFeqb.
  intros H E. rewrite E in H. discriminate H.
Qed.

Lemma float_ltb_leb (x y : float) :
  PrimFloat.ltb x y = true -> PrimFloat.leb x y = true.
Proof.
  rewrite FloatAxioms.ltb_spec, FloatAxioms.leb_spec. unfold SFltb, SFleb.
  destruct (SFcompare _ _) as [[| |]|]; auto.
Qed.

Lemma float_not_ltb_leb (x y : float) :
  is_nan x = false -> is_nan y = false ->
  PrimFloat.ltb y x = false -> PrimFloat.leb x y = true.
Proof.
  intros Hx Hy. apply is_nan_compare in Hx, Hy.
  rewrite FloatAxioms.ltb_spec, FloatAxioms.leb_spec. unfold SFltb, SFleb.
  rewrite (SFcompare_antisym (Prim2SF x) (Prim2SF y)).
  destruct (SFcompare_some _ _ Hx Hy) as (c & ->).
  destruct c; simpl; congruence.
Qed.

Lemma float_ltb_asym (x y : float) :
  PrimFloat.ltb x y = true -> PrimFloat.ltb y x = false.
Proof.
  rewrite !FloatAxioms.ltb_spec. unfold SFltb.
  rewrite (SFcompare_antisym (Prim2SF x) (Prim2SF y)).
  destruct (SFcompare _ _) as [[| |]|]; simpl; congruence.
Qed.

Lemma below_zero_below_100 (n : float) :
  PrimFloat.ltb n 0 = true -> PrimFloat.ltb n 100 = true.
Proof.
  rewrite !FloatAxioms.ltb_spec.
  assert (E0 : Prim2SF 0 = S754_zero false) by reflexivity.
  assert (E100 : exists m e, Prim2SF 100 = S754_finite false m e)
    by (vm_compute; eauto).
  destruct E100 as (m & e & E100). rewrite E0, E100. unfold SFltb.
  destruct (Prim2SF n) as [s|s| |s m' e']; simpl; try discriminate;
    destruct s; simpl; auto; discriminate.
Qed.

Lemma Math_min_100 (n : float) :
  is_nan n = false ->
  is_nan (Math_min 100 n) = false
  /\ PrimFloat.leb (Math_min 100 n) 100 = true
  /\ (PrimFloat.ltb n 100 = true -> Math_min 100 n = n)
  /\ (PrimFloat.ltb 100 n = true -> Math_min 100 n = 100%float).
Proof.
  intros H. unfold Math_min. rewrite H.
  replace (is_nan 100) with false by reflexivity. cbn [orb].
  destruct (PrimFloat.ltb 100 n) eqn:E1.
  - repeat split; try reflexivity.
    intros E2. apply float_ltb_asym in E2. congruence.
  - destruct (PrimFloat.ltb n 100) eqn:E2.
    + repeat split; auto using float_ltb_leb. discriminate.
    + assert (L : PrimFloat.leb n 100 = true)
        by (apply float_not_ltb_leb; auto).
      destruct (is_neg_zero n); repeat split; auto; discriminate.
Qed.

Lemma Math_max_0 (r : float) :
  is_nan r = false -> PrimFloat.leb r 100 = true ->
  is_nan (Math_max 0 r) = false
  /\ PrimFloat.leb 0 (Math_max 0 r) = true
  /\ PrimFloat.leb (Math_max 0 r) 100 = true
  /\ (PrimFloat.ltb 0 r = true -> Math_max 0 r = r)
  /\ (PrimFloat.ltb 0 r = false -> Math_max 0 r = 0%float).
Proof.
  intros H L. unfold Math_max. rewrite H.
  replace (is_nan 0) with false by reflexivity. cbn [orb].
  replace (is_neg_zero 0) with false by reflexivity.
  destruct (PrimFloat.ltb 0 r) eqn:E1.
  - repeat split; auto using float_ltb_leb. discriminate.
  - destruct (PrimFloat.ltb r 0); repeat split; auto; discriminate.
Qed.

Lemma clamp_nan (n : float) :
  is_nan (clamp n 0 100) = is_nan n.
Proof.
  destruct (is_nan n) eqn:H.
  - unfold clamp, Math_min. rewrite H, orb_true_r. reflexivity.
  - destruct (Math_min_100 n H) as (Hn & Hle & _).
    now destruct (Math_max_0 _ Hn Hle) as (Hn' & _).
Qed.

Lemma clamp_is_percentage (n : float) :
  is_nan n = false -> is_percentage (clamp n 0 100) = true.
Proof.
  intros H. destruct (Math_min_100 n H) as (Hn & Hle & _).
  destruct (Math_max_0 _ Hn Hle) as (_ & H0 & H100 & _).
  unfold is_percentage, clamp. now rewrite H0, H100.
Qed.

(** X14: [clamp(n, 0, 100)] is NaN exactly when [n] is; otherwise it lies
    between 0 and 100, is [n] itself when [0 < n < 100], 100 when
    [n > 100] and 0 when [n < 0]. *)
Theorem clamp_percent (n : float) :
  is_nan (clamp n 0 100) = is_nan n
  /\ (is_nan n = false ->
      is_percentage (clamp n 0 100) = true
      /\ (PrimFloat.ltb 0 n = true -> PrimFloat.ltb n 100 = true ->
          clamp n 0 100 = n)
      /\ (PrimFloat.ltb 100 n = true -> clamp n 0 100 = 100%float)
      /\ (PrimFloat.ltb n 0 = true -> clamp n 0 100 = 0%float)).
Proof.
  split; [apply clamp_nan|]. intros H.
  split; [now apply clamp_is_percentage|].
  unfold clamp.
  destruct (Math_min_100 n H) as (Hn & Hle & Hid & Htop).
  destruct (Math_max_0 _ Hn Hle) as (_ & _ & _ & Hpos & Hneg).
  repeat split.
  - intros P Q. rewrite Hpos; rewrite (Hid Q); auto.
  - intros P. rewrite (Htop P). reflexivity.
  - intros P. pose proof (Hid (below_zero_below_100 n P)) as R.
    rewrite R in Hneg |- *. apply Hneg. now apply float_ltb_asym.
Qed.

(** X15: a goal's progress percentage is 0 without a positive numeric
    target, and otherwise the clamped ratio: it is NaN only when the ratio
    [current / target * 100] is, and lies between 0 and 100 in every other
    case.  The same holds for both widths of the savings bar, which is
    drawn only for a positive savings total. *)
Theorem progress_percent_bounds (target : option float) (current : float) :
  ((forall t, target = Some t -> PrimFloat.ltb 0 t = false) ->
   progress_percent target current = 0%float)
  /\ (is_nan (progress_percent target current) = true
      <-> exists t, target = Some t /\ PrimFloat.ltb 0 t = true
                    /\ is_nan (current / t * 100) = true)
  /\ (is_nan (progress_percent target current) = false ->
      is_percentage (progress_percent target current) = true)
  /\ (forall vm long buf,
        savings_bar vm = Some (long, buf) ->
        (exists total, savingsTotal vm = Some total
                       /\ PrimFloat.ltb 0 total = true)
        /\ (is_nan long = false -> is_percentage long = true)
        /\ (is_nan buf = false -> is_percentage buf = true)).
Proof.
  unfold progress_percent. repeat split.
  - intros H. destruct target as [t|]; [|reflexivity].
    now rewrite (H t eq_refl).
  - destruct target as [t|]; [|discriminate].
    destruct (PrimFloat.ltb 0 t) eqn:E; [|discriminate].
    rewrite clamp_nan. intros H. now exists t.
  - intros (t & -> & -> & H). now rewrite clamp_nan.
  - destruct target as [t|]; [|reflexivity].
    destruct (PrimFloat.ltb 0 t); [|reflexivity].
    rewrite clamp_nan. apply clamp_is_percentage.
  - revert H. unfold savings_bar.
    destruct (savingsTotal vm) as [total|]; [|discriminate].
    destruct (PrimFloat.ltb 0 total) eqn:E; [|discriminate].
    intros _. now exists total.
  - revert H. unfold savings_bar.
    destruct (savingsTotal vm) as [total|]; [|discriminate].
    destruct (PrimFloat.ltb 0 total); [|discriminate].
    intros H.
    apply (f_equal (fun o => match o with Some p => fst p | None => long end))
      in H.
    cbn [fst] in H. subst long.
    rewrite clamp_nan. apply clamp_is_percentage.
  - revert H. unfold savings_bar.
    destruct (savingsTotal vm) as [total|]; [|discriminate].
    destruct (PrimFloat.ltb 0 total); [|discriminate].
    intros H.
    apply (f_equal (fun o => match o with Some p => snd p | None => buf end))
      in H.
    cbn [snd] in H. subst buf.
    rewrite clamp_nan. apply clamp_is_percentage.
Qed.

(** ** The countdown *)

Lemma length_append (s t : string) :
  String.length (s ++ t) = (String.length s + String.length t)%nat.
Proof.
  induction s as [|c s IH]; simpl; [reflexivity|now rewrite IH].
Qed.

Lemma append_tail_inj (s1 : string) :
  forall s2 t1 t2,
    String.length t1 = String.length t2 ->
    s1 ++ t1 = s2 ++ t2 -> s1 = s2 /\ t1 = t2.
Proof.
  induction s1 as [|c s1 IH]; intros [|d s2] t1 t2 Hl H; simpl in H.
  - auto.
  - apply (f_equal String.length) in H. simpl in H.
    rewrite length_append in H. lia.
  - apply (f_equal String.length) in H. simpl in H.
    rewrite length_append in H. lia.
  - injection H as -> H. destruct (IH s2 t1 t2 Hl H) as [-> ->]. auto.
Qed.

Lemma String_of_inj (a b : Z) :
  String_of (Some a) = String_of (Some b) -> a = b.
Proof.
  assert (N : forall z, NilZero.int_of_string
                          (NilZero.string_of_int (Z.to_int z))
                        = Some (Z.to_int z)).
  { intros z. apply NilZero.isi; intros E; pose proof E as E';
      apply (f_equal Z.of_int) in E'; rewrite DecimalZ.of_to in E';
      vm_compute in E'; subst z; vm_compute in E; discriminate E. }
  unfold String_of. intros H.
  apply (f_equal NilZero.int_of_string) in H. rewrite !N in H.
  injection H as H. now apply DecimalZ.to_int_inj.
Qed.

Lemma two_digits_ok (n : Z) :
  0 <= n <= 59 ->
  String.length (two_digits n) = 2%nat
  /\ Number_piece (two_digits n) = Some n.
Proof.
  intros Hn.
  assert (H : (Nat.eqb (String.length (two_digits n)) 2
               && match Number_piece (two_digits n) with
                  | Some z => z =? n
                  | None => false
                  end) = true).
  { apply (all_from_spec
             (fun n => Nat.eqb (String.length (two_digits n)) 2
                       && match Number_piece (two_digits n) with
                          | Some z => z =? n
                          | None => false
                          end)
             60%nat 0); [vm_compute; reflexivity|lia]. }
  apply andb_prop in H as [Hl Hr]. apply Nat.eqb_eq in Hl.
  split; [exact Hl|].
  destruct (Number_piece (two_digits n)) as [z|]; [|discriminate Hr].
  apply Z.eqb_eq in Hr. now subst z.
Qed.

Lemma two_digits_inj (a b : Z) :
  0 <= a <= 59 -> 0 <= b <= 59 -> two_digits a = two_digits b -> a = b.
Proof.
  intros Ha Hb H.
  destruct (two_digits_ok a Ha) as [_ Ra], (two_digits_ok b Hb) as [_ Rb].
  rewrite H in Ra. congruence.
Qed.

Lemma countdown_text_inj (m1 d1 h1 n1 s1 m2 d2 h2 n2 s2 : Z) :
  0 <= d1 <= 59 -> 0 <= h1 <= 59 -> 0 <= n1 <= 59 -> 0 <= s1 <= 59 ->
  0 <= d2 <= 59 -> 0 <= h2 <= 59 -> 0 <= n2 <= 59 -> 0 <= s2 <= 59 ->
  countdown_text m1 d1 h1 n1 s1 = countdown_text m2 d2 h2 n2 s2 ->
  m1 = m2 /\ d1 = d2 /\ h1 = h2 /\ n1 = n2 /\ s1 = s2.
Proof.
  intros Hd1 Hh1 Hn1 Hs1 Hd2 Hh2 Hn2 Hs2. unfold countdown_text.
  pose proof (proj1 (two_digits_ok d1 Hd1)) as Ld1.
  pose proof (proj1 (two_digits_ok h1 Hh1)) as Lh1.
  pose proof (proj1 (two_digits_ok n1 Hn1)) as Ln1.
  pose proof (proj1 (two_digits_ok s1 Hs1)) as Ls1.
  pose proof (proj1 (two_digits_ok d2 Hd2)) as Ld2.
  pose proof (proj1 (two_digits_ok h2 Hh2)) as Lh2.
  pose proof (proj1 (two_digits_ok n2 Hn2)) as Ln2.
  pose proof (proj1 (two_digits_ok s2 Hs2)) as Ls2.
  intros H.
  apply append_tail_inj in H as [Hm H];
    [|repeat first [rewrite length_append
                   |progress cbn [String.length append]]; lia].
  injection H as H.
  apply append_tail_inj in H as [Hd H];
    [|repeat first [rewrite length_append
                   |progress cbn [String.length append]]; lia].
  injection H as H.
  apply append_tail_inj in H as [Hh H];
    [|repeat first [rewrite length_append
                   |progress cbn [String.length append]]; lia].
  injection H as H.
  apply append_tail_inj in H as [Hn H];
    [|repeat first [rewrite length_append
                   |progress cbn [String.length append]]; lia].
  injection H as H.
  apply String_of_inj in Hm.
  repeat split; auto using two_digits_inj.
Qed.

Lemma countdown_text_days_inj (d1 h1 n1 s1 d2 h2 n2 s2 : Z) :
  0 <= h1 <= 59 -> 0 <= n1 <= 59 -> 0 <= s1 <= 59 ->
  0 <= h2 <= 59 -> 0 <= n2 <= 59 -> 0 <= s2 <= 59 ->
  countdown_text_days d1 h1 n1 s1 = countdown_text_days d2 h2 n2 s2 ->
  d1 = d2 /\ h1 = h2 /\ n1 = n2 /\ s1 = s2.
Proof.
  intros Hh1 Hn1 Hs1 Hh2 Hn2 Hs2. unfold countdown_text_days.
  pose proof (proj1 (two_digits_ok h1 Hh1)) as Lh1.
  pose proof (proj1 (two_digits_ok n1 Hn1)) as Ln1.
  pose proof (proj1 (two_digits_ok s1 Hs1)) as Ls1.
  pose proof (proj1 (two_digits_ok h2 Hh2)) as Lh2.
  pose proof (proj1 (two_digits_ok n2 Hn2)) as Ln2.
  pose proof (proj1 (two_digits_ok s2 Hs2)) as Ls2.
  intros H.
  apply append_tail_inj in H as [Hd H];
    [|repeat first [rewrite length_append
                   |progress cbn [String.length append]]; lia].
  injection H as H.
  apply append_tail_inj in H as [Hh H];
    [|repeat first [rewrite length_append
                   |progress cbn [String.length append]]; lia].
  injection H as H.
  apply append_tail_inj in H as [Hn H];
    [|repeat first [rewrite length_append
                   |progress cbn [String.length append]]; lia].
  injection H as H.
  apply String_of_inj in Hd.
  repeat split; auto using two_digits_inj.
Qed.

Lemma countdown_fields (ms : Z) :
  exists months days hours mins secs,
    formatCountdown ms = countdown_text months days hours mins secs
    /\ 0 <= months /\ 0 <= days < 30 /\ 0 <= hours < 24
    /\ 0 <= mins < 60 /\ 0 <= secs < 60
    /\ (((months * 30 + days) * 24 + hours) * 60 + mins) * 60 + secs
       = seconds_left ms.
Proof.
  unfold formatCountdown, seconds_left. destruct (Z.leb_spec ms 0) as [H|H].
  - exists 0, 0, 0, 0, 0. rewrite Z.max_l by exact H.
    repeat split; try lia; reflexivity.
  - rewrite Z.max_r by lia. cbv zeta.
    set (T := ms / 1000).
    assert (HT : 0 <= T) by (apply Z.div_pos; lia).
    exists (T / 86400 / 30), (T / 86400 mod 30), (T mod 86400 / 3600),
      (T mod 3600 / 60), (T mod 60).
    split; [reflexivity|].
    clearbody T. clear H ms.
    repeat split; Z.div_mod_to_equations; lia.
Qed.

Lemma countdown_fields_days (ms : Z) :
  exists days hours mins secs,
    formatCountdown_days ms = countdown_text_days days hours mins secs
    /\ 0 <= days /\ 0 <= hours < 24 /\ 0 <= mins < 60 /\ 0 <= secs < 60
    /\ ((days * 24 + hours) * 60 + mins) * 60 + secs = seconds_left ms.
Proof.
  unfold formatCountdown_days, seconds_left.
  destruct (Z.leb_spec ms 0) as [H|H].
  - exists 0, 0, 0, 0. rewrite Z.max_l by exact H.
    repeat split; try lia; reflexivity.
  - rewrite Z.max_r by lia. cbv zeta.
    set (T := ms / 1000).
    assert (HT : 0 <= T) by (apply Z.div_pos; lia).
    exists (T / 86400), (T mod 86400 / 3600), (T mod 3600 / 60), (T mod 60).
    split; [reflexivity|].
    clearbody T. clear H ms.
    repeat split; Z.div_mod_to_equations; lia.
Qed.

Lemma formatCountdown_seconds (ms : Z) :
  formatCountdown ms = formatCountdown (1000 * seconds_left ms + 1)
  /\ formatCountdown_days ms
     = formatCountdown_days (1000 * seconds_left ms + 1).
Proof.
  unfold formatCountdown, formatCountdown_days, seconds_left.
  destruct (Z.leb_spec ms 0) as [H|H].
  - rewrite Z.max_l by exact H. split; reflexivity.
  - rewrite Z.max_r by lia.
    assert (HT : 0 <= ms / 1000) by (apply Z.div_pos; lia).
    destruct (Z.leb_spec (1000 * (ms / 1000) + 1) 0) as [H'|H']; [lia|].
    replace ((1000 * (ms / 1000) + 1) / 1000) with (ms / 1000);
      [split; reflexivity|].
    apply Z.div_unique with 1; lia.
Qed.

(** X16: the countdown shows exactly the whole seconds left.  Its text
    is a count of 30-day months, then days (under 30), hours (under 24),
    minutes and seconds (under 60), which add up to the whole seconds
    until the date, none once the date has passed; two instants get the
    same text exactly when the same number of whole seconds is left.  The
    second script's countdown, with the days not split into months, has
    the same property. *)
Theorem formatCountdown_whole_seconds (a b : Z) :
  (exists months days hours mins secs,
      formatCountdown a = countdown_text months days hours mins secs
      /\ 0 <= months /\ 0 <= days < 30 /\ 0 <= hours < 24
      /\ 0 <= mins < 60 /\ 0 <= secs < 60
      /\ (((months * 30 + days) * 24 + hours) * 60 + mins) * 60 + secs
         = seconds_left a)
  /\ (formatCountdown a = formatCountdown b
      <-> seconds_left a = seconds_left b)
  /\ (formatCountdown_days a = formatCountdown_days b
      <-> seconds_left a = seconds_left b).
Proof.
  split; [apply countdown_fields|]. split; split.
  - intros H.
    destruct (countdown_fields a) as (m1 & d1 & h1 & n1 & s1 & E1 & R1).
    destruct (countdown_fields b) as (m2 & d2 & h2 & n2 & s2 & E2 & R2).
    rewrite E1, E2 in H.
    apply countdown_text_inj in H; lia.
  - intros H.
    rewrite (proj1 (formatCountdown_seconds a)),
      (proj1 (formatCountdown_seconds b)), H. reflexivity.
  - intros H.
    destruct (countdown_fields_days a) as (d1 & h1 & n1 & s1 & E1 & R1).
    destruct (countdown_fields_days b) as (d2 & h2 & n2 & s2 & E2 & R2).
    rewrite E1, E2 in H.
    apply countdown_text_days_inj in H; lia.
  - intros H.
    rewrite (proj2 (formatCountdown_seconds a)),
      (proj2 (formatCountdown_seconds b)), H. reflexivity.
Qed.

(** ** Saving and restoring the goal state *)

Section SaveRestoreProofs.
Context {host : Host}.

Lemma number_or_zero_json (x : float) :
  json_number (number_or_zero (json_number x)) = VNum (stored_balance x).
Proof.
  unfold json_number, number_or_zero, stored_balance, ToNumber, ToPrimitive,
    truthy.
  destruct (is_nan x) eqn:En; cbn [orb]; [reflexivity|].
  destruct (is_infinity x) eqn:Ei; cbn [orb]; [reflexivity|].
  rewrite En. rewrite orb_false_r.
  destruct (PrimFloat.eqb x 0); cbn [negb]; [reflexivity|].
  now rewrite En, Ei.
Qed.

(** X17: what the GET handler answers after a PUT is the record the PUT
    answered, and the client's [loadState] keeps it; before any PUT (no
    state file, or one that is not JSON or holds a falsy value) the answer
    is the empty object, which [loadState] turns into null, so that
    start-up seeds the goal state from the plan. *)
Theorem get_state_after_put (body : value) (timestamp : string)
        (plan : value) (now : Date) :
  get_state (Some (fst (put_state body timestamp)))
  = snd (put_state body timestamp)
  /\ loadState (Some (get_state (Some (fst (put_state body timestamp)))))
     = snd (put_state body timestamp)
  /\ get_state None = VObj []
  /\ (forall s, truthy s = false -> get_state (Some s) = VObj [])
  /\ loadPlan_goalState plan (loadState (Some (get_state None))) now
     = initGoalState plan now.
Proof.
  repeat split.
  intros s Hs. unfold get_state, readState. now rewrite Hs.
Qed.

(** X18: saving the goal state and starting up again restores both
    balances, except that NaN, an infinity and negative zero come back as
    0; the watermark comes back if it is a valid year-month, and is
    replaced by the month of start-up otherwise.  The plan's seed
    balances are not used. *)
Theorem save_then_restore_balances (st : GoalState) (timestamp : string)
        (plan : value) (now : Date) :
  save_then_restore st timestamp plan now
  = mkGoalState (stored_balance (currentLongterm st))
                (stored_balance (currentBuffer st))
                (Some match lastRolloverYm st with
                      | Some s => if isValidYearMonth (VStr s) then s
                                  else getCurrentYearMonth now
                      | None => getCurrentYearMonth now
                      end)
  /\ ((currentLongterm st = 0%float
       \/ (is_nan (currentLongterm st) || is_infinity (currentLongterm st)
           || PrimFloat.eqb (currentLongterm st) 0) = false) ->
      (currentBuffer st = 0%float
       \/ (is_nan (currentBuffer st) || is_infinity (currentBuffer st)
           || PrimFloat.eqb (currentBuffer st) 0) = false) ->
      (exists s, lastRolloverYm st = Some s
                 /\ isValidYearMonth (VStr s) = true) ->
      save_then_restore st timestamp plan now = st).
Proof.
  assert (E : save_then_restore st timestamp plan now
              = mkGoalState (stored_balance (currentLongterm st))
                  (stored_balance (currentBuffer st))
                  (Some match lastRolloverYm st with
                        | Some s => if isValidYearMonth (VStr s) then s
                                    else getCurrentYearMonth now
                        | None => getCurrentYearMonth now
                        end)).
  { unfold save_then_restore, put_state, saveState_body.
    cbn [truthy fst]. unfold state_record.
    cbn [get assoc String.eqb Ascii.eqb Bool.eqb].
    rewrite !number_or_zero_json.
    unfold get_state, readState. cbn [truthy]. unfold loadState.
    cbn [truthy negb orb no_keys]. unfold loadPlan_goalState.
    cbn [get assoc String.eqb Ascii.eqb Bool.eqb safeNumber].
    destruct (lastRolloverYm st) as [s|]; [|reflexivity].
    reflexivity. }
  split; [exact E|].
  intros Hl Hb (s & Hs & Hv). rewrite E, Hs, Hv.
  destruct st as [l b w]. cbn [currentLongterm currentBuffer lastRolloverYm] in *.
  subst w. f_equal.
  - unfold stored_balance. destruct Hl as [-> | ->]; reflexivity.
  - unfold stored_balance. destruct Hb as [-> | ->]; reflexivity.
Qed.
End SaveRestoreProofs.

(** ** The stage timeline *)

Lemma insert_by_length (cmp : value -> value -> result comparison)
      (x : value) (sorted : list value) :
  forall l', insert_by cmp x sorted = Ok l' ->
             List.length l' = S (List.length sorted).
Proof.
  induction sorted as [|y rest IH]; intros l' H; cbn [insert_by] in H.
  - inversion H; subst. reflexivity.
  - destruct (cmp x y) as [c|msg]; cbn [bind] in H; [|discriminate].
    destruct c; try (inversion H; subst; reflexivity).
    destruct (insert_by cmp x rest) as [r|msg]; cbn [bind] in H;
      [|discriminate].
    inversion H; subst. simpl. now rewrite (IH r eq_refl).
Qed.

Lemma sort_by_length (cmp : value -> value -> result comparison)
      (l : list value) :
  forall l', sort_by cmp l = Ok l' -> List.length l' = List.length l.
Proof.
  induction l as [|x rest IH]; intros l' H; cbn [sort_by] in H.
  - inversion H; subst. reflexivity.
  - destruct (sort_by cmp rest) as [s|msg]; cbn [bind] in H; [|discriminate].
    rewrite (insert_by_length cmp x s l' H), (IH s eq_refl). reflexivity.
Qed.

Lemma findIndex_spec (p : value -> bool) (l : list value) :
  (findIndex p l = -1 /\ forall x, In x l -> p x = false)
  \/ (0 <= findIndex p l < Z.of_nat (List.length l)
      /\ exists c, nth_error l (Z.to_nat (findIndex p l)) = Some c
                   /\ p c = true).
Proof.
  induction l as [|x rest IH]; cbn [findIndex].
  - left. split; [reflexivity|]. intros x [].
  - destruct (p x) eqn:Ex.
    + right. split; [simpl List.length; lia|]. exists x. auto.
    + destruct IH as [[E Hnone]|[Hi (c & Hc & Hp)]].
      * left. rewrite E. split; [reflexivity|].
        intros y [<-|Hy]; auto.
      * right. destruct (Z.ltb_spec (findIndex p rest) 0) as [?|_]; [lia|].
        split; [simpl List.length; lia|]. exists c. split; [|exact Hp].
        replace (Z.to_nat (findIndex p rest + 1))
          with (S (Z.to_nat (findIndex p rest))) by lia.
        exact Hc.
Qed.

Section TimelineProofs.
Context {host : Host}.

Lemma slice_split (l : list value) (s e : Z) :
  0 <= s -> s <= e -> e < Z.of_nat (List.length l) ->
  exists before after,
    l = (before ++ slice l s e ++ after)%list
    /\ List.length before = Z.to_nat s
    /\ List.length (slice l s e) = Z.to_nat (e + 1 - s)
    /\ List.length after = Z.to_nat (Z.of_nat (List.length l) - 1 - e).
Proof.
  intros Hs He Hl. unfold slice.
  exists (firstn (Z.to_nat s) l),
    (skipn (Z.to_nat (e + 1 - s)) (skipn (Z.to_nat s) l)).
  split; [now rewrite firstn_skipn, firstn_skipn|].
  repeat (rewrite length_firstn || rewrite length_skipn). lia.
Qed.

Lemma nth_error_slice (l : list value) (s e i : Z) (c : value) :
  0 <= s -> s <= i -> i <= e ->
  nth_error l (Z.to_nat i) = Some c -> In c (slice l s e).
Proof.
  intros Hs Hi He H. unfold slice.
  apply nth_error_In with (Z.to_nat (i - s)).
  rewrite nth_error_firstn.
  destruct (Nat.ltb_spec (Z.to_nat (i - s)) (Z.to_nat (e + 1 - s))) as [_|?];
    [|lia].
  rewrite nth_error_skipn.
  replace (Z.to_nat s + Z.to_nat (i - s))%nat with (Z.to_nat i) by lia.
  exact H.
Qed.

(** X19: the timeline shows a window of at most three consecutive stages
    of the list sorted by [from]: all of them when there are at most
    three, and otherwise three; a stage that contains the current month is
    always among them, with an active dot; without such a stage the window
    starts at the first stage.  A hint is drawn on a side exactly when
    stages are hidden on that side. *)
Theorem timeline_window (stages : list value) (currentYm : string)
        (children : list rail_child) :
  createStageTimeline (VArr stages) currentYm = Ok children ->
  exists ordered before visible after,
    sort_by compare_timeline stages = Ok ordered
    /\ ordered = (before ++ visible ++ after)%list
    /\ List.length visible = Nat.min 3 (List.length stages)
    /\ children = (hint_for true before
                   ++ map (timeline_node currentYm) visible
                   ++ hint_for false after)%list
    /\ ((exists s, In s stages /\ is_candidate currentYm s = true) ->
        exists v, In v visible /\ is_candidate currentYm v = true
                  /\ In (timeline_node currentYm v) children)
    /\ ((forall s, In s stages -> is_candidate currentYm s = false) ->
        before = []).
Proof.
  unfold createStageTimeline.
  destruct (sort_by compare_timeline stages) as [ordered|msg] eqn:Hsort;
    cbn [bind]; [|discriminate].
  pose proof (sort_by_length _ _ _ Hsort) as Hlen.
  pose proof (sort_by_members _ _ _ Hsort) as Hmem.
  intros H. exists ordered.
  destruct ordered as [|o1 rest].
  { inversion H; subst. exists [], [], [].
    destruct stages; [|discriminate Hlen].
    repeat split; try reflexivity.
    intros (s & [] & _). }
  cbv beta iota zeta in H.
  remember (o1 :: rest) as ordered eqn:Eo.
  assert (Hn : 0 < Z.of_nat (List.length ordered))
    by (subst ordered; simpl List.length; lia).
  clear Eo o1 rest.
  set (n := Z.of_nat (List.length ordered)) in *.
  set (cur := findIndex (is_candidate currentYm) ordered) in *.
  set (s0 := if 0 <? cur then cur - 1 else 0) in *.
  set (e := Z.min (s0 + 2) (n - 1)) in *.
  set (s := Z.max 0 (e - 2)) in *.
  assert (Hcur : -1 <= cur < n).
  { destruct (findIndex_spec (is_candidate currentYm) ordered)
      as [[E _]|[Hi _]]; subst cur n; lia. }
  assert (Hs0 : 0 <= s0 <= Z.max 0 cur /\ cur - 1 <= s0).
  { subst s0. destruct (Z.ltb_spec 0 cur); lia. }
  assert (Hwin : 0 <= s /\ s <= e /\ e < n) by (subst s e; lia).
  destruct (slice_split ordered s e) as (before & after & Hsplit & Lb & Lv & La);
    try (subst n; lia).
  exists before, (slice ordered s e), after.
  split; [reflexivity|]. split; [exact Hsplit|].
  assert (Hchildren :
            children = (hint_for true before
                        ++ map (timeline_node currentYm) (slice ordered s e)
                        ++ hint_for false after)%list).
  { injection H as <-. f_equal; [|f_equal].
    - destruct (Z.ltb_spec 0 s); destruct before; simpl in Lb;
        try reflexivity; lia.
    - destruct (Z.ltb_spec e (n - 1)); destruct after; simpl in La;
        try reflexivity; subst n; lia. }
  split; [rewrite Lv, <- Hlen; subst s e n; lia|].
  split; [exact Hchildren|]. split.
  - intros (c & Hc & Pc).
    destruct (findIndex_spec (is_candidate currentYm) ordered)
      as [[_ Hnone]|[Hi (v & Hv & Pv)]].
    + rewrite (Hnone c) in Pc by (now apply Hmem). discriminate Pc.
    + fold cur in Hi, Hv.
      assert (Hin : In v (slice ordered s e)).
      { apply nth_error_slice with cur; try exact Hv; subst s e; lia. }
      exists v. split; [exact Hin|]. split; [exact Pv|].
      rewrite Hchildren. apply in_or_app. right. apply in_or_app. left.
      now apply in_map.
  - intros Hnone.
    destruct (findIndex_spec (is_candidate currentYm) ordered)
      as [[E _]|[Hi (v & Hv & Pv)]].
    + fold cur in E. destruct before; [reflexivity|].
      simpl in Lb. subst s e s0. rewrite E in *. simpl in *. lia.
    + rewrite (Hnone v) in Pv; [discriminate Pv|].
      apply Hmem. eapply nth_error_In. exact Hv.
Qed.
End TimelineProofs.

(** ** Projection and rollover *)

Section ProjectionOrder.
Context {host : Host}.

Lemma buffer_loop_before_goal_loop (stages : value)
      (targetLT targetBuf rate : float) :
  forall n cursor l b d,
    goal_loop n stages targetLT targetBuf rate cursor (l, b) = Ok (Reached d) ->
    exists i j,
      (i <= j < n)%nat
      /\ buffer_loop n stages targetBuf cursor b
         = Ok (Reached (month_cursor cursor i))
      /\ d = month_cursor cursor j.
Proof.
  induction n as [|n IH]; intros cursor l b d; cbn [goal_loop buffer_loop].
  - discriminate.
  - destruct (findStageForYearMonth stages (getCurrentYearMonth cursor))
      as [stage|msg]; cbn [bind]; [|discriminate].
    unfold simulate_month. cbn [fst snd].
    destruct (targetBuf <=? deposit b (safeNumber (get stage "saving_buffer")))%float
      eqn:Eb.
    + rewrite andb_true_r.
      destruct (targetLT <=? _)%float.
      * intros H. exists 0%nat, 0%nat. split; [lia|]. split; [reflexivity|].
        inversion H. reflexivity.
      * intros H. destruct (IH _ _ _ _ H) as (i & j & Hij & _ & Hd).
        exists 0%nat, (S j). split; [lia|]. split; [reflexivity|exact Hd].
    + rewrite andb_false_r. intros H.
      destruct (IH _ _ _ _ H) as (i & j & Hij & Hb & Hd).
      exists (S i), (S j). split; [lia|]. split; [exact Hb|exact Hd].
Qed.

(** X20: when the long-term projection reaches the goal and the buffer
    target is positive, the buffer projection reaches its target too, in
    the same simulated month or an earlier one. *)
Theorem buffer_no_later_than_goal (stages goal : value) (now : Date)
        (st : GoalState) (d : Date) :
  projectGoalDate stages goal now st = Ok (Reached d) ->
  (forall t, safeNumber (get goal "target_buffer") = Some t ->
             (t <=? 0)%float = false) ->
  exists d',
    projectBufferDate stages goal now st = Ok (Reached d')
    /\ (d' = now
        \/ exists i j,
             (i <= j)%nat
             /\ d' = month_cursor (first_of_next_month now) i
             /\ d = month_cursor (first_of_next_month now) j).
Proof.
  unfold projectGoalDate, projectBufferDate.
  destruct (safeNumber (get goal "target_longterm")) as [targetLT|];
    [|discriminate].
  destruct (safeNumber (get goal "target_buffer")) as [targetBuf|];
    [|discriminate].
  intros H Hpos. rewrite (Hpos targetBuf eq_refl).
  destruct (targetLT <=? 0)%float; [discriminate H|].
  destruct (targetBuf <? 0)%float; [discriminate H|].
  cbv zeta in H |- *.
  destruct (targetBuf <=? currentBuffer st)%float.
  - exists now. split; [reflexivity|left; reflexivity].
  - rewrite andb_false_r in H.
    destruct (buffer_loop_before_goal_loop _ _ _ _ _ _ _ _ _ H)
      as (i & j & Hij & Hb & Hd).
    exists (month_cursor (first_of_next_month now) i).
    split; [exact Hb|]. right. exists i, j.
    split; [exact (proj1 Hij)|]. split; [reflexivity|exact Hd].
Qed.
End ProjectionOrder.

Lemma month_cursor_month_start (n : nat) :
  forall k, month_cursor (month_start k) n = month_start (k + Z.of_nat n).
Proof.
  induction n as [|n IH]; intros k; cbn [month_cursor].
  - f_equal. lia.
  - rewrite addMonths_month_start, IH. f_equal. lia.
Qed.

Lemma first_of_next_month_start (y m off : Z) :
  1000 <= y -> 0 <= m <= 11 ->
  first_of_next_month (At y m off) = month_start (12 * y + m + 1).
Proof.
  intros Hy Hm. unfold first_of_next_month, new_Date, month_start.
  cbn [getFullYear getMonth option_map].
  destruct (Z.leb_spec 0 y); [|lia]. destruct (Z.leb_spec y 99); [lia|].
  cbn [andb].
  div_mod_12 (m + 1). div_mod_12 (12 * y + m + 1).
  f_equal; lia.
Qed.

Lemma year_month_of_date (y m off : Z) :
  0 <= m <= 11 ->
  getCurrentYearMonth (At y m off) = year_month (12 * y + m).
Proof.
  intros Hm. unfold year_month, month_start.
  div_mod_12 (12 * y + m).
  replace ((12 * y + m) / 12) with y by lia.
  replace ((12 * y + m) mod 12) with m by lia.
  reflexivity.
Qed.

Section ProjectionAndRollover.
Context {host : Host}.
Lemma buffer_after_months (stages : value) (n : nat) :
  forall j b b',
    buffer_after n stages (month_start (j + 1)) b = Ok b' ->
    (forall ym, In ym (months_after n j) ->
                findStageForYearMonth stages ym = Ok (resolve_stage stages ym))
    /\ b' = fold_left
              (fun balance ym =>
                 deposit balance
                   (safeNumber (get (resolve_stage stages ym) "saving_buffer")))
              (months_after n j) b.
Proof.
  induction n as [|n IH]; intros j b b'; cbn [buffer_after months_after].
  - intros H. inversion H; subst. split; [intros ym []|reflexivity].
  - change (getCurrentYearMonth (month_start (j + 1)))
      with (year_month (j + 1)).
    destruct (findStageForYearMonth stages (year_month (j + 1)))
      as [stage|msg] eqn:Ef; cbn [bind]; [|discriminate].
    rewrite addMonths_month_start. intros H.
    destruct (IH _ _ _ H) as (Hres & Hb).
    assert (Er : resolve_stage stages (year_month (j + 1)) = stage)
      by (unfold resolve_stage; now rewrite Ef).
    split.
    + intros ym [<-|Hin]; [now rewrite Er|now apply Hres].
    + cbn [fold_left]. rewrite Er. exact Hb.
Qed.

Lemma rollover_gives_projected_buffer (fuel : nat) (stages : value)
      (st : GoalState) (later : Date) (i0 : Z) (j : nat) (b : float) :
  first_month <= i0 -> i0 + 1 + Z.of_nat j <= last_month ->
  lastRolloverYm st = Some (year_month i0) ->
  getCurrentYearMonth later = year_month (i0 + 1 + Z.of_nat j) ->
  (S j < fuel)%nat ->
  buffer_after (S j) stages (month_start (i0 + 1)) (currentBuffer st) = Ok b ->
  exists st' changed,
    applyMonthlyRolloverIfNeeded fuel stages later st = Done (st', changed)
    /\ currentBuffer st' = b
    /\ lastRolloverYm st' = Some (getCurrentYearMonth later).
Proof.
  intros Hi0 Hi1 Hlast Hlater Hfuel Hb.
  destruct (buffer_after_months _ _ _ _ _ Hb) as (Hres & Eb).
  pose proof (rollover_between_months fuel stages later st i0
                (i0 + 1 + Z.of_nat j) (resolve_stage stages)) as R.
  replace (Z.to_nat (i0 + 1 + Z.of_nat j - i0)) with (S j) in R by lia.
  cbv zeta in R.
  rewrite R; try lia; try assumption.
  eexists _, _. split; [reflexivity|].
  cbn [currentBuffer lastRolloverYm]. rewrite <- Eb.
  split; reflexivity.
Qed.

(** X21: the buffer projection agrees with the rollover.  When the
    watermark is the current month and the buffer projection names a
    date, a rollover run in the month of that date (with the plan
    unchanged) leaves a buffer balance that meets the target, with the
    watermark at that month; and unless the target is met already, a
    rollover run in any earlier simulated month leaves a buffer below the
    target. *)
Theorem projected_buffer_month_is_met (fuel : nat) (stages goal : value)
        (y m off : Z) (st : GoalState) (d : Date) (target : float) :
  1000 <= y <= 9900 -> 0 <= m <= 11 ->
  lastRolloverYm st = Some (getCurrentYearMonth (At y m off)) ->
  safeNumber (get goal "target_buffer") = Some target ->
  projectBufferDate stages goal (At y m off) st = Ok (Reached d) ->
  (600 < fuel)%nat ->
  (forall later,
      getCurrentYearMonth later = getCurrentYearMonth d ->
      exists st' changed,
        applyMonthlyRolloverIfNeeded fuel stages later st = Done (st', changed)
        /\ (target <=? currentBuffer st')%float = true
        /\ lastRolloverYm st' = Some (getCurrentYearMonth later))
  /\ ((target <=? currentBuffer st)%float = true -> d = At y m off)
  /\ ((target <=? currentBuffer st)%float = false ->
      exists i,
        d = month_cursor (first_of_next_month (At y m off)) i
        /\ forall j earlier,
             (j < i)%nat ->
             getCurrentYearMonth earlier
             = getCurrentYearMonth
                 (month_cursor (first_of_next_month (At y m off)) j) ->
             exists st' changed,
               applyMonthlyRolloverIfNeeded fuel stages earlier st
               = Done (st', changed)
               /\ (target <=? currentBuffer st')%float = false).
Proof.
  intros Hy Hm Hlast Htarget Hproj Hfuel.
  unfold projectBufferDate in Hproj. rewrite Htarget in Hproj.
  destruct (target <=? 0)%float; [discriminate Hproj|].
  cbv zeta in Hproj.
  destruct (target <=? currentBuffer st)%float eqn:Enow.
  - assert (d = At y m off) by (inversion Hproj; reflexivity). subst d.
    split; [|split; [reflexivity|discriminate]].
    intros later Hlater.
    unfold applyMonthlyRolloverIfNeeded. rewrite Hlast, Hlater.
    destruct (getCurrentYearMonth (At y m off)) as [|c rest] eqn:Eym.
    + eexists _, _. split; [reflexivity|]. split; [exact Enow|reflexivity].
    + rewrite string_leb_refl.
      eexists _, _. split; [reflexivity|]. split; [exact Enow|exact Hlast].
  - rewrite first_of_next_month_start in * by lia.
    apply buffer_loop_spec in Hproj.
    destruct Hproj as (i & Hi & Hd & (b' & Hb' & Hmet) & Hbefore).
    rewrite year_month_of_date in Hlast by lia.
    set (i0 := 12 * y + m) in *.
    assert (Hi' : Z.of_nat i < 600)
      by (apply Nat2Z.inj_lt in Hi; exact Hi).
    assert (Hi0 : first_month <= i0 /\ i0 + 1 + 600 <= last_month).
    { unfold first_month, last_month, month_of. subst i0. lia. }
    assert (Hf : (S i < fuel)%nat) by lia.
    split; [|split; [discriminate|]].
    + intros later Hlater.
      rewrite Hd, month_cursor_month_start in Hlater.
      destruct (rollover_gives_projected_buffer fuel stages st later i0 i b')
        as (st' & changed & Hrun & Hbal & Hw); try assumption; try lia.
      exists st', changed. split; [exact Hrun|].
      rewrite Hbal. split; [exact Hmet|exact Hw].
    + intros _. exists i. split; [exact Hd|].
      intros j earlier Hj Hearlier.
      rewrite month_cursor_month_start in Hearlier.
      destruct (Hbefore j Hj) as (b & Hb & Hbelow).
      destruct (rollover_gives_projected_buffer fuel stages st earlier i0 j b)
        as (st' & changed & Hrun & Hbal & _); try assumption; try lia.
      exists st', changed. split; [exact Hrun|].
      rewrite Hbal. exact Hbelow.
Qed.
End ProjectionAndRollover.

(** ** Start-up *)

Section StartUpProofs.
Context {host : Host}.

Lemma rollover_loop_unchanged (stages : value) (currentYm : string) :
  forall fuel cursor st changed st',
    rollover_loop fuel stages currentYm cursor st changed = Done (st', false) ->
    changed = false
    /\ currentLongterm st' = currentLongterm st
    /\ currentBuffer st' = currentBuffer st.
Proof.
  induction fuel as [|fuel IH]; intros cursor st changed st';
    cbn [rollover_loop]; [discriminate|].
  destruct (String.leb (getCurrentYearMonth cursor) currentYm).
  - destruct (findStageForYearMonth stages (getCurrentYearMonth cursor))
      as [stage|msg]; [|discriminate].
    intros H. apply IH in H. cbn [currentLongterm currentBuffer] in H.
    destruct H as (Hc & Hl & Hb).
    destruct (safeNumber (get stage "saving_longterm")),
      (safeNumber (get stage "saving_buffer")); try discriminate Hc.
    cbn [deposit] in Hl, Hb. auto.
  - intros H.
    apply (f_equal (fun o => match o with
                             | Done p => Some p
                             | _ => None
                             end)) in H.
    cbv beta iota in H.
    assert (E : (st, changed) = (st', false)) by congruence.
    apply (f_equal snd) in E as Ec. apply (f_equal fst) in E.
    cbn [fst snd] in *. subst. auto.
Qed.

Lemma rollover_unchanged (fuel : nat) (stages : value) (now : Date)
      (st st' : GoalState) :
  applyMonthlyRolloverIfNeeded fuel stages now st = Done (st', false) ->
  currentLongterm st' = currentLongterm st
  /\ currentBuffer st' = currentBuffer st.
Proof.
  unfold applyMonthlyRolloverIfNeeded.
  assert (Hdone : forall a b : GoalState,
             Done (a, false) = Done (b, false) -> a = b).
  { intros a b H.
    apply (f_equal (fun o => match o with
                             | Done p => fst p
                             | _ => a
                             end)) in H. exact H. }
  destruct (lastRolloverYm st) as [[|c last]|].
  - intros H. apply Hdone in H. subst st'. auto.
  - destruct (String.leb _ _).
    + intros H. apply Hdone in H. subst st'. auto.
    + intros H. apply rollover_loop_unchanged in H. tauto.
  - intros H. apply Hdone in H. subst st'. auto.
Qed.

Lemma app_put_state_saved (file : option value) (s : GoalState)
      (timestamp : string) :
  exists stored,
    app_put_state file (saveState_body s) timestamp = (Some stored, Ok stored)
    /\ get stored "current_longterm"
       = VNum (stored_balance (currentLongterm s))
    /\ get stored "current_buffer"
       = VNum (stored_balance (currentBuffer s)).
Proof.
  assert (Hconv : forall x, conversion_raises (json_number x) = false).
  { intros x. unfold json_number. now destruct (is_nan x || is_infinity x). }
  unfold app_put_state, converting, put_state, saveState_body.
  cbn [truthy get assoc String.eqb Ascii.eqb Bool.eqb existsb].
  rewrite !Hconv. cbn [orb]. eexists. split; [reflexivity|].
  unfold state_record. cbn [get assoc String.eqb Ascii.eqb Bool.eqb].
  now rewrite !number_or_zero_json.
Qed.

(** X22: what start-up sends to the server.  With a plan that fails
    validation no PUT is sent and the goal state is left as it was.  With
    a valid plan at most two PUT requests are sent; the last one sent
    carries the balances of the final goal state (NaN and the infinities
    as null), and the record the handler stores for it holds them, with
    NaN, an infinity and negative zero stored as 0; when no PUT is sent
    the final balances are the ones [loadState] returned.  (The watermark
    can differ: a rollover that deposits nothing moves it without a save.
    A PUT that fails is not sent again: the result of [saveState] is not
    looked at.) *)
Theorem loadPlan_saves_balances (fuel : nat) (plan : value)
        (response : option value) (now_restore now_rollover now_render : Date)
        (goalState : GoalState) :
  (validatePlan plan <> [] ->
   loadPlan fuel plan response now_restore now_rollover now_render goalState
   = Done (mkStartUp goalState [] (ValidationErrors (validatePlan plan))))
  /\ (forall r,
        validatePlan plan = [] ->
        loadPlan fuel plan response now_restore now_rollover now_render
                 goalState = Done r ->
        (List.length (saved r) <= 2)%nat
        /\ (forall sent body,
              saved r = (sent ++ [body])%list ->
              get body "current_longterm"
              = json_number (currentLongterm (goal_state r))
              /\ get body "current_buffer"
                 = json_number (currentBuffer (goal_state r))
              /\ forall file timestamp,
                   exists stored,
                     app_put_state file body timestamp
                     = (Some stored, Ok stored)
                     /\ get stored "current_longterm"
                        = VNum (stored_balance (currentLongterm (goal_state r)))
                     /\ get stored "current_buffer"
                        = VNum (stored_balance (currentBuffer (goal_state r))))
        /\ (saved r = [] ->
            safeNumber (get (loadState response) "current_longterm")
            = Some (currentLongterm (goal_state r))
            /\ safeNumber (get (loadState response) "current_buffer")
               = Some (currentBuffer (goal_state r)))
        /\ screen r
           = DashboardScreen
               (match renderCurrentDashboard plan now_render with
                | Ok shown => shown
                | Throw _ => None
                end)).
Proof.
  unfold loadPlan. split.
  - destruct (validatePlan plan); [congruence|reflexivity].
  - intros r Hv. rewrite Hv. cbv zeta.
    set (stages := match get plan "stages" with
                   | VArr l => VArr l
                   | _ => VArr []
                   end).
    set (stored := loadState response).
    set (restored := loadPlan_goalState plan stored now_restore).
    destruct (applyMonthlyRolloverIfNeeded fuel stages now_rollover restored)
      as [[st changed]| |] eqn:Eroll; try discriminate.
    destruct (findStageForYearMonth stages (getCurrentYearMonth now_render))
      as [found|msg]; [|discriminate].
    destruct (renderCurrentDashboard plan now_render) as [shown|msg];
      [|discriminate].
    intros H.
    assert (Hr : r = mkStartUp st
                   (if changed
                    then ((match safeNumber (get stored "current_longterm"),
                                 safeNumber (get stored "current_buffer") with
                           | Some _, Some _ => []
                           | _, _ => [saveState_body restored]
                           end) ++ [saveState_body st])%list
                    else match safeNumber (get stored "current_longterm"),
                               safeNumber (get stored "current_buffer") with
                         | Some _, Some _ => []
                         | _, _ => [saveState_body restored]
                         end)
                   (DashboardScreen shown)).
    { apply (f_equal (fun o => match o with Done x => x | _ => r end)) in H.
      symmetry. exact H. }
    clear H. subst r. cbn [saved goal_state screen].
    assert (Hbody : forall s,
               get (saveState_body s) "current_longterm"
               = json_number (currentLongterm s)
               /\ get (saveState_body s) "current_buffer"
                  = json_number (currentBuffer s)
               /\ forall file timestamp,
                    exists stored,
                      app_put_state file (saveState_body s) timestamp
                      = (Some stored, Ok stored)
                      /\ get stored "current_longterm"
                         = VNum (stored_balance (currentLongterm s))
                      /\ get stored "current_buffer"
                         = VNum (stored_balance (currentBuffer s)))
      by (intros s; split; [reflexivity|]; split; [reflexivity|];
          intros file timestamp; apply app_put_state_saved).
    destruct changed.
    + split; [|split; [|split; [|reflexivity]]].
      * destruct (safeNumber (get stored "current_longterm")),
          (safeNumber (get stored "current_buffer")); simpl; lia.
      * intros sent body E. apply app_inj_tail in E as [_ <-]. apply Hbody.
      * intros E. destruct (safeNumber (get stored "current_longterm")),
          (safeNumber (get stored "current_buffer")); discriminate E.
    + destruct (rollover_unchanged _ _ _ _ _ Eroll) as (Hl & Hb).
      split; [|split; [|split; [|reflexivity]]].
      * destruct (safeNumber (get stored "current_longterm")),
          (safeNumber (get stored "current_buffer")); simpl; lia.
      * intros sent body E. rewrite Hl, Hb.
        destruct (safeNumber (get stored "current_longterm")),
          (safeNumber (get stored "current_buffer"));
          try (destruct sent; discriminate E);
          change [saveState_body restored]
            with ([] ++ [saveState_body restored])%list in E;
          apply app_inj_tail in E as [_ <-]; apply Hbody.
      * intros E. rewrite Hl, Hb. subst restored.
        unfold loadPlan_goalState.
        destruct (safeNumber (get stored "current_longterm")),
          (safeNumber (get stored "current_buffer")); try discriminate E.
        split; reflexivity.
Qed.
End StartUpProofs.

(** * Worked examples of the further properties *)

(** December 2025 and January 2026 as strings and as months. *)
Lemma valid_year_months_order_witness :
  isValidYearMonth (VStr "2025-12") = true
  /\ isValidYearMonth (VStr "2026-01") = true
  /\ String.compare "2025-12" "2026-01"
     = Z.compare (calendar_number "2025-12") (calendar_number "2026-01").
Proof.
  split; [reflexivity|]. split; [reflexivity|].
  exact (proj1 (valid_year_months_order "2025-12" "2026-01"
                  eq_refl eq_refl)).
Defined.

(** The string of a date in April 2025. *)
Lemma current_year_month_valid_witness :
  1000 <= 2025 <= 9999 /\ 0 <= 3 <= 11
  /\ parseYearMonth (getCurrentYearMonth (At 2025 3 86400000)) = At 2025 3 0.
Proof.
  split; [lia|]. split; [lia|].
  exact (proj1 (proj2 (current_year_month_valid 2025 3 86400000
                         ltac:(lia) ltac:(lia)))).
Defined.

Lemma parse_then_format_witness :
  isValidYearMonth (VStr "2025-04") = true
  /\ String.leb "1000-01" "2025-04" = true
  /\ getCurrentYearMonth (parseYearMonth "2025-04") = "2025-04".
Proof.
  split; [reflexivity|]. split; [reflexivity|].
  exact (parse_then_format "2025-04" eq_refl eq_refl).
Defined.

(** Three months from November 2025. *)
Lemma addMonths_adds_witness :
  0 <= 10 <= 11
  /\ month_cursor (At 2025 10 0) 3
     = At (2025 + (10 + 3) / 12) ((10 + 3) mod 12) 0.
Proof.
  split; [lia|].
  exact (proj2 (addMonths_adds 2025 10 1 2 3) ltac:(lia)).
Defined.

(** A start-up on the README's plan with nothing stored. *)
Lemma first_run_no_deposit_witness :
  isValidYearMonth (get VNull "last_rollover_ym") = false
  /\ applyMonthlyRolloverIfNeeded (host := reference_host) 10
       (VArr [new_role; promotion]) (At 2025 3 0)
       (loadPlan_goalState example_plan VNull (At 2025 3 0))
     = Done (loadPlan_goalState example_plan VNull (At 2025 3 0), false).
Proof.
  split; [reflexivity|].
  exact (proj2 (first_run_no_deposit (host := reference_host) 10
                  example_plan (VArr [new_role; promotion]) VNull
                  (At 2025 3 0)) eq_refl).
Defined.

(** A catch-up from January to April 2025, and a second run in April. *)
Lemma rollover_again_is_noop_witness :
  four_digit_year_month "2025-01"
  /\ String.ltb "2025-01" (getCurrentYearMonth (At 2025 3 0)) = true
  /\ exists st' changed,
       applyMonthlyRolloverIfNeeded (host := reference_host) 10
         (VArr [saver]) (At 2025 3 0)
         (mkGoalState 220000 20000 (Some "2025-01"))
       = Done (st', changed)
       /\ applyMonthlyRolloverIfNeeded (host := reference_host) 10
            (VArr [saver]) (At 2025 3 86400000) st'
          = Done (st', false).
Proof.
  split; [split; reflexivity|]. split; [reflexivity|].
  refine (rollover_again_is_noop (host := reference_host) 10 10
            (VArr [saver]) (At 2025 3 0) (At 2025 3 86400000)
            (mkGoalState 220000 20000 (Some "2025-01")) "2025-01"
            (fun _ => saver) _ _ _ _ _ _ _ _).
  - reflexivity.
  - split; reflexivity.
  - split; reflexivity.
  - reflexivity.
  - reflexivity.
  - vm_compute; lia.
  - intros ym Hin. vm_compute in Hin.
    destruct Hin as [<-|[<-|[<-|[]]]]; reflexivity.
  - reflexivity.
Defined.

(** January to February, then February to April 2025. *)
Lemma rollover_in_two_steps_witness :
  String.ltb "2025-01" (getCurrentYearMonth (At 2025 1 0)) = true
  /\ String.ltb (getCurrentYearMonth (At 2025 1 0))
                (getCurrentYearMonth (At 2025 3 0)) = true
  /\ exists st1 c1 st2 c2,
       applyMonthlyRolloverIfNeeded (host := reference_host) 10
         (VArr [saver]) (At 2025 1 0)
         (mkGoalState 220000 20000 (Some "2025-01"))
       = Done (st1, c1)
       /\ applyMonthlyRolloverIfNeeded (host := reference_host) 10
            (VArr [saver]) (At 2025 3 0) st1
          = Done (st2, c2)
       /\ applyMonthlyRolloverIfNeeded (host := reference_host) 10
            (VArr [saver]) (At 2025 3 0)
            (mkGoalState 220000 20000 (Some "2025-01"))
          = Done (st2, c1 || c2).
Proof.
  split; [reflexivity|]. split; [reflexivity|].
  refine (rollover_in_two_steps (host := reference_host) 10
            (VArr [saver]) (At 2025 1 0) (At 2025 3 0)
            (mkGoalState 220000 20000 (Some "2025-01")) "2025-01"
            (fun _ => saver) _ _ _ _ _ _ _ _ _).
  - reflexivity.
  - split; reflexivity.
  - split; reflexivity.
  - split; reflexivity.
  - reflexivity.
  - reflexivity.
  - reflexivity.
  - vm_compute; lia.
  - intros ym Hin. vm_compute in Hin.
    destruct Hin as [<-|[<-|[<-|[]]]]; reflexivity.
Defined.

(** Three skipped months on a plan whose only stage saves nothing. *)
Lemma rollover_without_deposits_witness :
  (forall ym,
      In ym (months_after 3 (month_index "2025-01")) ->
      findStageForYearMonth (host := reference_host) (VArr [idle]) ym
      = Ok idle
      /\ has_deposit idle = false)
  /\ applyMonthlyRolloverIfNeeded (host := reference_host) 10 (VArr [idle])
       (At 2025 3 0) (mkGoalState 220000 20000 (Some "2025-01"))
     = Done (mkGoalState 220000 20000 (Some "2025-04"), false).
Proof.
  assert (H : forall ym,
             In ym (months_after 3 (month_index "2025-01")) ->
             findStageForYearMonth (host := reference_host) (VArr [idle]) ym
             = Ok idle
             /\ has_deposit idle = false).
  { intros ym Hin. vm_compute in Hin.
    destruct Hin as [<-|[<-|[<-|[]]]]; split; reflexivity. }
  split; [exact H|].
  refine (proj1 (rollover_without_deposits (host := reference_host) 10
                   (VArr [idle]) (At 2025 3 0)
                   (mkGoalState 220000 20000 (Some "2025-01")) "2025-01"
                   (fun _ => idle) _ _ _ _ _ _) H).
  - reflexivity.
  - split; reflexivity.
  - split; reflexivity.
  - reflexivity.
  - reflexivity.
  - vm_compute; lia.
Defined.

(** June 2025 on the README's stages. *)
Lemma findStage_answers_from_the_list_witness :
  findStageForYearMonth (host := reference_host)
    (VArr [new_role; promotion]) "2025-06" = Ok new_role
  /\ (new_role = VNull
      \/ exists l, VArr [new_role; promotion] = VArr l /\ In new_role l).
Proof.
  split; [reflexivity|].
  exact (proj1 (findStage_answers_from_the_list (host := reference_host)
                  (VArr [new_role; promotion]) "2025-06" new_role
                  eq_refl)).
Defined.

(** In June 2025 the next stage of the README's plan is the promotion. *)
Lemma getNextStage_after_current_witness :
  collates_year_months reference_host
  /\ Forall (fun s => stage_ok s = true) [new_role; promotion]
  /\ exists next current,
       getNextStage (host := reference_host)
         (VArr [new_role; promotion]) "2025-06" = Ok next
       /\ findStageForYearMonth (host := reference_host)
            (VArr [new_role; promotion]) "2025-06" = Ok current
       /\ In next [new_role; promotion]
       /\ String.ltb (from_of current) (from_of next) = true.
Proof.
  assert (Hok : Forall (fun s => stage_ok s = true) [new_role; promotion])
    by (repeat constructor).
  split; [exact reference_host_collates|]. split; [exact Hok|].
  destruct (getNextStage_after_current (host := reference_host)
              [new_role; promotion] "2025-06"
              reference_host_collates ltac:(discriminate) Hok)
    as (next & current & Hn & Hc & _ & Hup).
  destruct Hup as (Hin & _ & _ & Hafter & _).
  { exists promotion. split; [right; left; reflexivity|reflexivity]. }
  exists next, current. split; [exact Hn|]. split; [exact Hc|].
  split; [exact Hin|]. apply Hafter.
  exists new_role. split; [left; reflexivity|reflexivity].
Defined.

(** The README's plan passes the validator. *)
Lemma validatePlan_accepts_witness :
  validatePlan example_plan = []
  /\ exists stages,
       get example_plan "stages" = VArr stages /\ stages <> []
       /\ Forall (fun s => malformed s = false) stages.
Proof.
  split; [reflexivity|].
  destruct (proj1 (validatePlan_accepts example_plan) eq_refl)
    as (stages & Hs & Hne & Hall & _).
  exists stages. split; [exact Hs|]. split; [exact Hne|exact Hall].
Defined.

(** The first stage of the README's plan leaves 7500 in the pocket. *)
Lemma leftover_needs_every_amount_witness :
  safeNumber (get new_role "net_income") = Some 42000%float
  /\ leftover (computeViewModel new_role)
     = Some (42000 - (18000 + 6000) - (9000 + 1500))%float
  /\ leftover (computeViewModel idle) = None.
Proof.
  split; [reflexivity|]. split.
  - exact (proj1 (proj2 (leftover_needs_every_amount new_role))
             42000%float 18000%float 6000%float 9000%float 1500%float
             eq_refl eq_refl eq_refl eq_refl eq_refl).
  - apply (proj2 (proj1 (leftover_needs_every_amount idle))).
    exists "net_income". split; [left; reflexivity|reflexivity].
Defined.

(** The dashboard of June 2025 on the README's plan. *)
Lemma dashboard_names_a_stage_witness :
  collates_year_months reference_host
  /\ validatePlan example_plan = []
  /\ exists stage name,
       In stage [new_role; promotion]
       /\ renderCurrentDashboard (host := reference_host) example_plan
            (At 2025 5 0)
          = Ok (Some ("2025-06", computeViewModel stage))
       /\ stageName (computeViewModel stage) = VStr name.
Proof.
  split; [exact reference_host_collates|]. split; [reflexivity|].
  destruct (dashboard_names_a_stage (host := reference_host) example_plan
              (At 2025 5 0) reference_host_collates eq_refl)
    as (stages & stage & name & Hs & Hin & _ & _ & Hr & Hn).
  exists stage, name.
  assert (E : stages = [new_role; promotion]).
  { apply (f_equal (fun v => match v with VArr l => l | _ => [] end)) in Hs.
    symmetry. exact Hs. }
  rewrite E in Hin. split; [exact Hin|]. split; [exact Hr|exact Hn].
Defined.

(** 150 per cent is shown as 100. *)
Lemma clamp_percent_witness :
  is_nan 150 = false /\ PrimFloat.ltb 100 150 = true
  /\ clamp 150 0 100 = 100%float.
Proof.
  split; [reflexivity|]. split; [reflexivity|].
  exact (proj1 (proj2 (proj2 (proj2 (clamp_percent 150) eq_refl)))
           eq_refl).
Defined.

(** 220000 saved of a target of 1200000. *)
Lemma progress_percent_bounds_witness :
  is_nan (progress_percent (Some 1200000%float) 220000) = false
  /\ is_percentage (progress_percent (Some 1200000%float) 220000) = true
  /\ progress_percent None 220000 = 0%float.
Proof.
  split; [reflexivity|]. split.
  - exact (proj1 (proj2 (proj2
             (progress_percent_bounds (Some 1200000%float) 220000)))
             eq_refl).
  - apply (proj1 (progress_percent_bounds None 220000)).
    intros t Ht. discriminate Ht.
Defined.

(** One day, one hour, one minute and one second, with and without half a
    second more. *)
Lemma formatCountdown_whole_seconds_witness :
  seconds_left 90061000 = seconds_left 90061500
  /\ formatCountdown 90061000 = formatCountdown 90061500
  /\ formatCountdown 90061000 = "0mo 01d 01:01:01".
Proof.
  split; [reflexivity|]. split; [|reflexivity].
  exact (proj2 (proj1 (proj2
           (formatCountdown_whole_seconds 90061000 90061500))) eq_refl).
Defined.

(** A first save from the browser, read back by the next page load. *)
Lemma get_state_after_put_witness :
  truthy VNull = false
  /\ get_state (Some VNull) = VObj []
  /\ get_state
       (Some (fst (put_state (host := reference_host)
                     (saveState_body (mkGoalState 223000 21500
                                        (Some "2025-04")))
                     "2025-04-01T00:00:00.000Z")))
     = snd (put_state (host := reference_host)
              (saveState_body (mkGoalState 223000 21500 (Some "2025-04")))
              "2025-04-01T00:00:00.000Z").
Proof.
  split; [reflexivity|]. split.
  - exact (proj1 (proj2 (proj2 (proj2
             (get_state_after_put (host := reference_host) VNull ""
                example_plan (At 2025 3 0))))) VNull eq_refl).
  - exact (proj1 (get_state_after_put (host := reference_host)
                    (saveState_body (mkGoalState 223000 21500
                                       (Some "2025-04")))
                    "2025-04-01T00:00:00.000Z" example_plan (At 2025 3 0))).
Defined.

(** The state after the April rollover, saved and restored in May. *)
Lemma save_then_restore_balances_witness :
  isValidYearMonth (VStr "2025-04") = true
  /\ save_then_restore (host := reference_host)
       (mkGoalState 223000 21500 (Some "2025-04"))
       "2025-04-01T00:00:00.000Z" example_plan (At 2025 4 0)
     = mkGoalState 223000 21500 (Some "2025-04").
Proof.
  split; [reflexivity|].
  refine (proj2 (save_then_restore_balances (host := reference_host)
                   (mkGoalState 223000 21500 (Some "2025-04"))
                   "2025-04-01T00:00:00.000Z" example_plan (At 2025 4 0))
            _ _ _).
  - right. reflexivity.
  - right. reflexivity.
  - exists "2025-04". split; reflexivity.
Defined.

(** The timeline of June 2025 on the README's stages. *)
Lemma timeline_window_witness :
  createStageTimeline (host := reference_host)
    (VArr [promotion; new_role]) "2025-06"
  = Ok [TimelineNode "New role" true "2025-01–2025-12";
        TimelineNode "Promotion" false "2026-01"]
  /\ exists v,
       is_candidate (host := reference_host) "2025-06" v = true
       /\ In (timeline_node (host := reference_host) "2025-06" v)
            [TimelineNode "New role" true "2025-01–2025-12";
             TimelineNode "Promotion" false "2026-01"].
Proof.
  split; [reflexivity|].
  destruct (timeline_window (host := reference_host)
              [promotion; new_role] "2025-06" _ eq_refl)
    as (ordered & before & visible & after & _ & _ & _ & _ & Hcur & _).
  destruct Hcur as (v & _ & Hv & Hin).
  { exists new_role. split; [right; left; reflexivity|reflexivity]. }
  exists v. split; [exact Hv|exact Hin].
Defined.

(** A goal of 1000 and 500 that the first simulated month meets. *)
Lemma buffer_no_later_than_goal_witness :
  projectGoalDate (host := reference_host) (VArr [saver])
    (VObj [("target_longterm", VNum 1000); ("target_buffer", VNum 500)])
    (At 2025 3 0) (mkGoalState 0 0 (Some "2025-04"))
  = Ok (Reached (At 2025 4 0))
  /\ exists d',
       projectBufferDate (host := reference_host) (VArr [saver])
         (VObj [("target_longterm", VNum 1000); ("target_buffer", VNum 500)])
         (At 2025 3 0) (mkGoalState 0 0 (Some "2025-04"))
       = Ok (Reached d').
Proof.
  split; [reflexivity|].
  destruct (buffer_no_later_than_goal (host := reference_host) (VArr [saver])
              (VObj [("target_longterm", VNum 1000);
                     ("target_buffer", VNum 500)])
              (At 2025 3 0) (mkGoalState 0 0 (Some "2025-04"))
              (At 2025 4 0) eq_refl)
    as (d' & Hd' & _).
  - intros t Ht.
    apply (f_equal (fun o => match o with
                             | Some x => (x <=? 0)%float
                             | None => false
                             end)) in Ht.
    symmetry. exact Ht.
  - exists d'. exact Hd'.
Defined.

(** A buffer target of 1000 with 500 a month: projected for June 2025,
    and met by the rollover run in June. *)
Lemma projected_buffer_month_is_met_witness :
  projectBufferDate (host := reference_host) (VArr [saver])
    (VObj [("target_buffer", VNum 1000)])
    (At 2025 3 0) (mkGoalState 0 0 (Some "2025-04"))
  = Ok (Reached (At 2025 5 0))
  /\ exists st' changed,
       applyMonthlyRolloverIfNeeded (host := reference_host) 601
         (VArr [saver]) (At 2025 5 86400000)
         (mkGoalState 0 0 (Some "2025-04"))
       = Done (st', changed)
       /\ (1000 <=? currentBuffer st')%float = true.
Proof.
  split; [reflexivity|].
  destruct (proj1 (projected_buffer_month_is_met (host := reference_host)
                     601 (VArr [saver])
                     (VObj [("target_buffer", VNum 1000)])
                     2025 3 0 (mkGoalState 0 0 (Some "2025-04"))
                     (At 2025 5 0) 1000%float
                     ltac:(lia) ltac:(lia) eq_refl eq_refl eq_refl
                     (le_n 601))
              (At 2025 5 86400000) eq_refl)
    as (st' & changed & Hrun & Hmet & _).
  exists st', changed. split; [exact Hrun|exact Hmet].
Defined.

(** A first start-up on the README's plan against a server without a
    state file, and a plan without stages. *)
Lemma loadPlan_saves_balances_witness :
  validatePlan (VObj []) <> []
  /\ loadPlan (host := reference_host) 10 (VObj []) (Some (VObj []))
       (At 2025 5 0) (At 2025 5 0) (At 2025 5 0) initial_goalState
     = Done (mkStartUp initial_goalState []
               (ValidationErrors (validatePlan (VObj []))))
  /\ validatePlan example_plan = []
  /\ exists r,
       loadPlan (host := reference_host) 10 example_plan (Some (VObj []))
         (At 2025 5 0) (At 2025 5 0) (At 2025 5 0) initial_goalState
       = Done r
       /\ saved r
          = [saveState_body (mkGoalState 220000 20000 (Some "2025-06"))]
       /\ forall sent body,
            saved r = (sent ++ [body])%list ->
            get body "current_longterm"
            = json_number (currentLongterm (goal_state r)).
Proof.
  assert (Hbad : validatePlan (VObj []) <> []) by discriminate.
  split; [exact Hbad|]. split.
  - exact (proj1 (loadPlan_saves_balances (host := reference_host) 10
                    (VObj []) (Some (VObj []))
                    (At 2025 5 0) (At 2025 5 0) (At 2025 5 0)
                    initial_goalState) Hbad).
  - split; [reflexivity|].
    eexists. split; [reflexivity|]. split; [reflexivity|].
    intros sent body E.
    exact (proj1 (proj1 (proj2 (proj2
             (loadPlan_saves_balances (host := reference_host) 10
                example_plan (Some (VObj []))
                (At 2025 5 0) (At 2025 5 0) (At 2025 5 0)
                initial_goalState) _ eq_refl eq_refl)) sent body E)).
Defined.
